(** * LuggageLink: the storage layer and its matching, status and rating logic

    A shallow embedding of [server/storage.ts] (class [MemStorage]),
    [server/pgStorage.ts] (class [PgStorage]) and of the entity types of
    [shared/schema.ts], followed by the properties of the storage interface.

    Conventions of the embedding.
    - A JavaScript [number] used as an identifier or a count is a [Z]; a
      [number] holding a weight, a price or a rating is a [Q], the rational
      that a finite double denotes ([NaN] and the infinities are not
      represented).  Such numbers are compared, which is exact; the one
      quotient that the code computes, the rating of a user, is the
      double-precision quotient [JsNumber.divide].
    - A [Date] is its time value, a [Z] of milliseconds; [new Date()] is an
      argument [now] of the operation that calls it.
    - A [string] is a sequence of 8-bit characters; [toLowerCase] and SQL
      [LOWER] act on the letters A-Z.
    - [async] methods run to completion one after the other, so a method is
      a function from the store to an outcome and a new store.  [throw] is
      an outcome of its own. *)

From Stdlib Require Import ZArith QArith List String Ascii Bool Lia.
From Stdlib Require Import Sorted Permutation SpecFloat.
Import ListNotations.

Local Open Scope string_scope.
Local Open Scope list_scope.
Local Open Scope Z_scope.

Abbreviation Date := Z (only parsing).

(** ** JavaScript strings *)

Module JsString.

Definition lower_ascii (c : ascii) : ascii :=
  let n := nat_of_ascii c in
  if (Nat.leb 65 n && Nat.leb n 90)%bool then ascii_of_nat (n + 32) else c.

(** [String.prototype.toLowerCase]. *)
Fixpoint toLowerCase (s : string) : string :=
  match s with
  | EmptyString => EmptyString
  | String c s' => String (lower_ascii c) (toLowerCase s')
  end.

(** [s.startsWith(sub)]. *)
Fixpoint startsWith (s sub : string) {struct sub} : bool :=
  match sub, s with
  | EmptyString, _ => true
  | String _ _, EmptyString => false
  | String c sub', String d s' => (Ascii.eqb c d && startsWith s' sub')%bool
  end.

(** [s.includes(sub)]: [sub] occurs in [s] at some position. *)
Fixpoint includes (s sub : string) : bool :=
  (startsWith s sub ||
   match s with
   | EmptyString => false
   | String _ s' => includes s' sub
   end)%bool.

(** Truthiness of a string: every string but the empty one. *)
Definition truthy (s : string) : bool :=
  match s with EmptyString => false | String _ _ => true end.

End JsString.

(** ** JavaScript [Map] with number keys

    A [Map] iterates in insertion order, and [set] on a key already present
    replaces the value where it stands. *)

Module JsMap.

Definition t (V : Type) : Type := list (Z * V).

Section Ops.
Context {V : Type}.

Definition empty : t V := [].

Fixpoint get (k : Z) (m : t V) : option V :=
  match m with
  | [] => None
  | (k', v) :: m' => if Z.eqb k k' then Some v else get k m'
  end.

Fixpoint set (k : Z) (v : V) (m : t V) : t V :=
  match m with
  | [] => [(k, v)]
  | (k', v') :: m' =>
      if Z.eqb k k' then (k, v) :: m' else (k', v') :: set k v m'
  end.

Definition keys (m : t V) : list Z := map fst m.

(** [Array.from(m.values())]. *)
Definition values (m : t V) : list V := map snd m.

End Ops.

End JsMap.

(** ** [Array.prototype.sort] with a comparator

    The sort of ECMAScript is stable; for a comparator that is a total
    preorder the result is the one of this insertion sort. *)

Module JsArray.

Section Sort.
Context {A : Type} (compareFn : A -> A -> Z).

Fixpoint insert (x : A) (l : list A) : list A :=
  match l with
  | [] => [x]
  | y :: l' => if compareFn x y <=? 0 then x :: l else y :: insert x l'
  end.

Fixpoint sort (l : list A) : list A :=
  match l with
  | [] => []
  | x :: l' => insert x (sort l')
  end.

End Sort.

(** [l.reduce((sum, x) => sum + f(x), 0)]. *)
Definition reduce_sum {A : Type} (f : A -> Z) (l : list A) : Z :=
  fold_left (fun sum x => sum + f x) l 0.

End JsArray.

(** ** Object spread

    In [{ ...obj, ...data }] a key of [data] replaces the one of [obj], and
    a key that [data] does not have keeps the value of [obj]. *)

Module JsObject.

Definition spread_key {A : Type} (old : A) (new : option A) : A :=
  match new with
  | Some x => x
  | None => old
  end.

End JsObject.

(** ** Entities of [shared/schema.ts]

    [t] is the selected row type ([typeof table.$inferSelect]), [Insert.t]
    the validated insert payload and [Partial.t] is [Partial<t>]: a key is
    absent ([None]) or carries a value.  A column the schema leaves nullable
    is an [option] where [Partial<t>] updates can store [null] in it (trips
    and packages); the nullable columns of the other entities are written by
    the storage classes only, always with a value, and are not options. *)

Module User.

Module Verification.
Record t := mk {
  idVerified : bool;
  phoneVerified : bool;
  addressVerified : bool }.

Module Partial.
Record t := mk {
  idVerified : option bool;
  phoneVerified : option bool;
  addressVerified : option bool }.
End Partial.

(** [{ ...status, ...data }]. *)
Definition spread (status : t) (data : Partial.t) : t :=
  {| idVerified :=
       JsObject.spread_key (idVerified status) (Partial.idVerified data);
     phoneVerified :=
       JsObject.spread_key (phoneVerified status) (Partial.phoneVerified data);
     addressVerified :=
       JsObject.spread_key (addressVerified status)
                           (Partial.addressVerified data) |}.

(** [Object.values(status)]. *)
Definition values (status : t) : list bool :=
  [idVerified status; phoneVerified status; addressVerified status].
End Verification.

Module Insert.
Record t := mk {
  password : string;
  email : string;
  firstName : string;
  lastName : string;
  profileImage : option string }.
End Insert.

Record t := mk {
  id : Z;
  password : string;
  email : string;
  firstName : string;
  lastName : string;
  profileImage : option string;
  isVerified : bool;
  verificationStatus : Verification.t;
  createdAt : Date;
  rating : Q;
  reviewCount : Z }.

End User.

Module Trip.

Module Insert.
Record t := mk {
  departureAirport : string;
  destinationCity : string;
  departureDate : Date;
  arrivalDate : Date;
  airline : option string;
  flightNumber : option string;
  availableWeight : Q;
  pricePerKg : Q;
  notes : option string }.
End Insert.

Record t := mk {
  id : Z;
  userId : Z;
  departureAirport : string;
  destinationCity : string;
  departureDate : Date;
  arrivalDate : Date;
  airline : option string;
  flightNumber : option string;
  availableWeight : Q;
  pricePerKg : Q;
  notes : option string;
  isActive : option bool;
  createdAt : option Date }.

Module Partial.
Record t := mk {
  id : option Z;
  userId : option Z;
  departureAirport : option string;
  destinationCity : option string;
  departureDate : option Date;
  arrivalDate : option Date;
  airline : option (option string);
  flightNumber : option (option string);
  availableWeight : option Q;
  pricePerKg : option Q;
  notes : option (option string);
  isActive : option (option bool);
  createdAt : option (option Date) }.

(** The object [{}]. *)
Definition empty : t :=
  mk None None None None None None None None None None None None None.
End Partial.

(** [{ ...trip, ...tripData }]. *)
Definition spread (trip : t) (tripData : Partial.t) : t :=
  {| id := JsObject.spread_key (id trip) (Partial.id tripData);
     userId := JsObject.spread_key (userId trip) (Partial.userId tripData);
     departureAirport :=
       JsObject.spread_key (departureAirport trip)
                           (Partial.departureAirport tripData);
     destinationCity :=
       JsObject.spread_key (destinationCity trip)
                           (Partial.destinationCity tripData);
     departureDate :=
       JsObject.spread_key (departureDate trip)
                           (Partial.departureDate tripData);
     arrivalDate :=
       JsObject.spread_key (arrivalDate trip) (Partial.arrivalDate tripData);
     airline := JsObject.spread_key (airline trip) (Partial.airline tripData);
     flightNumber :=
       JsObject.spread_key (flightNumber trip) (Partial.flightNumber tripData);
     availableWeight :=
       JsObject.spread_key (availableWeight trip)
                           (Partial.availableWeight tripData);
     pricePerKg :=
       JsObject.spread_key (pricePerKg trip) (Partial.pricePerKg tripData);
     notes := JsObject.spread_key (notes trip) (Partial.notes tripData);
     isActive :=
       JsObject.spread_key (isActive trip) (Partial.isActive tripData);
     createdAt :=
       JsObject.spread_key (createdAt trip) (Partial.createdAt tripData) |}.

End Trip.

Module Package.

Record Dimensions := mkDimensions {
  length : Q;
  width : Q;
  height : Q }.

Module Insert.
Record t := mk {
  senderCity : string;
  receiverCity : string;
  packageType : string;
  weight : Q;
  dimensions : option Dimensions;
  deliveryDeadline : option Date;
  offeredPayment : Q;
  description : option string }.
End Insert.

Record t := mk {
  id : Z;
  userId : Z;
  senderCity : string;
  receiverCity : string;
  packageType : string;
  weight : Q;
  dimensions : option Dimensions;
  deliveryDeadline : option Date;
  offeredPayment : Q;
  description : option string;
  status : option string;
  isActive : option bool;
  createdAt : option Date }.

Module Partial.
Record t := mk {
  id : option Z;
  userId : option Z;
  senderCity : option string;
  receiverCity : option string;
  packageType : option string;
  weight : option Q;
  dimensions : option (option Dimensions);
  deliveryDeadline : option (option Date);
  offeredPayment : option Q;
  description : option (option string);
  status : option (option string);
  isActive : option (option bool);
  createdAt : option (option Date) }.

(** The object [{}]. *)
Definition empty : t :=
  mk None None None None None None None None None None None None None.

(** The object [{ status: s }]. *)
Definition of_status (s : string) : t :=
  mk None None None None None None None None None None (Some (Some s))
     None None.
End Partial.

(** [{ ...pkg, ...packageData }]. *)
Definition spread (pkg : t) (packageData : Partial.t) : t :=
  {| id := JsObject.spread_key (id pkg) (Partial.id packageData);
     userId := JsObject.spread_key (userId pkg) (Partial.userId packageData);
     senderCity :=
       JsObject.spread_key (senderCity pkg) (Partial.senderCity packageData);
     receiverCity :=
       JsObject.spread_key (receiverCity pkg)
                           (Partial.receiverCity packageData);
     packageType :=
       JsObject.spread_key (packageType pkg) (Partial.packageType packageData);
     weight := JsObject.spread_key (weight pkg) (Partial.weight packageData);
     dimensions :=
       JsObject.spread_key (dimensions pkg) (Partial.dimensions packageData);
     deliveryDeadline :=
       JsObject.spread_key (deliveryDeadline pkg)
                           (Partial.deliveryDeadline packageData);
     offeredPayment :=
       JsObject.spread_key (offeredPayment pkg)
                           (Partial.offeredPayment packageData);
     description :=
       JsObject.spread_key (description pkg) (Partial.description packageData);
     status := JsObject.spread_key (status pkg) (Partial.status packageData);
     isActive :=
       JsObject.spread_key (isActive pkg) (Partial.isActive packageData);
     createdAt :=
       JsObject.spread_key (createdAt pkg) (Partial.createdAt packageData) |}.

(** [pkg] with its [status] replaced, every other field kept. *)
Definition with_status (s : option string) (pkg : t) : t :=
  mk (id pkg) (userId pkg) (senderCity pkg) (receiverCity pkg)
     (packageType pkg) (weight pkg) (dimensions pkg) (deliveryDeadline pkg)
     (offeredPayment pkg) (description pkg) s (isActive pkg) (createdAt pkg).

End Package.

Module Delivery.

Module Insert.
Record t := mk {
  tripId : Z;
  packageId : Z;
  travelerId : Z;
  senderId : Z }.
End Insert.

Record t := mk {
  id : Z;
  tripId : Z;
  packageId : Z;
  travelerId : Z;
  senderId : Z;
  status : string;
  paymentStatus : string;
  createdAt : Date;
  updatedAt : Date }.

Inductive Role := traveler | sender.

End Delivery.

Module Message.

Module Insert.
Record t := mk {
  senderId : Z;
  receiverId : Z;
  content : string }.
End Insert.

Record t := mk {
  id : Z;
  senderId : Z;
  receiverId : Z;
  content : string;
  isRead : bool;
  createdAt : Date }.

End Message.

Module Review.

Module Insert.
Record t := mk {
  reviewerId : Z;
  revieweeId : Z;
  deliveryId : option Z;
  rating : Z;
  comment : option string }.
End Insert.

Record t := mk {
  id : Z;
  reviewerId : Z;
  revieweeId : Z;
  deliveryId : option Z;
  rating : Z;
  comment : option string;
  createdAt : Date }.

Inductive Role := reviewer | reviewee.

End Review.

(** ** Division of JavaScript numbers

    [a / b] on two numbers that hold integers: the IEEE 754 binary64
    quotient, rounded to nearest with ties to even, as [SpecFloat]
    specifies it.  The result is given as the rational it denotes; a
    quotient that is not finite (a divisor 0) is not represented and reads
    as 0.  The dividend is a sum of ratings, which the code adds up as
    numbers: the sum is taken in [Z], which is what the additions give as
    long as it stays within 2^53. *)

Module JsNumber.

Definition prec : Z := 53.
Definition emax : Z := 1024.

(** The double that holds the integer [n] (the nearest one, beyond
    2^53). *)
Definition of_int (n : Z) : spec_float := binary_normalize prec emax n 0 false.

(** The rational that a finite double denotes. *)
Definition to_Q (x : spec_float) : Q :=
  match x with
  | S754_finite s m e => (inject_Z (cond_Zopp s (Zpos m)) * (2 # 1) ^ e)%Q
  | _ => 0%Q
  end.

Definition divide (a b : Z) : Q :=
  to_Q (SFdiv prec emax (of_int a) (of_int b)).

Arguments divide : simpl never.

End JsNumber.

(** ** Truthiness of a nullable boolean: [true] only. *)

Module JsBool.

Definition truthy (b : option bool) : bool :=
  match b with
  | Some true => true
  | _ => false
  end.

End JsBool.

(** ** Methods: outcomes and store passing *)

Inductive outcome (A : Type) : Type :=
| Returned (value : A)
| Thrown (message : string).

Arguments Returned {A} value.
Arguments Thrown {A} message.

Module Method.

Section Monad.
Variable S : Type.

Definition t (A : Type) : Type := S -> outcome A * S.

Definition ret {A : Type} (a : A) : t A := fun st => (Returned a, st).

(** [throw new Error(message)]. *)
Definition throw {A : Type} (message : string) : t A :=
  fun st => (Thrown message, st).

Definition bind {A B : Type} (m : t A) (k : A -> t B) : t B :=
  fun st =>
    match m st with
    | (Returned a, st') => k a st'
    | (Thrown message, st') => (Thrown message, st')
    end.

Definition gets {A : Type} (f : S -> A) : t A :=
  fun st => (Returned (f st), st).

Definition modify (f : S -> S) : t unit :=
  fun st => (Returned tt, f st).
End Monad.

Arguments ret {S A} a.
Arguments throw {S A} message.
Arguments bind {S A B} m k.
Arguments gets {S A} f.
Arguments modify {S} f.

End Method.

Declare Scope method_scope.
Delimit Scope method_scope with method.

Notation "x <- c1 ;; c2" := (Method.bind c1 (fun x => c2))
  (at level 61, c1 at next level, right associativity) : method_scope.
Notation "c1 ;; c2" := (Method.bind c1 (fun _ => c2))
  (at level 61, right associativity) : method_scope.

(** ** [MemStorage]: the in-memory implementation ([server/storage.ts])

    [sessionStore] belongs to the session middleware and is left out.
    [hashPassword] salts with [randomBytes]; the hash it resolves to is an
    argument of [createUser]. *)

Module MemStorage.

Record t := mk {
  users : JsMap.t User.t;
  trips : JsMap.t Trip.t;
  packages : JsMap.t Package.t;
  deliveries : JsMap.t Delivery.t;
  messages : JsMap.t Message.t;
  reviews : JsMap.t Review.t;
  userId : Z;
  tripId : Z;
  packageId : Z;
  deliveryId : Z;
  messageId : Z;
  reviewId : Z }.

(** [new MemStorage()]. *)
Definition new : t :=
  mk JsMap.empty JsMap.empty JsMap.empty JsMap.empty JsMap.empty JsMap.empty
     1 1 1 1 1 1.

Definition set_users (v : JsMap.t User.t) (st : t) : t :=
  mk v (trips st) (packages st) (deliveries st) (messages st) (reviews st)
     (userId st) (tripId st) (packageId st) (deliveryId st) (messageId st)
     (reviewId st).
Definition set_trips (v : JsMap.t Trip.t) (st : t) : t :=
  mk (users st) v (packages st) (deliveries st) (messages st) (reviews st)
     (userId st) (tripId st) (packageId st) (deliveryId st) (messageId st)
     (reviewId st).
Definition set_packages (v : JsMap.t Package.t) (st : t) : t :=
  mk (users st) (trips st) v (deliveries st) (messages st) (reviews st)
     (userId st) (tripId st) (packageId st) (deliveryId st) (messageId st)
     (reviewId st).
Definition set_deliveries (v : JsMap.t Delivery.t) (st : t) : t :=
  mk (users st) (trips st) (packages st) v (messages st) (reviews st)
     (userId st) (tripId st) (packageId st) (deliveryId st) (messageId st)
     (reviewId st).
Definition set_messages (v : JsMap.t Message.t) (st : t) : t :=
  mk (users st) (trips st) (packages st) (deliveries st) v (reviews st)
     (userId st) (tripId st) (packageId st) (deliveryId st) (messageId st)
     (reviewId st).
Definition set_reviews (v : JsMap.t Review.t) (st : t) : t :=
  mk (users st) (trips st) (packages st) (deliveries st) (messages st) v
     (userId st) (tripId st) (packageId st) (deliveryId st) (messageId st)
     (reviewId st).

(** The post-increments [this.userId++], [this.tripId++], ... *)
Definition next_userId : Method.t t Z := fun st =>
  (Returned (userId st),
   mk (users st) (trips st) (packages st) (deliveries st) (messages st)
      (reviews st) (userId st + 1) (tripId st) (packageId st)
      (deliveryId st) (messageId st) (reviewId st)).
Definition next_tripId : Method.t t Z := fun st =>
  (Returned (tripId st),
   mk (users st) (trips st) (packages st) (deliveries st) (messages st)
      (reviews st) (userId st) (tripId st + 1) (packageId st)
      (deliveryId st) (messageId st) (reviewId st)).
Definition next_packageId : Method.t t Z := fun st =>
  (Returned (packageId st),
   mk (users st) (trips st) (packages st) (deliveries st) (messages st)
      (reviews st) (userId st) (tripId st) (packageId st + 1)
      (deliveryId st) (messageId st) (reviewId st)).
Definition next_deliveryId : Method.t t Z := fun st =>
  (Returned (deliveryId st),
   mk (users st) (trips st) (packages st) (deliveries st) (messages st)
      (reviews st) (userId st) (tripId st) (packageId st)
      (deliveryId st + 1) (messageId st) (reviewId st)).
Definition next_messageId : Method.t t Z := fun st =>
  (Returned (messageId st),
   mk (users st) (trips st) (packages st) (deliveries st) (messages st)
      (reviews st) (userId st) (tripId st) (packageId st)
      (deliveryId st) (messageId st + 1) (reviewId st)).
Definition next_reviewId : Method.t t Z := fun st =>
  (Returned (reviewId st),
   mk (users st) (trips st) (packages st) (deliveries st) (messages st)
      (reviews st) (userId st) (tripId st) (packageId st)
      (deliveryId st) (messageId st) (reviewId st + 1)).

Local Open Scope method_scope.

(** *** User operations *)

Definition getUser (id : Z) : Method.t t (option User.t) :=
  Method.gets (fun st => JsMap.get id (users st)).

Definition getUserByUsername (username : string)
  : Method.t t (option User.t) :=
  Method.gets (fun st =>
    find (fun user =>
            String.eqb (JsString.toLowerCase (User.email user))
                       (JsString.toLowerCase username))
         (JsMap.values (users st))).

Definition getUserByEmail (email : string) : Method.t t (option User.t) :=
  Method.gets (fun st =>
    find (fun user =>
            String.eqb (JsString.toLowerCase (User.email user))
                       (JsString.toLowerCase email))
         (JsMap.values (users st))).

Definition createUser (userData : User.Insert.t) (hashedPassword : string)
    (now : Date) : Method.t t User.t :=
  id <- next_userId ;;
  let user :=
    {| User.id := id;
       User.password := hashedPassword;
       User.email := User.Insert.email userData;
       User.firstName := User.Insert.firstName userData;
       User.lastName := User.Insert.lastName userData;
       User.profileImage := User.Insert.profileImage userData;
       User.isVerified := false;
       User.verificationStatus := User.Verification.mk false false false;
       User.createdAt := now;
       User.rating := 0%Q;
       User.reviewCount := 0 |} in
  Method.modify (fun st => set_users (JsMap.set id user (users st)) st) ;;
  Method.ret user.

Definition updateUserVerification (userId : Z)
    (verificationData : User.Verification.Partial.t) : Method.t t User.t :=
  user <- getUser userId ;;
  match user with
  | None => Method.throw "User not found"
  | Some user =>
      let updatedVerificationStatus :=
        User.Verification.spread (User.verificationStatus user)
                                 verificationData in
      (* Check if all verifications are complete *)
      let isFullyVerified :=
        forallb (fun status => Bool.eqb status true)
                (User.Verification.values updatedVerificationStatus) in
      let updatedUser :=
        {| User.id := User.id user;
           User.password := User.password user;
           User.email := User.email user;
           User.firstName := User.firstName user;
           User.lastName := User.lastName user;
           User.profileImage := User.profileImage user;
           User.isVerified := isFullyVerified;
           User.verificationStatus := updatedVerificationStatus;
           User.createdAt := User.createdAt user;
           User.rating := User.rating user;
           User.reviewCount := User.reviewCount user |} in
      Method.modify
        (fun st => set_users (JsMap.set userId updatedUser (users st)) st) ;;
      Method.ret updatedUser
  end.

(** *** Trip operations *)

Definition getTrip (id : Z) : Method.t t (option Trip.t) :=
  Method.gets (fun st => JsMap.get id (trips st)).

Definition getTrips (filters : option Trip.Partial.t)
  : Method.t t (list Trip.t) :=
  Method.gets (fun st =>
    let trips :=
      filter (fun trip => JsBool.truthy (Trip.isActive trip))
             (JsMap.values (trips st)) in
    match filters with
    | None => trips
    | Some filters =>
        let trips :=
          match Trip.Partial.departureAirport filters with
          | Some departureAirport =>
              if JsString.truthy departureAirport then
                filter (fun trip =>
                          JsString.includes
                            (JsString.toLowerCase (Trip.departureAirport trip))
                            (JsString.toLowerCase departureAirport))
                       trips
              else trips
          | None => trips
          end in
        let trips :=
          match Trip.Partial.destinationCity filters with
          | Some destinationCity =>
              if JsString.truthy destinationCity then
                filter (fun trip =>
                          JsString.includes
                            (JsString.toLowerCase (Trip.destinationCity trip))
                            (JsString.toLowerCase destinationCity))
                       trips
              else trips
          | None => trips
          end in
        let trips :=
          match Trip.Partial.departureDate filters with
          | Some departureDate =>
              filter (fun trip =>
                        let filterDate := departureDate in
                        let tripDate := Trip.departureDate trip in
                        tripDate >=? filterDate)
                     trips
          | None => trips
          end in
        let trips :=
          match Trip.Partial.availableWeight filters with
          | Some availableWeight =>
              filter (fun trip =>
                        Qle_bool availableWeight (Trip.availableWeight trip))
                     trips
          | None => trips
          end in
        trips
    end).

Definition getTripsByUserId (userId : Z) : Method.t t (list Trip.t) :=
  Method.gets (fun st =>
    filter (fun trip => Trip.userId trip =? userId) (JsMap.values (trips st))).

Definition createTrip (tripData : Trip.Insert.t) (userId : Z) (now : Date)
  : Method.t t Trip.t :=
  id <- next_tripId ;;
  let trip :=
    {| Trip.id := id;
       Trip.userId := userId;
       Trip.departureAirport := Trip.Insert.departureAirport tripData;
       Trip.destinationCity := Trip.Insert.destinationCity tripData;
       Trip.departureDate := Trip.Insert.departureDate tripData;
       Trip.arrivalDate := Trip.Insert.arrivalDate tripData;
       Trip.airline := Trip.Insert.airline tripData;
       Trip.flightNumber := Trip.Insert.flightNumber tripData;
       Trip.availableWeight := Trip.Insert.availableWeight tripData;
       Trip.pricePerKg := Trip.Insert.pricePerKg tripData;
       Trip.notes := Trip.Insert.notes tripData;
       Trip.isActive := Some true;
       Trip.createdAt := Some now |} in
  Method.modify (fun st => set_trips (JsMap.set id trip (trips st)) st) ;;
  Method.ret trip.

Definition updateTrip (id : Z) (tripData : Trip.Partial.t)
  : Method.t t (option Trip.t) :=
  trip <- getTrip id ;;
  match trip with
  | None => Method.ret None
  | Some trip =>
      let updatedTrip := Trip.spread trip tripData in
      Method.modify
        (fun st => set_trips (JsMap.set id updatedTrip (trips st)) st) ;;
      Method.ret (Some updatedTrip)
  end.

(** *** Package operations *)

Definition getPackage (id : Z) : Method.t t (option Package.t) :=
  Method.gets (fun st => JsMap.get id (packages st)).

Definition getPackages (filters : option Package.Partial.t)
  : Method.t t (list Package.t) :=
  Method.gets (fun st =>
    let packages :=
      filter (fun pkg => JsBool.truthy (Package.isActive pkg))
             (JsMap.values (packages st)) in
    match filters with
    | None => packages
    | Some filters =>
        let packages :=
          match Package.Partial.senderCity filters with
          | Some senderCity =>
              if JsString.truthy senderCity then
                filter (fun pkg =>
                          JsString.includes
                            (JsString.toLowerCase (Package.senderCity pkg))
                            (JsString.toLowerCase senderCity))
                       packages
              else packages
          | None => packages
          end in
        let packages :=
          match Package.Partial.receiverCity filters with
          | Some receiverCity =>
              if JsString.truthy receiverCity then
                filter (fun pkg =>
                          JsString.includes
                            (JsString.toLowerCase (Package.receiverCity pkg))
                            (JsString.toLowerCase receiverCity))
                       packages
              else packages
          | None => packages
          end in
        let packages :=
          match Package.Partial.packageType filters with
          | Some packageType =>
              if JsString.truthy packageType then
                filter (fun pkg =>
                          String.eqb (Package.packageType pkg) packageType)
                       packages
              else packages
          | None => packages
          end in
        let packages :=
          match Package.Partial.weight filters with
          | Some weight =>
              filter (fun pkg => Qle_bool (Package.weight pkg) weight)
                     packages
          | None => packages
          end in
        let packages :=
          match Package.Partial.deliveryDeadline filters with
          | Some (Some deliveryDeadline) =>
              filter (fun pkg =>
                        match Package.deliveryDeadline pkg with
                        | None => true
                        | Some pkgDeadline =>
                            let filterDate := deliveryDeadline in
                            let packageDate := pkgDeadline in
                            packageDate >=? filterDate
                        end)
                     packages
          | _ => packages
          end in
        packages
    end).

Definition getPackagesByUserId (userId : Z) : Method.t t (list Package.t) :=
  Method.gets (fun st =>
    filter (fun pkg => Package.userId pkg =? userId)
           (JsMap.values (packages st))).

Definition createPackage (packageData : Package.Insert.t) (userId : Z)
    (now : Date) : Method.t t Package.t :=
  id <- next_packageId ;;
  let pkg :=
    {| Package.id := id;
       Package.userId := userId;
       Package.senderCity := Package.Insert.senderCity packageData;
       Package.receiverCity := Package.Insert.receiverCity packageData;
       Package.packageType := Package.Insert.packageType packageData;
       Package.weight := Package.Insert.weight packageData;
       Package.dimensions := Package.Insert.dimensions packageData;
       Package.deliveryDeadline := Package.Insert.deliveryDeadline packageData;
       Package.offeredPayment := Package.Insert.offeredPayment packageData;
       Package.description := Package.Insert.description packageData;
       Package.status := Some "pending";
       Package.isActive := Some true;
       Package.createdAt := Some now |} in
  Method.modify (fun st => set_packages (JsMap.set id pkg (packages st)) st) ;;
  Method.ret pkg.

Definition updatePackage (id : Z) (packageData : Package.Partial.t)
  : Method.t t (option Package.t) :=
  pkg <- getPackage id ;;
  match pkg with
  | None => Method.ret None
  | Some pkg =>
      let updatedPackage := Package.spread pkg packageData in
      Method.modify
        (fun st =>
           set_packages (JsMap.set id updatedPackage (packages st)) st) ;;
      Method.ret (Some updatedPackage)
  end.

(** *** Delivery operations *)

Definition getDelivery (id : Z) : Method.t t (option Delivery.t) :=
  Method.gets (fun st => JsMap.get id (deliveries st)).

Definition getDeliveriesByTripId (tripId : Z)
  : Method.t t (list Delivery.t) :=
  Method.gets (fun st =>
    filter (fun delivery => Delivery.tripId delivery =? tripId)
           (JsMap.values (deliveries st))).

Definition getDeliveriesByPackageId (packageId : Z)
  : Method.t t (list Delivery.t) :=
  Method.gets (fun st =>
    filter (fun delivery => Delivery.packageId delivery =? packageId)
           (JsMap.values (deliveries st))).

Definition getDeliveriesByUserId (userId : Z) (role : Delivery.Role)
  : Method.t t (list Delivery.t) :=
  match role with
  | Delivery.traveler =>
      Method.gets (fun st =>
        filter (fun delivery => Delivery.travelerId delivery =? userId)
               (JsMap.values (deliveries st)))
  | Delivery.sender =>
      Method.gets (fun st =>
        filter (fun delivery => Delivery.senderId delivery =? userId)
               (JsMap.values (deliveries st)))
  end.

Definition createDelivery (deliveryData : Delivery.Insert.t) (now : Date)
  : Method.t t Delivery.t :=
  id <- next_deliveryId ;;
  let delivery :=
    {| Delivery.id := id;
       Delivery.tripId := Delivery.Insert.tripId deliveryData;
       Delivery.packageId := Delivery.Insert.packageId deliveryData;
       Delivery.travelerId := Delivery.Insert.travelerId deliveryData;
       Delivery.senderId := Delivery.Insert.senderId deliveryData;
       Delivery.status := "pending";
       Delivery.paymentStatus := "pending";
       Delivery.createdAt := now;
       Delivery.updatedAt := now |} in
  Method.modify
    (fun st => set_deliveries (JsMap.set id delivery (deliveries st)) st) ;;
  (* Update the package status to 'matched' *)
  pkg <- getPackage (Delivery.Insert.packageId deliveryData) ;;
  match pkg with
  | Some pkg =>
      updatePackage (Package.id pkg) (Package.Partial.of_status "matched") ;;
      Method.ret tt
  | None => Method.ret tt
  end ;;
  Method.ret delivery.

Definition updateDeliveryStatus (id : Z) (status : string) (now : Date)
  : Method.t t (option Delivery.t) :=
  delivery <- getDelivery id ;;
  match delivery with
  | None => Method.ret None
  | Some delivery =>
      let updatedDelivery :=
        {| Delivery.id := Delivery.id delivery;
           Delivery.tripId := Delivery.tripId delivery;
           Delivery.packageId := Delivery.packageId delivery;
           Delivery.travelerId := Delivery.travelerId delivery;
           Delivery.senderId := Delivery.senderId delivery;
           Delivery.status := status;
           Delivery.paymentStatus := Delivery.paymentStatus delivery;
           Delivery.createdAt := Delivery.createdAt delivery;
           Delivery.updatedAt := now |} in
      Method.modify
        (fun st =>
           set_deliveries (JsMap.set id updatedDelivery (deliveries st)) st) ;;
      (* If status is 'delivered', update the package status to 'delivered' *)
      (if String.eqb status "delivered" then
         pkg <- getPackage (Delivery.packageId delivery) ;;
         match pkg with
         | Some pkg =>
             updatePackage (Package.id pkg)
                           (Package.Partial.of_status "delivered") ;;
             Method.ret tt
         | None => Method.ret tt
         end
       else Method.ret tt) ;;
      Method.ret (Some updatedDelivery)
  end.

Definition updatePaymentStatus (id : Z) (paymentStatus : string) (now : Date)
  : Method.t t (option Delivery.t) :=
  delivery <- getDelivery id ;;
  match delivery with
  | None => Method.ret None
  | Some delivery =>
      let updatedDelivery :=
        {| Delivery.id := Delivery.id delivery;
           Delivery.tripId := Delivery.tripId delivery;
           Delivery.packageId := Delivery.packageId delivery;
           Delivery.travelerId := Delivery.travelerId delivery;
           Delivery.senderId := Delivery.senderId delivery;
           Delivery.status := Delivery.status delivery;
           Delivery.paymentStatus := paymentStatus;
           Delivery.createdAt := Delivery.createdAt delivery;
           Delivery.updatedAt := now |} in
      Method.modify
        (fun st =>
           set_deliveries (JsMap.set id updatedDelivery (deliveries st)) st) ;;
      Method.ret (Some updatedDelivery)
  end.

(** *** Message operations *)

Definition getMessage (id : Z) : Method.t t (option Message.t) :=
  Method.gets (fun st => JsMap.get id (messages st)).

Definition getMessagesBetweenUsers (userId1 userId2 : Z)
  : Method.t t (list Message.t) :=
  Method.gets (fun st =>
    JsArray.sort
      (fun a b => Message.createdAt a - Message.createdAt b)
      (filter
         (fun message =>
            ((Message.senderId message =? userId1) &&
             (Message.receiverId message =? userId2)) ||
            ((Message.senderId message =? userId2) &&
             (Message.receiverId message =? userId1)))%bool
         (JsMap.values (messages st)))).

Definition getMessagesByUserId (userId : Z) : Method.t t (list Message.t) :=
  Method.gets (fun st =>
    JsArray.sort
      (fun a b => Message.createdAt b - Message.createdAt a)
      (filter
         (fun message =>
            (Message.senderId message =? userId) ||
            (Message.receiverId message =? userId))%bool
         (JsMap.values (messages st)))).

Definition createMessage (messageData : Message.Insert.t) (now : Date)
  : Method.t t Message.t :=
  id <- next_messageId ;;
  let message :=
    {| Message.id := id;
       Message.senderId := Message.Insert.senderId messageData;
       Message.receiverId := Message.Insert.receiverId messageData;
       Message.content := Message.Insert.content messageData;
       Message.isRead := false;
       Message.createdAt := now |} in
  Method.modify
    (fun st => set_messages (JsMap.set id message (messages st)) st) ;;
  Method.ret message.

Definition markMessageAsRead (id : Z) : Method.t t (option Message.t) :=
  message <- getMessage id ;;
  match message with
  | None => Method.ret None
  | Some message =>
      let updatedMessage :=
        {| Message.id := Message.id message;
           Message.senderId := Message.senderId message;
           Message.receiverId := Message.receiverId message;
           Message.content := Message.content message;
           Message.isRead := true;
           Message.createdAt := Message.createdAt message |} in
      Method.modify
        (fun st =>
           set_messages (JsMap.set id updatedMessage (messages st)) st) ;;
      Method.ret (Some updatedMessage)
  end.

(** *** Review operations *)

Definition getReview (id : Z) : Method.t t (option Review.t) :=
  Method.gets (fun st => JsMap.get id (reviews st)).

Definition getReviewsByUserId (userId : Z) (role : Review.Role)
  : Method.t t (list Review.t) :=
  match role with
  | Review.reviewer =>
      Method.gets (fun st =>
        filter (fun review => Review.reviewerId review =? userId)
               (JsMap.values (reviews st)))
  | Review.reviewee =>
      Method.gets (fun st =>
        filter (fun review => Review.revieweeId review =? userId)
               (JsMap.values (reviews st)))
  end.

Definition getReviewsByDeliveryId (deliveryId : Z)
  : Method.t t (list Review.t) :=
  Method.gets (fun st =>
    filter (fun review =>
              match Review.deliveryId review with
              | Some d => d =? deliveryId
              | None => false
              end)
           (JsMap.values (reviews st))).

Definition createReview (reviewData : Review.Insert.t) (now : Date)
  : Method.t t Review.t :=
  id <- next_reviewId ;;
  let review :=
    {| Review.id := id;
       Review.reviewerId := Review.Insert.reviewerId reviewData;
       Review.revieweeId := Review.Insert.revieweeId reviewData;
       Review.deliveryId := Review.Insert.deliveryId reviewData;
       Review.rating := Review.Insert.rating reviewData;
       Review.comment := Review.Insert.comment reviewData;
       Review.createdAt := now |} in
  Method.modify
    (fun st => set_reviews (JsMap.set id review (reviews st)) st) ;;
  (* Update the user's rating *)
  user <- getUser (Review.Insert.revieweeId reviewData) ;;
  match user with
  | Some user =>
      userReviews <-
        getReviewsByUserId (Review.Insert.revieweeId reviewData)
                           Review.reviewee ;;
      let totalRating := JsArray.reduce_sum Review.rating userReviews in
      let newRating :=
        JsNumber.divide totalRating (Z.of_nat (List.length userReviews)) in
      let updatedUser :=
        {| User.id := User.id user;
           User.password := User.password user;
           User.email := User.email user;
           User.firstName := User.firstName user;
           User.lastName := User.lastName user;
           User.profileImage := User.profileImage user;
           User.isVerified := User.isVerified user;
           User.verificationStatus := User.verificationStatus user;
           User.createdAt := User.createdAt user;
           User.rating := newRating;
           User.reviewCount := Z.of_nat (List.length userReviews) |} in
      Method.modify
        (fun st =>
           set_users (JsMap.set (User.id user) updatedUser (users st)) st)
  | None => Method.ret tt
  end ;;
  Method.ret review.

(** *** Calls of the interface

    One constructor per method of [IStorage], with the arguments of the
    call; [exec] is the store a call leaves behind, whether it returned
    or threw. *)

Inductive call : Type :=
| GetUser (id : Z)
| GetUserByUsername (username : string)
| GetUserByEmail (email : string)
| CreateUser (userData : User.Insert.t) (hashedPassword : string) (now : Date)
| UpdateUserVerification (userId : Z)
                         (verificationData : User.Verification.Partial.t)
| GetTrip (id : Z)
| GetTrips (filters : option Trip.Partial.t)
| GetTripsByUserId (userId : Z)
| CreateTrip (tripData : Trip.Insert.t) (userId : Z) (now : Date)
| UpdateTrip (id : Z) (tripData : Trip.Partial.t)
| GetPackage (id : Z)
| GetPackages (filters : option Package.Partial.t)
| GetPackagesByUserId (userId : Z)
| CreatePackage (packageData : Package.Insert.t) (userId : Z) (now : Date)
| UpdatePackage (id : Z) (packageData : Package.Partial.t)
| GetDelivery (id : Z)
| GetDeliveriesByTripId (tripId : Z)
| GetDeliveriesByPackageId (packageId : Z)
| GetDeliveriesByUserId (userId : Z) (role : Delivery.Role)
| CreateDelivery (deliveryData : Delivery.Insert.t) (now : Date)
| UpdateDeliveryStatus (id : Z) (status : string) (now : Date)
| UpdatePaymentStatus (id : Z) (paymentStatus : string) (now : Date)
| GetMessage (id : Z)
| GetMessagesBetweenUsers (userId1 userId2 : Z)
| GetMessagesByUserId (userId : Z)
| CreateMessage (messageData : Message.Insert.t) (now : Date)
| MarkMessageAsRead (id : Z)
| GetReview (id : Z)
| GetReviewsByUserId (userId : Z) (role : Review.Role)
| GetReviewsByDeliveryId (deliveryId : Z)
| CreateReview (reviewData : Review.Insert.t) (now : Date).

Definition exec (c : call) (st : t) : t :=
  match c with
  | GetUser id => snd (getUser id st)
  | GetUserByUsername username => snd (getUserByUsername username st)
  | GetUserByEmail email => snd (getUserByEmail email st)
  | CreateUser userData hashedPassword now =>
      snd (createUser userData hashedPassword now st)
  | UpdateUserVerification userId verificationData =>
      snd (updateUserVerification userId verificationData st)
  | GetTrip id => snd (getTrip id st)
  | GetTrips filters => snd (getTrips filters st)
  | GetTripsByUserId userId => snd (getTripsByUserId userId st)
  | CreateTrip tripData userId now => snd (createTrip tripData userId now st)
  | UpdateTrip id tripData => snd (updateTrip id tripData st)
  | GetPackage id => snd (getPackage id st)
  | GetPackages filters => snd (getPackages filters st)
  | GetPackagesByUserId userId => snd (getPackagesByUserId userId st)
  | CreatePackage packageData userId now =>
      snd (createPackage packageData userId now st)
  | UpdatePackage id packageData => snd (updatePackage id packageData st)
  | GetDelivery id => snd (getDelivery id st)
  | GetDeliveriesByTripId tripId => snd (getDeliveriesByTripId tripId st)
  | GetDeliveriesByPackageId packageId =>
      snd (getDeliveriesByPackageId packageId st)
  | GetDeliveriesByUserId userId role =>
      snd (getDeliveriesByUserId userId role st)
  | CreateDelivery deliveryData now => snd (createDelivery deliveryData now st)
  | UpdateDeliveryStatus id status now =>
      snd (updateDeliveryStatus id status now st)
  | UpdatePaymentStatus id paymentStatus now =>
      snd (updatePaymentStatus id paymentStatus now st)
  | GetMessage id => snd (getMessage id st)
  | GetMessagesBetweenUsers userId1 userId2 =>
      snd (getMessagesBetweenUsers userId1 userId2 st)
  | GetMessagesByUserId userId => snd (getMessagesByUserId userId st)
  | CreateMessage messageData now => snd (createMessage messageData now st)
  | MarkMessageAsRead id => snd (markMessageAsRead id st)
  | GetReview id => snd (getReview id st)
  | GetReviewsByUserId userId role => snd (getReviewsByUserId userId role st)
  | GetReviewsByDeliveryId deliveryId =>
      snd (getReviewsByDeliveryId deliveryId st)
  | CreateReview reviewData now => snd (createReview reviewData now st)
  end.

(** The store after a sequence of calls, first call first. *)
Definition exec_all (cs : list call) (st : t) : t :=
  fold_left (fun st c => exec c st) cs st.

End MemStorage.

(** ** The SQL the database-backed implementation sends

    A condition of a [WHERE] clause has three values: [Some true],
    [Some false] and [None], the unknown that a comparison with [NULL]
    yields.  A row is selected when the condition is [Some true]. *)

Module Sql.

Definition cond : Type := option bool.

Definition and (a b : cond) : cond :=
  match a, b with
  | Some false, _ | _, Some false => Some false
  | Some true, Some true => Some true
  | _, _ => None
  end.

(** [c1 AND c2 AND ...], the [clauses.join(' AND ')] of the source. *)
Definition conj {R : Type} (clauses : list (R -> cond)) (row : R) : cond :=
  fold_left (fun acc clause => and acc (clause row)) clauses (Some true).

Definition holds (c : cond) : bool :=
  match c with
  | Some true => true
  | _ => false
  end.

(** [SELECT * FROM table WHERE condition]. *)
Definition select {R : Type} (condition : R -> cond) (table : list R)
  : list R :=
  filter (fun row => holds (condition row)) table.

(** [UPDATE table SET ... WHERE condition RETURNING *]: the new table and
    the rows that were updated. *)
Definition update {R : Type} (assign : R -> R) (condition : R -> cond)
    (table : list R) : list R * list R :=
  (map (fun row => if holds (condition row) then assign row else row) table,
   map assign (select condition table)).

(** [column = TRUE] on a nullable boolean column. *)
Definition is_true (column : option bool) : cond := column.

(** [column >= param] on a nullable timestamp column. *)
Definition date_ge (column : option Date) (param : Date) : cond :=
  match column with
  | Some d => Some (d >=? param)
  | None => None
  end.

(** [LOWER(text)]. *)
Definition LOWER (s : string) : string := JsString.toLowerCase s.

(** [s LIKE pattern] with the default escape character: [%] matches any
    sequence of characters, [_] any one character, a backslash takes the
    character after it literally.  (PostgreSQL rejects a pattern that
    ends in a lone backslash; the result here is then [false].) *)
Fixpoint like (pattern : string) : string -> bool :=
  match pattern with
  | EmptyString =>
      fun s => match s with EmptyString => true | String _ _ => false end
  | String c p =>
      if Ascii.eqb c "%" then
        fix any (s : string) : bool :=
          (like p s ||
           match s with
           | EmptyString => false
           | String _ s' => any s'
           end)%bool
      else if Ascii.eqb c "_" then
        fun s =>
          match s with
          | EmptyString => false
          | String _ s' => like p s'
          end
      else if Ascii.eqb c "\" then
        match p with
        | EmptyString => fun _ => false
        | String e p' =>
            fun s =>
              match s with
              | EmptyString => false
              | String x s' => (Ascii.eqb x e && like p' s')%bool
              end
        end
      else
        fun s =>
          match s with
          | EmptyString => false
          | String x s' => (Ascii.eqb x c && like p s')%bool
          end
  end.

(** [ORDER BY key] and [ORDER BY key DESC] on a column without [NULL]s.
    Rows with equal keys come in an order the database chooses; here
    they keep the order of the table. *)
Definition order_by {R : Type} (key : R -> Z) (rows : list R) : list R :=
  JsArray.sort (fun a b => key a - key b) rows.

Definition order_by_desc {R : Type} (key : R -> Z) (rows : list R) : list R :=
  JsArray.sort (fun a b => key b - key a) rows.

(** [PRIMARY KEY]: an [INSERT] is accepted when no row of the table has
    the [id] of the new row. *)
Definition fresh_key {R : Type} (id : R -> Z) (table : list R) (value : Z)
  : bool :=
  negb (existsb (fun row => id row =? value) table).

(** [REFERENCES table(id)], the [.references(() => table.id)] of
    [shared/schema.ts]: an [INSERT] is accepted when the value is the [id]
    of a row of the table. *)
Definition references {R : Type} (id : R -> Z) (table : list R) (value : Z)
  : bool :=
  existsb (fun row => id row =? value) table.

(** The same for a column that may be [NULL]: [NULL] references nothing
    and is accepted. *)
Definition references_or_null {R : Type} (id : R -> Z) (table : list R)
    (value : option Z) : bool :=
  match value with
  | Some value => references id table value
  | None => true
  end.

(** The error with which [pool.query] rejects when a constraint refuses
    the statement.  The text of the driver, which names the constraint, is
    not represented. *)
Definition constraint_violation : string := "violates constraint".

End Sql.

(** ** Rows as the driver returns them

    [pool.query] returns each row as an object whose keys are the names of
    the columns of the table, in the order of the columns, as
    [shared/schema.ts] spells them ([payment_status], [review_count]);
    [mapRowDates] keeps the keys. *)

Module Row.

Inductive value : Type :=
| Null
| Integer (n : Z)
| Real (x : Q)
| Text (s : string)
| Boolean (b : bool)
| Timestamp (d : Date)
| Jsonb (v : User.Verification.t).

Definition t : Type := list (string * value).

(** [row[key]]; [undefined] is [None]. *)
Fixpoint get (row : t) (key : string) : option value :=
  match row with
  | [] => None
  | (k, v) :: row' => if String.eqb k key then Some v else get row' key
  end.

Definition nullable {A : Type} (inject : A -> value) (x : option A) : value :=
  match x with
  | Some x => inject x
  | None => Null
  end.

(** A row of [users]. *)
Definition of_user (u : User.t) : t :=
  [("id", Integer (User.id u));
   ("password", Text (User.password u));
   ("email", Text (User.email u));
   ("first_name", Text (User.firstName u));
   ("last_name", Text (User.lastName u));
   ("profile_image", nullable Text (User.profileImage u));
   ("is_verified", Boolean (User.isVerified u));
   ("verification_status", Jsonb (User.verificationStatus u));
   ("created_at", Timestamp (User.createdAt u));
   ("rating", Real (User.rating u));
   ("review_count", Integer (User.reviewCount u))].

(** A row of [deliveries]. *)
Definition of_delivery (d : Delivery.t) : t :=
  [("id", Integer (Delivery.id d));
   ("trip_id", Integer (Delivery.tripId d));
   ("package_id", Integer (Delivery.packageId d));
   ("traveler_id", Integer (Delivery.travelerId d));
   ("sender_id", Integer (Delivery.senderId d));
   ("status", Text (Delivery.status d));
   ("payment_status", Text (Delivery.paymentStatus d));
   ("created_at", Timestamp (Delivery.createdAt d));
   ("updated_at", Timestamp (Delivery.updatedAt d))].

(** A row of [reviews]. *)
Definition of_review (r : Review.t) : t :=
  [("id", Integer (Review.id r));
   ("reviewer_id", Integer (Review.reviewerId r));
   ("reviewee_id", Integer (Review.revieweeId r));
   ("delivery_id", nullable Integer (Review.deliveryId r));
   ("rating", Integer (Review.rating r));
   ("comment", nullable Text (Review.comment r));
   ("created_at", Timestamp (Review.createdAt r))].

End Row.

(** ** [PgStorage]: the database-backed implementation ([server/pgStorage.ts])

    A table is the list of its tuples and a [serial] column draws from the
    sequence of its table.  A tuple has the type of the entity of its
    table, each field standing for the column that [shared/schema.ts]
    maps it to.  The methods that select or update return the tuples under
    that type; the properties read them only through columns that the
    entity spells as the table does ([id], [status]).  [getUser],
    [createDelivery] and [createReview] return the row as the driver
    makes it, keyed by the names of the columns ([Row]).

    An [INSERT] is checked against the primary key of its table and the
    foreign keys that [shared/schema.ts] declares; a statement that they
    refuse makes the method throw, the value drawn from the sequence
    being spent all the same.  Failures of the connection are not
    represented.  The methods embedded are the ones the properties below
    are about. *)

Module PgStorage.

Record t := mk {
  users : list User.t;
  trips : list Trip.t;
  packages : list Package.t;
  deliveries : list Delivery.t;
  messages : list Message.t;
  reviews : list Review.t;
  deliveries_id_seq : Z;
  reviews_id_seq : Z }.

Definition set_users (v : list User.t) (db : t) : t :=
  mk v (trips db) (packages db) (deliveries db) (messages db) (reviews db)
     (deliveries_id_seq db) (reviews_id_seq db).
Definition set_packages (v : list Package.t) (db : t) : t :=
  mk (users db) (trips db) v (deliveries db) (messages db) (reviews db)
     (deliveries_id_seq db) (reviews_id_seq db).
Definition set_deliveries (v : list Delivery.t) (db : t) : t :=
  mk (users db) (trips db) (packages db) v (messages db) (reviews db)
     (deliveries_id_seq db) (reviews_id_seq db).
Definition set_reviews (v : list Review.t) (db : t) : t :=
  mk (users db) (trips db) (packages db) (deliveries db) (messages db) v
     (deliveries_id_seq db) (reviews_id_seq db).

(** [nextval] of the sequence behind [deliveries.id] and [reviews.id]. *)
Definition nextval_deliveries : Method.t t Z := fun db =>
  (Returned (deliveries_id_seq db),
   mk (users db) (trips db) (packages db) (deliveries db) (messages db)
      (reviews db) (deliveries_id_seq db + 1) (reviews_id_seq db)).
Definition nextval_reviews : Method.t t Z := fun db =>
  (Returned (reviews_id_seq db),
   mk (users db) (trips db) (packages db) (deliveries db) (messages db)
      (reviews db) (deliveries_id_seq db) (reviews_id_seq db + 1)).

(** [mapRowDates] turns the timestamps that the driver hands over as
    strings into [Date]s.  The timestamp fields of a row are [Date]s
    here, so that the row is returned as it is. *)
Definition mapRowDates {R : Type} (row : R) : R := row.

(** [rows[0] ? mapRowDates(rows[0]) : undefined]. *)
Definition first_row {R : Type} (rows : list R) : option R :=
  match rows with
  | row :: _ => Some (mapRowDates row)
  | [] => None
  end.

Local Open Scope method_scope.

Definition getUser (id : Z) : Method.t t (option Row.t) :=
  Method.gets (fun db =>
    first_row
      (map Row.of_user
           (Sql.select (fun row => Some (User.id row =? id)) (users db)))).

Definition getTrips (filters : option Trip.Partial.t)
  : Method.t t (list Trip.t) :=
  let filters :=
    match filters with
    | Some filters => filters
    | None => Trip.Partial.empty
    end in
  let clauses : list (Trip.t -> Sql.cond) :=
    [fun row => Sql.is_true (Trip.isActive row)] in
  let clauses :=
    match Trip.Partial.departureAirport filters with
    | Some departureAirport =>
        if JsString.truthy departureAirport then
          clauses ++
          [fun row =>
             Some (Sql.like
                     ("%" ++ JsString.toLowerCase departureAirport ++ "%")
                     (Sql.LOWER (Trip.departureAirport row)))]
        else clauses
    | None => clauses
    end in
  let clauses :=
    match Trip.Partial.destinationCity filters with
    | Some destinationCity =>
        if JsString.truthy destinationCity then
          clauses ++
          [fun row =>
             Some (Sql.like
                     ("%" ++ JsString.toLowerCase destinationCity ++ "%")
                     (Sql.LOWER (Trip.destinationCity row)))]
        else clauses
    | None => clauses
    end in
  let clauses :=
    match Trip.Partial.departureDate filters with
    | Some departureDate =>
        clauses ++
        [fun row => Some (Trip.departureDate row >=? departureDate)]
    | None => clauses
    end in
  let clauses :=
    match Trip.Partial.availableWeight filters with
    | Some availableWeight =>
        clauses ++
        [fun row => Some (Qle_bool availableWeight (Trip.availableWeight row))]
    | None => clauses
    end in
  Method.gets (fun db =>
    map mapRowDates (Sql.select (Sql.conj clauses) (trips db))).

Definition getPackage (id : Z) : Method.t t (option Package.t) :=
  Method.gets (fun db =>
    first_row
      (Sql.select (fun row => Some (Package.id row =? id)) (packages db))).

Definition getPackages (filters : option Package.Partial.t)
  : Method.t t (list Package.t) :=
  let filters :=
    match filters with
    | Some filters => filters
    | None => Package.Partial.empty
    end in
  let clauses : list (Package.t -> Sql.cond) :=
    [fun row => Sql.is_true (Package.isActive row)] in
  let clauses :=
    match Package.Partial.senderCity filters with
    | Some senderCity =>
        if JsString.truthy senderCity then
          clauses ++
          [fun row =>
             Some (Sql.like ("%" ++ JsString.toLowerCase senderCity ++ "%")
                            (Sql.LOWER (Package.senderCity row)))]
        else clauses
    | None => clauses
    end in
  let clauses :=
    match Package.Partial.receiverCity filters with
    | Some receiverCity =>
        if JsString.truthy receiverCity then
          clauses ++
          [fun row =>
             Some (Sql.like ("%" ++ JsString.toLowerCase receiverCity ++ "%")
                            (Sql.LOWER (Package.receiverCity row)))]
        else clauses
    | None => clauses
    end in
  let clauses :=
    match Package.Partial.packageType filters with
    | Some packageType =>
        if JsString.truthy packageType then
          clauses ++
          [fun row => Some (String.eqb (Package.packageType row) packageType)]
        else clauses
    | None => clauses
    end in
  let clauses :=
    match Package.Partial.weight filters with
    | Some weight =>
        clauses ++ [fun row => Some (Qle_bool (Package.weight row) weight)]
    | None => clauses
    end in
  let clauses :=
    match Package.Partial.deliveryDeadline filters with
    | Some (Some deliveryDeadline) =>
        clauses ++
        [fun row =>
           Sql.date_ge (Package.deliveryDeadline row) deliveryDeadline]
    | _ => clauses
    end in
  Method.gets (fun db =>
    map mapRowDates (Sql.select (Sql.conj clauses) (packages db))).

Definition getDelivery (id : Z) : Method.t t (option Delivery.t) :=
  Method.gets (fun db =>
    first_row
      (Sql.select (fun row => Some (Delivery.id row =? id)) (deliveries db))).

(** [INSERT INTO deliveries ...]: whether the table accepts the tuple. *)
Definition accepts_delivery (db : t) (row : Delivery.t) : bool :=
  Sql.fresh_key Delivery.id (deliveries db) (Delivery.id row)
  && Sql.references Trip.id (trips db) (Delivery.tripId row)
  && Sql.references Package.id (packages db) (Delivery.packageId row)
  && Sql.references User.id (users db) (Delivery.travelerId row)
  && Sql.references User.id (users db) (Delivery.senderId row).

Definition createDelivery (deliveryData : Delivery.Insert.t) (now : Date)
  : Method.t t Row.t :=
  id <- nextval_deliveries ;;
  let row :=
    {| Delivery.id := id;
       Delivery.tripId := Delivery.Insert.tripId deliveryData;
       Delivery.packageId := Delivery.Insert.packageId deliveryData;
       Delivery.travelerId := Delivery.Insert.travelerId deliveryData;
       Delivery.senderId := Delivery.Insert.senderId deliveryData;
       Delivery.status := "pending";
       Delivery.paymentStatus := "pending";
       Delivery.createdAt := now;
       Delivery.updatedAt := now |} in
  accepted <- Method.gets (fun db => accepts_delivery db row) ;;
  if accepted : bool then
    Method.modify (fun db => set_deliveries (deliveries db ++ [row]) db) ;;
    (* update package status to matched *)
    Method.modify (fun db =>
      set_packages
        (fst (Sql.update
                (Package.with_status (Some "matched"))
                (fun p =>
                   Some (Package.id p
                         =? Delivery.Insert.packageId deliveryData))
                (packages db)))
        db) ;;
    Method.ret (mapRowDates (Row.of_delivery row))
  else Method.throw Sql.constraint_violation.

Definition updateDeliveryStatus (id : Z) (status : string) (now : Date)
  : Method.t t (option Delivery.t) :=
  rows <-
    (fun db =>
       let '(table, rows) :=
         Sql.update
           (fun d =>
              {| Delivery.id := Delivery.id d;
                 Delivery.tripId := Delivery.tripId d;
                 Delivery.packageId := Delivery.packageId d;
                 Delivery.travelerId := Delivery.travelerId d;
                 Delivery.senderId := Delivery.senderId d;
                 Delivery.status := status;
                 Delivery.paymentStatus := Delivery.paymentStatus d;
                 Delivery.createdAt := Delivery.createdAt d;
                 Delivery.updatedAt := now |})
           (fun d => Some (Delivery.id d =? id))
           (deliveries db) in
       (Returned rows, set_deliveries table db)) ;;
  (if String.eqb status "delivered" then
     match rows with
     | delivery :: _ =>
         Method.modify (fun db =>
           set_packages
             (fst (Sql.update
                     (Package.with_status (Some "delivered"))
                     (fun p =>
                        Some (Package.id p =? Delivery.packageId delivery))
                     (packages db)))
             db)
     | [] => Method.ret tt
     end
   else Method.ret tt) ;;
  Method.ret (first_row rows).

Definition getMessagesBetweenUsers (userId1 userId2 : Z)
  : Method.t t (list Message.t) :=
  Method.gets (fun db =>
    map mapRowDates
      (Sql.order_by Message.createdAt
         (Sql.select
            (fun m =>
               Some (((Message.senderId m =? userId1) &&
                      (Message.receiverId m =? userId2)) ||
                     ((Message.senderId m =? userId2) &&
                      (Message.receiverId m =? userId1)))%bool)
            (messages db)))).

Definition getMessagesByUserId (userId : Z) : Method.t t (list Message.t) :=
  Method.gets (fun db =>
    map mapRowDates
      (Sql.order_by_desc Message.createdAt
         (Sql.select
            (fun m =>
               Some ((Message.senderId m =? userId) ||
                     (Message.receiverId m =? userId))%bool)
            (messages db)))).

Definition getReviewsByUserId (userId : Z) (role : Review.Role)
  : Method.t t (list Review.t) :=
  let column :=
    match role with
    | Review.reviewer => Review.reviewerId
    | Review.reviewee => Review.revieweeId
    end in
  Method.gets (fun db =>
    map mapRowDates
      (Sql.select (fun row => Some (column row =? userId)) (reviews db))).

(** [INSERT INTO reviews ...]: whether the table accepts the tuple. *)
Definition accepts_review (db : t) (row : Review.t) : bool :=
  Sql.fresh_key Review.id (reviews db) (Review.id row)
  && Sql.references User.id (users db) (Review.reviewerId row)
  && Sql.references User.id (users db) (Review.revieweeId row)
  && Sql.references_or_null Delivery.id (deliveries db) (Review.deliveryId row).

Section RealColumn.

(** What the column [rating], of type [real], gives back for a double
    written to it: a single-precision number, as the server rounds and
    prints it and the driver parses it.  The repository does not decide
    it. *)
Variable real : Q -> Q.

Definition createReview (reviewData : Review.Insert.t) (now : Date)
  : Method.t t Row.t :=
  id <- nextval_reviews ;;
  let row :=
    {| Review.id := id;
       Review.reviewerId := Review.Insert.reviewerId reviewData;
       Review.revieweeId := Review.Insert.revieweeId reviewData;
       Review.deliveryId := Review.Insert.deliveryId reviewData;
       Review.rating := Review.Insert.rating reviewData;
       Review.comment := Review.Insert.comment reviewData;
       Review.createdAt := now |} in
  accepted <- Method.gets (fun db => accepts_review db row) ;;
  if accepted : bool then
    Method.modify (fun db => set_reviews (reviews db ++ [row]) db) ;;
    userReviews <-
      getReviewsByUserId (Review.Insert.revieweeId reviewData)
                         Review.reviewee ;;
    let total := JsArray.reduce_sum Review.rating userReviews in
    let newRating :=
      JsNumber.divide total (Z.of_nat (List.length userReviews)) in
    Method.modify (fun db =>
      set_users
        (fst (Sql.update
                (fun u =>
                   {| User.id := User.id u;
                      User.password := User.password u;
                      User.email := User.email u;
                      User.firstName := User.firstName u;
                      User.lastName := User.lastName u;
                      User.profileImage := User.profileImage u;
                      User.isVerified := User.isVerified u;
                      User.verificationStatus := User.verificationStatus u;
                      User.createdAt := User.createdAt u;
                      User.rating := real newRating;
                      User.reviewCount :=
                        Z.of_nat (List.length userReviews) |})
                (fun u =>
                   Some (User.id u =? Review.Insert.revieweeId reviewData))
                (users db)))
        db) ;;
    Method.ret (mapRowDates (Row.of_review row))
  else Method.throw Sql.constraint_violation.

End RealColumn.

End PgStorage.

(** * Vocabulary of the properties *)

(** [x] may stand before [y] for the comparator. *)
Definition may_precede {A : Type} (compareFn : A -> A -> Z) (x y : A) : Prop :=
  compareFn x y <= 0.

Definition verified_consistent (u : User.t) : Prop :=
  User.isVerified u
  = (User.Verification.idVerified (User.verificationStatus u)
     && User.Verification.phoneVerified (User.verificationStatus u)
     && User.Verification.addressVerified (User.verificationStatus u))%bool.

Definition users_consistent (st : MemStorage.t) : Prop :=
  forall u, In u (JsMap.values (MemStorage.users st)) -> verified_consistent u.









(** [id] is the [id] of a tuple of the table. *)
Definition names {R : Type} (key : R -> Z) (table : list R) (id : Z) : Prop :=
  exists row, In row table /\ key row = id.


(** The database accepts the delivery of a payload: the value that the
    sequence of [deliveries] gives next is the [id] of no delivery, and
    the payload names a trip, a package and two users of the tables. *)
Definition pg_accepts_delivery (db : PgStorage.t) (d : Delivery.Insert.t)
  : Prop :=
  (forall row, In row (PgStorage.deliveries db) ->
               Delivery.id row <> PgStorage.deliveries_id_seq db)
  /\ names Trip.id (PgStorage.trips db) (Delivery.Insert.tripId d)
  /\ names Package.id (PgStorage.packages db) (Delivery.Insert.packageId d)
  /\ names User.id (PgStorage.users db) (Delivery.Insert.travelerId d)
  /\ names User.id (PgStorage.users db) (Delivery.Insert.senderId d).




Definition newest_first (a b : Message.t) : Prop :=
  Message.createdAt b <= Message.createdAt a.

(** [m] was sent by one of [A], [B] to the other. *)
Definition exchanged (A B : Z) (m : Message.t) : Prop :=
  (Message.senderId m = A /\ Message.receiverId m = B)
  \/ (Message.senderId m = B /\ Message.receiverId m = A).


(** [sub] occurs in [s] when the case of the letters is ignored. *)
Definition contains_ignoring_case (s sub : string) : Prop :=
  exists pre post,
    JsString.toLowerCase s
    = (pre ++ JsString.toLowerCase sub ++ post)%string.

(** The trips that [getTrips(filters)] is to return: the active ones for
    which every filter that is supplied holds. *)
Definition trip_matches (filters : Trip.Partial.t) (trip : Trip.t) : Prop :=
  Trip.isActive trip = Some true
  /\ (forall a, Trip.Partial.departureAirport filters = Some a ->
                contains_ignoring_case (Trip.departureAirport trip) a)
  /\ (forall c, Trip.Partial.destinationCity filters = Some c ->
                contains_ignoring_case (Trip.destinationCity trip) c)
  /\ (forall d, Trip.Partial.departureDate filters = Some d ->
                d <= Trip.departureDate trip)
  /\ (forall w, Trip.Partial.availableWeight filters = Some w ->
                (w <= Trip.availableWeight trip)%Q).

(** The packages that [getPackages(filters)] returns: the active ones that
    pass every filter that is supplied.  An empty [packageType] counts as
    not supplied, and a package without a deadline passes the deadline
    filter. *)
Definition package_matches (filters : Package.Partial.t) (pkg : Package.t)
  : Prop :=
  Package.isActive pkg = Some true
  /\ (forall c, Package.Partial.senderCity filters = Some c ->
                contains_ignoring_case (Package.senderCity pkg) c)
  /\ (forall c, Package.Partial.receiverCity filters = Some c ->
                contains_ignoring_case (Package.receiverCity pkg) c)
  /\ (forall ty, Package.Partial.packageType filters = Some ty ->
                 ty <> ""%string -> Package.packageType pkg = ty)
  /\ (forall w, Package.Partial.weight filters = Some w ->
                (Package.weight pkg <= w)%Q)
  /\ (forall d pd, Package.Partial.deliveryDeadline filters = Some (Some d) ->
                   Package.deliveryDeadline pkg = Some pd -> d <= pd).

(** A character that stands for itself in a [LIKE] pattern. *)
Definition literal_char (c : ascii) : bool :=
  negb (Ascii.eqb c "%" || Ascii.eqb c "_" || Ascii.eqb c "\").

(** A text without [%], [_] and the backslash. *)
Fixpoint literal (s : string) : bool :=
  match s with
  | EmptyString => true
  | String c s' => literal_char c && literal s'
  end.

(** The texts of a trip filter are free of [LIKE] wildcards. *)
Definition trip_filters_literal (filters : Trip.Partial.t) : Prop :=
  (forall a, Trip.Partial.departureAirport filters = Some a ->
             literal a = true)
  /\ (forall c, Trip.Partial.destinationCity filters = Some c ->
                literal c = true).

(** The texts of a package filter are free of [LIKE] wildcards. *)
Definition package_filters_literal (filters : Package.Partial.t) : Prop :=
  (forall c, Package.Partial.senderCity filters = Some c -> literal c = true)
  /\ (forall c, Package.Partial.receiverCity filters = Some c ->
                literal c = true).

(** When the deadline filter is supplied, every package has a deadline. *)
Definition deadlines_present (filters : Package.Partial.t)
    (packages : list Package.t) : Prop :=
  forall d, Package.Partial.deliveryDeadline filters = Some (Some d) ->
  forall pkg, In pkg packages -> Package.deliveryDeadline pkg <> None.

(** ** A scenario: one trip, one package, one user

    The values at which the properties are instantiated. *)

Module Scenario.

(** A trip from JFK to Addis Ababa with 10 kg at 15 per kg. *)
Definition tripData : Trip.Insert.t :=
  {| Trip.Insert.departureAirport := "JFK";
     Trip.Insert.destinationCity := "Addis Ababa";
     Trip.Insert.departureDate := 1000;
     Trip.Insert.arrivalDate := 2000;
     Trip.Insert.airline := None;
     Trip.Insert.flightNumber := None;
     Trip.Insert.availableWeight := 10%Q;
     Trip.Insert.pricePerKg := 15%Q;
     Trip.Insert.notes := None |}.

(** A package of 5 kg from New York to Addis Ababa, without a deadline. *)
Definition packageData : Package.Insert.t :=
  {| Package.Insert.senderCity := "New York";
     Package.Insert.receiverCity := "Addis Ababa";
     Package.Insert.packageType := "documents";
     Package.Insert.weight := 5%Q;
     Package.Insert.dimensions := None;
     Package.Insert.deliveryDeadline := None;
     Package.Insert.offeredPayment := 100%Q;
     Package.Insert.description := None |}.

(** The in-memory store after user 1 posted the trip and user 2 the
    package. *)
Definition store : MemStorage.t :=
  MemStorage.exec_all
    [MemStorage.CreateTrip tripData 1 0;
     MemStorage.CreatePackage packageData 2 0]
    MemStorage.new.

(** The database with the same trip and the same package as its rows. *)
Definition database : PgStorage.t :=
  {| PgStorage.users := [];
     PgStorage.trips := JsMap.values (MemStorage.trips store);
     PgStorage.packages := JsMap.values (MemStorage.packages store);
     PgStorage.deliveries := [];
     PgStorage.messages := [];
     PgStorage.reviews := [];
     PgStorage.deliveries_id_seq := 1;
     PgStorage.reviews_id_seq := 1 |}.

Definition trip : Trip.t :=
  {| Trip.id := 1;
     Trip.userId := 1;
     Trip.departureAirport := "JFK";
     Trip.destinationCity := "Addis Ababa";
     Trip.departureDate := 1000;
     Trip.arrivalDate := 2000;
     Trip.airline := None;
     Trip.flightNumber := None;
     Trip.availableWeight := 10%Q;
     Trip.pricePerKg := 15%Q;
     Trip.notes := None;
     Trip.isActive := Some true;
     Trip.createdAt := Some 0 |}.

Definition pkg : Package.t :=
  {| Package.id := 1;
     Package.userId := 2;
     Package.senderCity := "New York";
     Package.receiverCity := "Addis Ababa";
     Package.packageType := "documents";
     Package.weight := 5%Q;
     Package.dimensions := None;
     Package.deliveryDeadline := None;
     Package.offeredPayment := 100%Q;
     Package.description := None;
     Package.status := Some "pending";
     Package.isActive := Some true;
     Package.createdAt := Some 0 |}.

(** The filter [{ destinationCity: "_" }]. *)
Definition underscore_city : Trip.Partial.t :=
  {| Trip.Partial.id := None;
     Trip.Partial.userId := None;
     Trip.Partial.departureAirport := None;
     Trip.Partial.destinationCity := Some "_";
     Trip.Partial.departureDate := None;
     Trip.Partial.arrivalDate := None;
     Trip.Partial.airline := None;
     Trip.Partial.flightNumber := None;
     Trip.Partial.availableWeight := None;
     Trip.Partial.pricePerKg := None;
     Trip.Partial.notes := None;
     Trip.Partial.isActive := None;
     Trip.Partial.createdAt := None |}.

(** The filter [{ deliveryDeadline: new Date(500) }]. *)
Definition deadline_500 : Package.Partial.t :=
  {| Package.Partial.id := None;
     Package.Partial.userId := None;
     Package.Partial.senderCity := None;
     Package.Partial.receiverCity := None;
     Package.Partial.packageType := None;
     Package.Partial.weight := None;
     Package.Partial.dimensions := None;
     Package.Partial.deliveryDeadline := Some (Some 500);
     Package.Partial.offeredPayment := None;
     Package.Partial.description := None;
     Package.Partial.status := None;
     Package.Partial.isActive := None;
     Package.Partial.createdAt := None |}.

(** The delivery payload that links the trip and the package. *)
Definition deliveryData : Delivery.Insert.t :=
  {| Delivery.Insert.tripId := 1;
     Delivery.Insert.packageId := 1;
     Delivery.Insert.travelerId := 1;
     Delivery.Insert.senderId := 2 |}.

Definition delivery : Delivery.t :=
  {| Delivery.id := 1;
     Delivery.tripId := 1;
     Delivery.packageId := 1;
     Delivery.travelerId := 1;
     Delivery.senderId := 2;
     Delivery.status := "pending";
     Delivery.paymentStatus := "pending";
     Delivery.createdAt := 5;
     Delivery.updatedAt := 5 |}.

(** A user of the table [users] with the given [id]. *)
Definition person (id : Z) : User.t :=
  {| User.id := id;
     User.password := "hash";
     User.email := "user@example.org";
     User.firstName := "A";
     User.lastName := "B";
     User.profileImage := None;
     User.isVerified := false;
     User.verificationStatus := User.Verification.mk false false false;
     User.createdAt := 0;
     User.rating := 0%Q;
     User.reviewCount := 0 |}.

(** The database with, besides, the users 1 and 2 that the trip, the
    package and the delivery payload name. *)
Definition staffed_database : PgStorage.t :=
  PgStorage.set_users [person 1; person 2] database.

(** The same payload with a traveler who is not a user. *)
Definition unknown_traveler : Delivery.Insert.t :=
  {| Delivery.Insert.tripId := 1;
     Delivery.Insert.packageId := 1;
     Delivery.Insert.travelerId := 777;
     Delivery.Insert.senderId := 2 |}.

(** The store and the database once the delivery is created. *)
Definition matched_store : MemStorage.t :=
  snd (MemStorage.createDelivery deliveryData 5 store).

Definition matched_database : PgStorage.t :=
  snd (PgStorage.createDelivery deliveryData 5 staffed_database).

Definition matched_pkg : Package.t :=
  Package.with_status (Some "matched") pkg.

Definition userData : User.Insert.t :=
  {| User.Insert.password := "secret";
     User.Insert.email := "a@example.org";
     User.Insert.firstName := "A";
     User.Insert.lastName := "B";
     User.Insert.profileImage := None |}.

Definition user : User.t :=
  {| User.id := 1;
     User.password := "hash";
     User.email := "a@example.org";
     User.firstName := "A";
     User.lastName := "B";
     User.profileImage := None;
     User.isVerified := false;
     User.verificationStatus := User.Verification.mk false false false;
     User.createdAt := 0;
     User.rating := 0%Q;
     User.reviewCount := 0 |}.

Definition user_store : MemStorage.t :=
  MemStorage.exec (MemStorage.CreateUser userData "hash" 0) MemStorage.new.




(** The filters [{ availableWeight: 5 }] and [{ weight: 5 }]. *)
Definition at_least_5 : Trip.Partial.t :=
  {| Trip.Partial.id := None;
     Trip.Partial.userId := None;
     Trip.Partial.departureAirport := None;
     Trip.Partial.destinationCity := None;
     Trip.Partial.departureDate := None;
     Trip.Partial.arrivalDate := None;
     Trip.Partial.airline := None;
     Trip.Partial.flightNumber := None;
     Trip.Partial.availableWeight := Some 5%Q;
     Trip.Partial.pricePerKg := None;
     Trip.Partial.notes := None;
     Trip.Partial.isActive := None;
     Trip.Partial.createdAt := None |}.

Definition at_most_5 : Package.Partial.t :=
  {| Package.Partial.id := None;
     Package.Partial.userId := None;
     Package.Partial.senderCity := None;
     Package.Partial.receiverCity := None;
     Package.Partial.packageType := None;
     Package.Partial.weight := Some 5%Q;
     Package.Partial.dimensions := None;
     Package.Partial.deliveryDeadline := None;
     Package.Partial.offeredPayment := None;
     Package.Partial.description := None;
     Package.Partial.status := None;
     Package.Partial.isActive := None;
     Package.Partial.createdAt := None |}.

(** The object [{ idVerified: true }]. *)
Definition id_checked : User.Verification.Partial.t :=
  {| User.Verification.Partial.idVerified := Some true;
     User.Verification.Partial.phoneVerified := None;
     User.Verification.Partial.addressVerified := None |}.

Definition id_checked_user : User.t :=
  {| User.id := 1;
     User.password := "hash";
     User.email := "a@example.org";
     User.firstName := "A";
     User.lastName := "B";
     User.profileImage := None;
     User.isVerified := false;
     User.verificationStatus := User.Verification.mk true false false;
     User.createdAt := 0;
     User.rating := 0%Q;
     User.reviewCount := 0 |}.

End Scenario.

(** * Objects with numeric keys

    An object used as a [Record<number, V>], as the list of its properties
    in the order of their creation.  Reading and writing a property are
    those of a [Map]: writing an existing property keeps its place. *)

Module JsRecord.

Definition t (V : Type) : Type := JsMap.t V.

(** A key that is an array index: an integer from 0 to 2^32 - 2. *)
Definition is_index (k : Z) : bool := (0 <=? k) && (k <? 2 ^ 32 - 1).

(** [Object.values(o)]: the properties whose key is an array index come
    first, in ascending order of the key, and the others follow in the
    order of their creation. *)
Definition values {V : Type} (o : t V) : list V :=
  map snd
      (JsArray.sort (fun p q : Z * V => fst p - fst q)
                    (filter (fun p => is_index (fst p)) o))
  ++ map snd (filter (fun p => negb (is_index (fst p))) o).

End JsRecord.

(** * The request layer ([server/routes.ts])

    The handlers call [storage], which is the in-memory implementation
    when no database is configured.  A handler is given what it reads of
    the request: the session ([req.isAuthenticated()] with [req.user!.id],
    the identifier of the user of the session, if any), the parameters of
    the route after [parseInt], and the body.  A body is read at the types
    of the schema: a key is absent or carries a value of that type.  For
    the schemas that refine their fields ([insertTripSchema]) and for
    [insertPackageSchema] the outcome of [parse] is the argument; for the
    others [parse] succeeds when every required key is there.  The text
    that [fromZodError] makes of a [ZodError] is the argument
    [zodMessage].  [res.status(s).json(b)] is the response that the
    handler returns.

    A handler is run on its own: between two of its [await]s no other
    request changes the store.  It awaits the calls of the store one after
    the other, except under [Promise.all]: there the calls are started in
    the order of the array, each runs up to its first [await], and they
    are resumed in that order.  This matters where the calls write
    ([mark_received_as_read] below). *)

Module Routes.

Inductive body (A : Type) : Type :=
| Json (value : A)
| Message (message : string).

Arguments Json {A} value.
Arguments Message {A} message.

Record response (A : Type) : Type := mkResponse {
  status : Z;
  json : body A }.

Arguments mkResponse {A} status json.
Arguments status {A} r.
Arguments json {A} r.

(** The outcome of [schema.parse(data)]. *)
Inductive parsed (A : Type) : Type :=
| Valid (data : A)
| Invalid.

Arguments Valid {A} data.
Arguments Invalid {A}.

Local Open Scope method_scope.

(** [try { body } catch (error) { handler }] around calls of the store. *)
Definition try_catch {S A : Type} (body : Method.t S A)
    (handler : Method.t S A) : Method.t S A :=
  fun st =>
    match body st with
    | (Returned a, st') => (Returned a, st')
    | (Thrown _, st') => handler st'
    end.

Definition respond {A : Type} (status : Z) (value : A)
  : Method.t MemStorage.t (response A) :=
  Method.ret (mkResponse status (Json value)).

Definition refuse {A : Type} (status : Z) (message : string)
  : Method.t MemStorage.t (response A) :=
  Method.ret (mkResponse status (Message message)).

(** Truthiness of an optional string of a body. *)
Definition present (s : option string) : bool :=
  match s with
  | Some s => JsString.truthy s
  | None => false
  end.

(** [POST /api/trips]. *)
Definition post_trip (session : option Z) (validatedData : parsed Trip.Insert.t)
    (zodMessage : string) (now : Date)
  : Method.t MemStorage.t (response Trip.t) :=
  match session with
  | None => refuse 401 "Not authenticated"
  | Some userId =>
      match validatedData with
      | Invalid => refuse 400 zodMessage
      | Valid tripData =>
          try_catch
            (trip <- MemStorage.createTrip tripData userId now ;;
             respond 201 trip)
            (refuse 500 "Failed to create trip")
      end
  end.

(** [PUT /api/trips/:id]. *)
Definition put_trip (session : option Z) (tripId : Z) (body : Trip.Partial.t)
  : Method.t MemStorage.t (response (option Trip.t)) :=
  match session with
  | None => refuse 401 "Not authenticated"
  | Some userId =>
      try_catch
        (trip <- MemStorage.getTrip tripId ;;
         match trip with
         | None => refuse 404 "Trip not found"
         | Some trip =>
             if negb (Trip.userId trip =? userId) then
               refuse 403 "Not authorized to update this trip"
             else
               updatedTrip <- MemStorage.updateTrip tripId body ;;
               respond 200 updatedTrip
         end)
        (refuse 500 "Failed to update trip")
  end.

(** [POST /api/packages]. *)
Definition post_package (session : option Z)
    (packageData : parsed Package.Insert.t) (zodMessage : string) (now : Date)
  : Method.t MemStorage.t (response Package.t) :=
  match session with
  | None => refuse 401 "Not authenticated"
  | Some userId =>
      match packageData with
      | Invalid => refuse 400 zodMessage
      | Valid packageData =>
          try_catch
            (pkg <- MemStorage.createPackage packageData userId now ;;
             respond 201 pkg)
            (refuse 500 "Failed to create package")
      end
  end.

(** [PUT /api/packages/:id]. *)
Definition put_package (session : option Z) (packageId : Z)
    (body : Package.Partial.t)
  : Method.t MemStorage.t (response (option Package.t)) :=
  match session with
  | None => refuse 401 "Not authenticated"
  | Some userId =>
      try_catch
        (pkg <- MemStorage.getPackage packageId ;;
         match pkg with
         | None => refuse 404 "Package not found"
         | Some pkg =>
             if negb (Package.userId pkg =? userId) then
               refuse 403 "Not authorized to update this package"
             else
               updatedPackage <- MemStorage.updatePackage packageId body ;;
               respond 200 updatedPackage
         end)
        (refuse 500 "Failed to update package")
  end.

(** The body of [POST /api/deliveries]. *)
Record delivery_body := mkDeliveryBody {
  tripId : option Z;
  packageId : option Z;
  travelerId : option Z;
  senderId : option Z }.

(** [insertDeliverySchema.parse(req.body)]: the four references are
    required. *)
Definition parse_delivery (body : delivery_body)
  : parsed Delivery.Insert.t :=
  match tripId body, packageId body, travelerId body, senderId body with
  | Some t, Some p, Some tr, Some s => Valid (Delivery.Insert.mk t p tr s)
  | _, _, _, _ => Invalid
  end.

(** [POST /api/deliveries]. *)
Definition post_delivery (session : option Z) (body : delivery_body)
    (zodMessage : string) (now : Date)
  : Method.t MemStorage.t (response Delivery.t) :=
  match session with
  | None => refuse 401 "Not authenticated"
  | Some _ =>
      match parse_delivery body with
      | Invalid => refuse 400 zodMessage
      | Valid deliveryData =>
          try_catch
            ((* Verify the package and trip exist *)
             pkg <- MemStorage.getPackage
                      (Delivery.Insert.packageId deliveryData) ;;
             trip <- MemStorage.getTrip (Delivery.Insert.tripId deliveryData) ;;
             match pkg, trip with
             | Some _, Some _ =>
                 delivery <- MemStorage.createDelivery deliveryData now ;;
                 respond 201 delivery
             | _, _ => refuse 404 "Package or trip not found"
             end)
            (refuse 500 "Failed to create delivery")
      end
  end.

(** [PUT /api/deliveries/:id/status], with the [status] of the body. *)
Definition put_delivery_status (session : option Z) (deliveryId : Z)
    (status : option string) (now : Date)
  : Method.t MemStorage.t (response (option Delivery.t)) :=
  match session with
  | None => refuse 401 "Not authenticated"
  | Some userId =>
      try_catch
        (match status with
         | Some status =>
             if JsString.truthy status then
               delivery <- MemStorage.getDelivery deliveryId ;;
               match delivery with
               | None => refuse 404 "Delivery not found"
               | Some delivery =>
                   (* Check if the user is the sender or traveler *)
                   if (negb (Delivery.senderId delivery =? userId) &&
                       negb (Delivery.travelerId delivery =? userId))%bool
                   then refuse 403 "Not authorized to update this delivery"
                   else
                     updatedDelivery <-
                       MemStorage.updateDeliveryStatus deliveryId status now ;;
                     respond 200 updatedDelivery
               end
             else refuse 400 "Status is required"
         | None => refuse 400 "Status is required"
         end)
        (refuse 500 "Failed to update delivery status")
  end.

(** [PUT /api/deliveries/:id/payment], with the [paymentStatus] of the
    body. *)
Definition put_delivery_payment (session : option Z) (deliveryId : Z)
    (paymentStatus : option string) (now : Date)
  : Method.t MemStorage.t (response (option Delivery.t)) :=
  match session with
  | None => refuse 401 "Not authenticated"
  | Some userId =>
      try_catch
        (match paymentStatus with
         | Some paymentStatus =>
             if JsString.truthy paymentStatus then
               delivery <- MemStorage.getDelivery deliveryId ;;
               match delivery with
               | None => refuse 404 "Delivery not found"
               | Some delivery =>
                   (* Only the sender can update payment status *)
                   if negb (Delivery.senderId delivery =? userId)
                   then refuse 403 "Not authorized to update payment status"
                   else
                     updatedDelivery <-
                       MemStorage.updatePaymentStatus deliveryId
                                                      paymentStatus now ;;
                     respond 200 updatedDelivery
               end
             else refuse 400 "Payment status is required"
         | None => refuse 400 "Payment status is required"
         end)
        (refuse 500 "Failed to update payment status")
  end.

(** The body of [POST /api/messages]. *)
Record message_body := mkMessageBody {
  message_senderId : option Z;
  message_receiverId : option Z;
  message_content : option string }.

(** [insertMessageSchema.parse({ ...req.body, senderId: req.user!.id })]. *)
Definition parse_message (body : message_body) (userId : Z)
  : parsed Message.Insert.t :=
  match message_receiverId body, message_content body with
  | Some receiverId, Some content =>
      Valid (Message.Insert.mk userId receiverId content)
  | _, _ => Invalid
  end.

(** [POST /api/messages]. *)
Definition post_message (session : option Z) (body : message_body)
    (zodMessage : string) (now : Date)
  : Method.t MemStorage.t (response Message.t) :=
  match session with
  | None => refuse 401 "Not authenticated"
  | Some userId =>
      match parse_message body userId with
      | Invalid => refuse 400 zodMessage
      | Valid messageData =>
          try_catch
            (receiverUser <-
               MemStorage.getUser (Message.Insert.receiverId messageData) ;;
             match receiverUser with
             | None => refuse 404 "Receiver not found"
             | Some _ =>
                 message <- MemStorage.createMessage messageData now ;;
                 respond 201 message
             end)
            (refuse 500 "Failed to send message")
      end
  end.

(** The body of [POST /api/reviews]. *)
Record review_body := mkReviewBody {
  review_reviewerId : option Z;
  review_revieweeId : option Z;
  review_deliveryId : option Z;
  review_rating : option Z;
  review_comment : option string }.

(** [insertReviewSchema.parse({ ...req.body, reviewerId: req.user!.id })]:
    the reviewee and the rating are required. *)
Definition parse_review (body : review_body) (userId : Z)
  : parsed Review.Insert.t :=
  match review_revieweeId body, review_rating body with
  | Some revieweeId, Some rating =>
      Valid (Review.Insert.mk userId revieweeId (review_deliveryId body)
                              rating (review_comment body))
  | _, _ => Invalid
  end.

(** Truthiness of an optional number: a number other than 0. *)
Definition truthy_number (n : option Z) : bool :=
  match n with
  | Some n => negb (n =? 0)
  | None => false
  end.

(** [POST /api/reviews]. *)
Definition post_review (session : option Z) (body : review_body)
    (zodMessage : string) (now : Date)
  : Method.t MemStorage.t (response Review.t) :=
  match session with
  | None => refuse 401 "Not authenticated"
  | Some userId =>
      match parse_review body userId with
      | Invalid => refuse 400 zodMessage
      | Valid reviewData =>
          let create :=
            review <- MemStorage.createReview reviewData now ;;
            respond 201 review in
          try_catch
            ((* Check if delivery exists and the user is part of it *)
             match Review.Insert.deliveryId reviewData with
             | Some deliveryId =>
                 if negb (deliveryId =? 0) then
                   delivery <- MemStorage.getDelivery deliveryId ;;
                   match delivery with
                   | None => refuse 404 "Delivery not found"
                   | Some delivery =>
                       if (negb (Delivery.senderId delivery =? userId) &&
                           negb (Delivery.travelerId delivery =? userId))%bool
                       then refuse 403 "Not authorized to review this delivery"
                       else if
                         (negb (Review.Insert.revieweeId reviewData
                                =? Delivery.senderId delivery) &&
                          negb (Review.Insert.revieweeId reviewData
                                =? Delivery.travelerId delivery))%bool
                       then refuse 400 "Reviewee must be part of the delivery"
                       else create
                   end
                 else create
             | None => create
             end)
            (refuse 500 "Failed to create review")
      end
  end.

(** The object [{ [verificationType]: true }] for one of the three names,
    and nothing for another text. *)
Definition verification_of (verificationType : string)
  : option User.Verification.Partial.t :=
  if String.eqb verificationType "idVerified" then
    Some (User.Verification.Partial.mk (Some true) None None)
  else if String.eqb verificationType "phoneVerified" then
    Some (User.Verification.Partial.mk None (Some true) None)
  else if String.eqb verificationType "addressVerified" then
    Some (User.Verification.Partial.mk None None (Some true))
  else None.

(** [POST /api/verification], with the [verificationType] of the body.
    The response carries [verificationStatus] and [isVerified]. *)
Definition post_verification (session : option Z)
    (verificationType : option string)
  : Method.t MemStorage.t (response (User.Verification.t * bool)) :=
  match session with
  | None => refuse 401 "Not authenticated"
  | Some userId =>
      try_catch
        (match verificationType with
         | Some verificationType =>
             match verification_of verificationType with
             | Some verificationData =>
                 updatedUser <-
                   MemStorage.updateUserVerification userId verificationData ;;
                 respond 200 (User.verificationStatus updatedUser,
                              User.isVerified updatedUser)
             | None => refuse 400 "Invalid verification type"
             end
         | None => refuse 400 "Invalid verification type"
         end)
        (refuse 500 "Verification failed")
  end.

(** The part of a user that the message handlers disclose. *)
Record user_summary := mkUserSummary {
  summary_id : Z;
  summary_firstName : string;
  summary_lastName : string;
  summary_profileImage : option string }.

Definition summary (user : User.t) : user_summary :=
  {| summary_id := User.id user;
     summary_firstName := User.firstName user;
     summary_lastName := User.lastName user;
     summary_profileImage := User.profileImage user |}.

(** An entry of [conversations].  [lastMessage] copies the six fields of
    a message. *)
Record conversation := mkConversation {
  user : user_summary;
  lastMessage : Message.t;
  unreadCount : Z }.

(** [message.senderId === req.user!.id ? message.receiverId
    : message.senderId]. *)
Definition otherUserId (userId : Z) (message : Message.t) : Z :=
  if Message.senderId message =? userId then Message.receiverId message
  else Message.senderId message.

(** [message.receiverId === req.user!.id && !message.isRead]. *)
Definition unread_by (userId : Z) (message : Message.t) : bool :=
  (Message.receiverId message =? userId) && negb (Message.isRead message).

(** The body of the loop [for (const message of messages)] of
    [GET /api/messages]. *)
Definition group_message (userId : Z) (message : Message.t)
    (conversations : JsRecord.t conversation)
  : Method.t MemStorage.t (JsRecord.t conversation) :=
  let otherUserId := otherUserId userId message in
  match JsMap.get otherUserId conversations with
  | None =>
      otherUser <- MemStorage.getUser otherUserId ;;
      match otherUser with
      | None => Method.ret conversations
      | Some otherUser =>
          Method.ret
            (JsMap.set otherUserId
               {| user := summary otherUser;
                  lastMessage := message;
                  unreadCount := if unread_by userId message then 1 else 0 |}
               conversations)
      end
  | Some conversation =>
      (* Check if this message is more recent *)
      let lastMessage :=
        if Message.createdAt (lastMessage conversation)
           <? Message.createdAt message
        then message else lastMessage conversation in
      (* Count unread messages *)
      let unreadCount :=
        if unread_by userId message then unreadCount conversation + 1
        else unreadCount conversation in
      Method.ret
        (JsMap.set otherUserId
           {| user := user conversation;
              lastMessage := lastMessage;
              unreadCount := unreadCount |}
           conversations)
  end.

Fixpoint group_messages (userId : Z) (messages : list Message.t)
    (conversations : JsRecord.t conversation)
  : Method.t MemStorage.t (JsRecord.t conversation) :=
  match messages with
  | [] => Method.ret conversations
  | message :: messages =>
      conversations <- group_message userId message conversations ;;
      group_messages userId messages conversations
  end.

(** [GET /api/messages]. *)
Definition get_messages (session : option Z)
  : Method.t MemStorage.t (response (list conversation)) :=
  match session with
  | None => refuse 401 "Not authenticated"
  | Some userId =>
      try_catch
        (messages <- MemStorage.getMessagesByUserId userId ;;
         (* Group messages by the other user *)
         conversations <- group_messages userId messages JsMap.empty ;;
         respond 200 (JsRecord.values conversations))
        (refuse 500 "Failed to fetch messages")
  end.

(** [{ ...message, isRead: true }]. *)
Definition read (message : Message.t) : Message.t :=
  {| Message.id := Message.id message;
     Message.senderId := Message.senderId message;
     Message.receiverId := Message.receiverId message;
     Message.content := Message.content message;
     Message.isRead := true;
     Message.createdAt := Message.createdAt message |}.

(** [await Promise.all(messages.map(async (message) => { if (...) await
    storage.markMessageAsRead(message.id); }))].  A call of
    [markMessageAsRead] reads its message when it is made and is then
    suspended by its [await]; it writes when it is resumed.  So every call
    has read before the first one writes, and the writes follow in the
    order of the list. *)
Definition mark_received_as_read (userId : Z) (messages : list Message.t)
  : Method.t MemStorage.t unit :=
  calls <-
    Method.gets (fun st =>
      map (fun message =>
             (Message.id message,
              JsMap.get (Message.id message) (MemStorage.messages st)))
          (filter (unread_by userId) messages)) ;;
  Method.modify (fun st =>
    fold_left
      (fun st call =>
         match snd call with
         | None => st
         | Some message =>
             MemStorage.set_messages
               (JsMap.set (fst call) (read message) (MemStorage.messages st))
               st
         end)
      calls st).

(** [GET /api/messages/:userId]. *)
Definition get_messages_with (session : option Z) (otherUserId : Z)
  : Method.t MemStorage.t (response (list Message.t * user_summary)) :=
  match session with
  | None => refuse 401 "Not authenticated"
  | Some userId =>
      try_catch
        (messages <- MemStorage.getMessagesBetweenUsers userId otherUserId ;;
         (* Mark messages as read if the current user is the receiver *)
         mark_received_as_read userId messages ;;
         otherUser <- MemStorage.getUser otherUserId ;;
         match otherUser with
         | None => refuse 404 "User not found"
         | Some otherUser => respond 200 (messages, summary otherUser)
         end)
        (refuse 500 "Failed to fetch messages")
  end.

(** The part of a sender or traveler that the delivery handlers
    disclose. *)
Record party := mkParty {
  party_id : Z;
  party_firstName : string;
  party_lastName : string;
  party_profileImage : option string;
  party_verificationStatus : User.Verification.t;
  party_rating : Q;
  party_reviewCount : Z }.

Definition party_of (user : User.t) : party :=
  {| party_id := User.id user;
     party_firstName := User.firstName user;
     party_lastName := User.lastName user;
     party_profileImage := User.profileImage user;
     party_verificationStatus := User.verificationStatus user;
     party_rating := User.rating user;
     party_reviewCount := User.reviewCount user |}.

(** [{ ...delivery, trip, package: pkg, sender, traveler }]. *)
Record enriched_delivery := mkEnrichedDelivery {
  delivery : Delivery.t;
  trip : option Trip.t;
  package : option Package.t;
  sender : option party;
  traveler : option party }.

Definition enrich (delivery : Delivery.t)
  : Method.t MemStorage.t enriched_delivery :=
  trip <- MemStorage.getTrip (Delivery.tripId delivery) ;;
  pkg <- MemStorage.getPackage (Delivery.packageId delivery) ;;
  sender <- MemStorage.getUser (Delivery.senderId delivery) ;;
  traveler <- MemStorage.getUser (Delivery.travelerId delivery) ;;
  Method.ret
    {| delivery := delivery;
       trip := trip;
       package := pkg;
       sender := option_map party_of sender;
       traveler := option_map party_of traveler |}.

(** [await Promise.all(deliveries.map(async (delivery) => ...))], whose
    callbacks only read the store. *)
Fixpoint enrich_all (deliveries : list Delivery.t)
  : Method.t MemStorage.t (list enriched_delivery) :=
  match deliveries with
  | [] => Method.ret []
  | delivery :: deliveries =>
      enriched <- enrich delivery ;;
      rest <- enrich_all deliveries ;;
      Method.ret (enriched :: rest)
  end.

(** [GET /api/deliveries/user]. *)
Definition get_deliveries_user (session : option Z)
  : Method.t MemStorage.t (response (list enriched_delivery)) :=
  match session with
  | None => refuse 401 "Not authenticated"
  | Some userId =>
      try_catch
        (travelerDeliveries <-
           MemStorage.getDeliveriesByUserId userId Delivery.traveler ;;
         senderDeliveries <-
           MemStorage.getDeliveriesByUserId userId Delivery.sender ;;
         (* Combine and enrich with trip and package details *)
         enrichedDeliveries <-
           enrich_all (travelerDeliveries ++ senderDeliveries) ;;
         respond 200 enrichedDeliveries)
        (refuse 500 "Failed to fetch deliveries")
  end.

End Routes.

(** * Vocabulary of the further properties *)

(** The keys of a map are distinct and are identifiers that its counter
    has handed out: from 1 up to, not including, the counter. *)
Definition keys_fresh {V : Type} (m : JsMap.t V) (counter : Z) : Prop :=
  1 <= counter
  /\ NoDup (JsMap.keys m)
  /\ forall k, In k (JsMap.keys m) -> 1 <= k < counter.

(** Every value sits under the key that its [id] field names. *)
Definition ids_are_keys {V : Type} (id : V -> Z) (m : JsMap.t V) : Prop :=
  forall k v, In (k, v) m -> id v = k.

(** The shape of a store that the methods maintain.  Trips and packages
    are left out of the second half: [updateTrip] and [updatePackage]
    accept an [id] in their payload. *)
Definition well_formed (st : MemStorage.t) : Prop :=
  keys_fresh (MemStorage.users st) (MemStorage.userId st)
  /\ keys_fresh (MemStorage.trips st) (MemStorage.tripId st)
  /\ keys_fresh (MemStorage.packages st) (MemStorage.packageId st)
  /\ keys_fresh (MemStorage.deliveries st) (MemStorage.deliveryId st)
  /\ keys_fresh (MemStorage.messages st) (MemStorage.messageId st)
  /\ keys_fresh (MemStorage.reviews st) (MemStorage.reviewId st)
  /\ ids_are_keys User.id (MemStorage.users st)
  /\ ids_are_keys Delivery.id (MemStorage.deliveries st)
  /\ ids_are_keys Message.id (MemStorage.messages st)
  /\ ids_are_keys Review.id (MemStorage.reviews st).

(** The payload [{ isActive: b }] of [updateTrip] and of [updatePackage]. *)
Definition trip_isActive (b : option bool) : Trip.Partial.t :=
  {| Trip.Partial.id := None;
     Trip.Partial.userId := None;
     Trip.Partial.departureAirport := None;
     Trip.Partial.destinationCity := None;
     Trip.Partial.departureDate := None;
     Trip.Partial.arrivalDate := None;
     Trip.Partial.airline := None;
     Trip.Partial.flightNumber := None;
     Trip.Partial.availableWeight := None;
     Trip.Partial.pricePerKg := None;
     Trip.Partial.notes := None;
     Trip.Partial.isActive := Some b;
     Trip.Partial.createdAt := None |}.

Definition package_isActive (b : option bool) : Package.Partial.t :=
  {| Package.Partial.id := None;
     Package.Partial.userId := None;
     Package.Partial.senderCity := None;
     Package.Partial.receiverCity := None;
     Package.Partial.packageType := None;
     Package.Partial.weight := None;
     Package.Partial.dimensions := None;
     Package.Partial.deliveryDeadline := None;
     Package.Partial.offeredPayment := None;
     Package.Partial.description := None;
     Package.Partial.status := None;
     Package.Partial.isActive := Some b;
     Package.Partial.createdAt := None |}.

(** A verification payload that only confirms: each key is absent or
    [true]. *)
Definition confirms (data : User.Verification.Partial.t) : Prop :=
  User.Verification.Partial.idVerified data <> Some false
  /\ User.Verification.Partial.phoneVerified data <> Some false
  /\ User.Verification.Partial.addressVerified data <> Some false.

(** One of the payloads sets the key. *)
Definition confirmed_by
    (key : User.Verification.Partial.t -> option bool)
    (payloads : list User.Verification.Partial.t) : bool :=
  existsb (fun data => match key data with Some true => true | _ => false end)
          payloads.

(** The calls [updateUserVerification(userId, d1)], ... in this order. *)
Definition verification_calls (userId : Z)
    (payloads : list User.Verification.Partial.t) : list MemStorage.call :=
  map (MemStorage.UpdateUserVerification userId) payloads.

(** The payload [{ id: j }] of [updatePackage]. *)
Definition package_id_only (j : Z) : Package.Partial.t :=
  {| Package.Partial.id := Some j;
     Package.Partial.userId := None;
     Package.Partial.senderCity := None;
     Package.Partial.receiverCity := None;
     Package.Partial.packageType := None;
     Package.Partial.weight := None;
     Package.Partial.dimensions := None;
     Package.Partial.deliveryDeadline := None;
     Package.Partial.offeredPayment := None;
     Package.Partial.description := None;
     Package.Partial.status := None;
     Package.Partial.isActive := None;
     Package.Partial.createdAt := None |}.

(** Two email addresses that differ in the case of their letters only. *)
Definition same_email (a b : string) : Prop :=
  JsString.toLowerCase a = JsString.toLowerCase b.

(** The messages of a store once those under the keys that [p] selects
    are read. *)
Definition read_at (p : Z -> bool) (m : JsMap.t Message.t)
  : JsMap.t Message.t :=
  map (fun entry =>
         (fst entry,
          if p (fst entry) then Routes.read (snd entry) else snd entry))
      m.

(** [message] was sent by [sender] to [receiver]. *)
Definition sent (sender receiver : Z) (message : Message.t) : bool :=
  (Message.senderId message =? sender)
  && (Message.receiverId message =? receiver).

(** The messages of a store once those that [sender] sent to [receiver]
    are read. *)
Definition marked_read (sender receiver : Z) (m : JsMap.t Message.t)
  : JsMap.t Message.t :=
  map (fun entry =>
         (fst entry,
          if sent sender receiver (snd entry) then Routes.read (snd entry)
          else snd entry))
      m.

(** The message that the loop of [GET /api/messages] keeps as the last one
    of a conversation whose messages it meets in the order [first], then
    [rest]. *)
Definition latest (first : Message.t) (rest : list Message.t) : Message.t :=
  fold_left
    (fun last message =>
       if Message.createdAt last <? Message.createdAt message then message
       else last)
    rest first.

(** The messages of a list that [userId] exchanged with [otherUserId]. *)
Definition messages_with (userId otherUserId : Z)
    (messages : list Message.t) : list Message.t :=
  filter (fun message => Routes.otherUserId userId message =? otherUserId)
         messages.

(** The number of the messages of a list that [userId] received and has
    not read. *)
Definition unread_count (userId : Z) (messages : list Message.t) : Z :=
  Z.of_nat (List.length (filter (Routes.unread_by userId) messages)).

(** The entry of [conversations] under [otherUserId] once the messages of
    the list are grouped. *)
Definition conversation_with (users : JsMap.t User.t) (userId : Z)
    (messages : list Message.t) (otherUserId : Z)
  : option Routes.conversation :=
  match JsMap.get otherUserId users with
  | None => None
  | Some otherUser =>
      match messages_with userId otherUserId messages with
      | [] => None
      | first :: rest =>
          Some {| Routes.user := Routes.summary otherUser;
                  Routes.lastMessage := latest first rest;
                  Routes.unreadCount :=
                    unread_count userId (first :: rest) |}
      end
  end.

(** Conversations in ascending order of the identifier of the other
    user. *)
Definition by_user_id (c c' : Routes.conversation) : Prop :=
  Routes.summary_id (Routes.user c) < Routes.summary_id (Routes.user c').

(** An example of a store: two users, a trip of the first and a package of
    the second, the delivery that links them, and three messages. *)
Module Sample.

Definition otherData : User.Insert.t :=
  {| User.Insert.password := "secret";
     User.Insert.email := "b@example.org";
     User.Insert.firstName := "C";
     User.Insert.lastName := "D";
     User.Insert.profileImage := None |}.

Definition other : User.t :=
  {| User.id := 2;
     User.password := "hash";
     User.email := "b@example.org";
     User.firstName := "C";
     User.lastName := "D";
     User.profileImage := None;
     User.isVerified := false;
     User.verificationStatus := User.Verification.mk false false false;
     User.createdAt := 0;
     User.rating := 0%Q;
     User.reviewCount := 0 |}.

Definition hello : Message.Insert.t :=
  {| Message.Insert.senderId := 2;
     Message.Insert.receiverId := 1;
     Message.Insert.content := "hello" |}.

Definition reply : Message.Insert.t :=
  {| Message.Insert.senderId := 1;
     Message.Insert.receiverId := 2;
     Message.Insert.content := "hi" |}.

Definition question : Message.Insert.t :=
  {| Message.Insert.senderId := 2;
     Message.Insert.receiverId := 1;
     Message.Insert.content := "when?" |}.

Definition calls : list MemStorage.call :=
  [MemStorage.CreateUser Scenario.userData "hash" 0;
   MemStorage.CreateUser otherData "hash" 0;
   MemStorage.CreateTrip Scenario.tripData 1 0;
   MemStorage.CreatePackage Scenario.packageData 2 0;
   MemStorage.CreateDelivery Scenario.deliveryData 5;
   MemStorage.CreateMessage hello 10;
   MemStorage.CreateMessage reply 11;
   MemStorage.CreateMessage question 12].

Definition store : MemStorage.t := MemStorage.exec_all calls MemStorage.new.

(** A third user writes to the first one. *)
Definition thirdData : User.Insert.t :=
  {| User.Insert.password := "secret";
     User.Insert.email := "c@example.org";
     User.Insert.firstName := "E";
     User.Insert.lastName := "F";
     User.Insert.profileImage := None |}.

Definition late : Message.Insert.t :=
  {| Message.Insert.senderId := 3;
     Message.Insert.receiverId := 1;
     Message.Insert.content := "late" |}.

Definition three_users : list MemStorage.call :=
  calls ++ [MemStorage.CreateUser thirdData "hash" 0;
            MemStorage.CreateMessage late 13].

(** The first user carries a package of their own. *)
Definition own_delivery : Delivery.Insert.t :=
  {| Delivery.Insert.tripId := 1;
     Delivery.Insert.packageId := 1;
     Delivery.Insert.travelerId := 1;
     Delivery.Insert.senderId := 1 |}.

Definition two_roles : list MemStorage.call :=
  calls ++ [MemStorage.CreateDelivery own_delivery 6].

Definition message (id : Z) (data : Message.Insert.t) (isRead : bool)
    (createdAt : Date) : Message.t :=
  {| Message.id := id;
     Message.senderId := Message.Insert.senderId data;
     Message.receiverId := Message.Insert.receiverId data;
     Message.content := Message.Insert.content data;
     Message.isRead := isRead;
     Message.createdAt := createdAt |}.

End Sample.

(** * Properties *)

(** ** Facts about [JsMap] *)

Section JsMapFacts.
Context {V : Type}.
Implicit Types (m : JsMap.t V) (k : Z) (v : V).

Lemma get_set_same m k v : JsMap.get k (JsMap.set k v m) = Some v.
Proof.
  induction m as [|[k' v'] m IH]; simpl.
  - now rewrite Z.eqb_refl.
  - destruct (Z.eqb k k') eqn:E; simpl.
    + now rewrite Z.eqb_refl.
    + now rewrite E.
Qed.

Lemma get_set_other m k k' v :
  k <> k' -> JsMap.get k' (JsMap.set k v m) = JsMap.get k' m.
Proof.
  intros Hne. induction m as [|[k0 v0] m IH]; simpl.
  - destruct (Z.eqb_spec k' k); [congruence | reflexivity].
  - destruct (Z.eqb_spec k k0) as [->|Hk]; simpl.
    + destruct (Z.eqb_spec k' k0); [congruence | reflexivity].
    + destruct (Z.eqb_spec k' k0); [reflexivity | exact IH].
Qed.

Lemma get_None_iff m k : JsMap.get k m = None <-> ~ In k (JsMap.keys m).
Proof.
  induction m as [|[k' v'] m IH]; simpl.
  - tauto.
  - destruct (Z.eqb_spec k k') as [->|Hk].
    + split; [discriminate | intros H; exfalso; apply H; now left].
    + rewrite IH. split.
      * intros H [E|E]; [congruence | auto].
      * intros H E. apply H. now right.
Qed.

Lemma get_Some_In m k v : JsMap.get k m = Some v -> In (k, v) m.
Proof.
  induction m as [|[k' v'] m IH]; simpl; [discriminate|].
  destruct (Z.eqb_spec k k') as [->|Hk].
  - intros [= ->]. now left.
  - intros H. right. auto.
Qed.


Lemma In_set_inv m k v k' v' :
  In (k', v') (JsMap.set k v m) -> (k' = k /\ v' = v) \/ In (k', v') m.
Proof.
  induction m as [|[k0 v0] m IH]; simpl.
  - intros [[= <- <-]|[]]. now left.
  - destruct (Z.eqb_spec k k0) as [->|Hk]; simpl.
    + intros [[= <- <-]|H]; [now left | right; now right].
    + intros [H|H]; [right; now left|].
      destruct (IH H) as [?|?]; [now left | right; now right].
Qed.

End JsMapFacts.

(** ** Unfolding a method *)

Ltac run_method :=
  unfold Method.bind, Method.ret, Method.gets, Method.modify, Method.throw;
  simpl.

Ltac run_query :=
  unfold Method.bind, Method.ret, Method.gets, Method.modify, Method.throw;
  cbn -[Sql.update Sql.select Sql.conj app].

(** ** Reads of the in-memory store *)

Section MemReads.
Import MemStorage.

Lemma getPackage_eq id st :
  getPackage id st = (Returned (JsMap.get id (packages st)), st).
Proof. reflexivity. Qed.

Lemma getDelivery_eq id st :
  getDelivery id st = (Returned (JsMap.get id (deliveries st)), st).
Proof. reflexivity. Qed.

Lemma getUser_eq id st :
  getUser id st = (Returned (JsMap.get id (users st)), st).
Proof. reflexivity. Qed.

Lemma spread_of_status pkg s :
  Package.spread pkg (Package.Partial.of_status s)
  = Package.with_status (Some s) pkg.
Proof. reflexivity. Qed.

(** [updatePackage] on a key that holds a package. *)
Lemma updatePackage_found id pkg packageData st :
  JsMap.get id (packages st) = Some pkg ->
  updatePackage id packageData st
  = (Returned (Some (Package.spread pkg packageData)),
     set_packages
       (JsMap.set id (Package.spread pkg packageData) (packages st)) st).
Proof.
  intros H. unfold updatePackage, getPackage. run_method. now rewrite H.
Qed.

End MemReads.

(** ** Rows of a table selected by their identifier *)

Section PgRows.
Import PgStorage.

Lemma first_row_update {R : Type} (key : R -> Z) (assign : R -> R) id rows :
  (forall r, key (assign r) = key r) ->
  first_row
    (Sql.select (fun row => Some (key row =? id))
       (fst (Sql.update assign (fun row => Some (key row =? id)) rows)))
  = option_map assign
      (first_row (Sql.select (fun row => Some (key row =? id)) rows)).
Proof.
  intros Hid. unfold Sql.update, Sql.select. simpl.
  induction rows as [|p rows IH]; simpl; [reflexivity|].
  destruct (key p =? id) eqn:E; simpl.
  - now rewrite Hid, E.
  - now rewrite E.
Qed.

Lemma first_row_select_app_deliveries id rows row :
  (forall d, In d rows -> Delivery.id d <> id) ->
  Delivery.id row = id ->
  first_row
    (Sql.select (fun d => Some (Delivery.id d =? id)) (rows ++ [row]))
  = Some row.
Proof.
  intros Hfresh Hrow. unfold Sql.select.
  induction rows as [|d rows IH]; simpl.
  - rewrite Hrow, Z.eqb_refl. reflexivity.
  - destruct (Z.eqb_spec (Delivery.id d) id) as [E|E].
    + exfalso. apply (Hfresh d); [now left | exact E].
    + simpl. apply IH. intros d' Hd'. apply Hfresh. now right.
Qed.

End PgRows.

(** ** Creating a delivery *)

Lemma mem_createDelivery_matched st P d now :
  fst (MemStorage.getPackage (Package.id P) st) = Returned (Some P) ->
  Delivery.Insert.packageId d = Package.id P ->
  fst (MemStorage.getPackage (Package.id P)
         (snd (MemStorage.createDelivery d now st)))
  = Returned (Some (Package.with_status (Some "matched") P)).
Proof.
  intros HP Hd. rewrite getPackage_eq in HP. simpl in HP.
  injection HP as HP.
  unfold MemStorage.createDelivery. run_method.
  rewrite Hd, HP.
  erewrite updatePackage_found by (simpl; exact HP). simpl.
  now rewrite get_set_same.
Qed.

(** The constraints of a table, in the words of the schema. *)
Lemma references_iff {R : Type} (key : R -> Z) table value :
  Sql.references key table value = true <-> names key table value.
Proof.
  unfold Sql.references, names. rewrite existsb_exists.
  split; intros (row & Hin & H); exists row; (split; [exact Hin|]);
    now apply Z.eqb_eq.
Qed.

Lemma fresh_key_iff {R : Type} (key : R -> Z) table value :
  Sql.fresh_key key table value = true
  <-> forall row, In row table -> key row <> value.
Proof.
  unfold Sql.fresh_key. rewrite Bool.negb_true_iff.
  rewrite <- Bool.not_true_iff_false, existsb_exists. split.
  - intros H row Hin E. apply H. exists row. split; [exact Hin|].
    now apply Z.eqb_eq.
  - intros H (row & Hin & E). apply Z.eqb_eq in E. exact (H row Hin E).
Qed.

(** The tuple that [createDelivery] inserts. *)
Lemma pg_createDelivery_eq d now db :
  let row :=
    {| Delivery.id := PgStorage.deliveries_id_seq db;
       Delivery.tripId := Delivery.Insert.tripId d;
       Delivery.packageId := Delivery.Insert.packageId d;
       Delivery.travelerId := Delivery.Insert.travelerId d;
       Delivery.senderId := Delivery.Insert.senderId d;
       Delivery.status := "pending";
       Delivery.paymentStatus := "pending";
       Delivery.createdAt := now;
       Delivery.updatedAt := now |} in
  let db1 := snd (PgStorage.nextval_deliveries db) in
  PgStorage.createDelivery d now db
  = if PgStorage.accepts_delivery db row then
      (Returned (Row.of_delivery row),
       PgStorage.set_packages
         (fst (Sql.update
                 (Package.with_status (Some "matched"))
                 (fun p => Some (Package.id p =? Delivery.Insert.packageId d))
                 (PgStorage.packages db)))
         (PgStorage.set_deliveries (PgStorage.deliveries db ++ [row]) db1))
    else (Thrown Sql.constraint_violation, db1).
Proof.
  intros row db1. unfold PgStorage.createDelivery.
  unfold Method.bind, Method.gets, Method.modify, Method.ret, Method.throw,
    PgStorage.nextval_deliveries.
  cbn [fst snd]. fold row.
  change (PgStorage.accepts_delivery _ row)
    with (PgStorage.accepts_delivery db row) at 1.
  destruct (PgStorage.accepts_delivery db row); reflexivity.
Qed.

Lemma pg_accepts_delivery_iff d now db :
  PgStorage.accepts_delivery db
    {| Delivery.id := PgStorage.deliveries_id_seq db;
       Delivery.tripId := Delivery.Insert.tripId d;
       Delivery.packageId := Delivery.Insert.packageId d;
       Delivery.travelerId := Delivery.Insert.travelerId d;
       Delivery.senderId := Delivery.Insert.senderId d;
       Delivery.status := "pending";
       Delivery.paymentStatus := "pending";
       Delivery.createdAt := now;
       Delivery.updatedAt := now |} = true
  <-> pg_accepts_delivery db d.
Proof.
  unfold PgStorage.accepts_delivery, pg_accepts_delivery.
  cbn [Delivery.id Delivery.tripId Delivery.packageId Delivery.travelerId
       Delivery.senderId].
  rewrite !Bool.andb_true_iff, fresh_key_iff, !references_iff. tauto.
Qed.

Lemma pg_createDelivery_matched db P d now :
  fst (PgStorage.getPackage (Package.id P) db) = Returned (Some P) ->
  Delivery.Insert.packageId d = Package.id P ->
  pg_accepts_delivery db d ->
  fst (PgStorage.getPackage (Package.id P)
         (snd (PgStorage.createDelivery d now db)))
  = Returned (Some (Package.with_status (Some "matched") P)).
Proof.
  intros HP Hd Hacc. rewrite pg_createDelivery_eq.
  rewrite (proj2 (pg_accepts_delivery_iff d now db) Hacc).
  unfold PgStorage.getPackage, Method.gets in *. cbn [fst snd] in *.
  injection HP as HP.
  cbn [PgStorage.packages PgStorage.set_packages PgStorage.set_deliveries].
  rewrite Hd. rewrite (first_row_update Package.id) by reflexivity.
  now rewrite HP.
Qed.

Lemma pg_createDelivery_refused db d now :
  ~ pg_accepts_delivery db d ->
  PgStorage.createDelivery d now db
  = (Thrown Sql.constraint_violation, snd (PgStorage.nextval_deliveries db)).
Proof.
  intros Hrefused. rewrite pg_createDelivery_eq.
  destruct (PgStorage.accepts_delivery db _) eqn:E; [|reflexivity].
  exfalso. apply Hrefused. now apply (pg_accepts_delivery_iff d now db).
Qed.

(** C1.  Creating a delivery for an existing package [P] leaves
    [getPackage(P.id)] returning [P] with the status "matched", whatever
    the status of [P] was: in the in-memory store for every payload, and
    in the database for every payload that the table [deliveries]
    accepts.  A payload that the database refuses, because it names a
    trip or a user that is not there, makes [createDelivery] throw and
    leaves [P] as it was. *)
Theorem createDelivery_sets_package_matched :
  (forall st P d now,
      fst (MemStorage.getPackage (Package.id P) st) = Returned (Some P) ->
      Delivery.Insert.packageId d = Package.id P ->
      exists P',
        fst (MemStorage.getPackage (Package.id P)
               (snd (MemStorage.createDelivery d now st)))
        = Returned (Some P')
        /\ Package.status P' = Some "matched"
        /\ P' = Package.with_status (Some "matched") P)
  /\
  (forall db P d now,
      fst (PgStorage.getPackage (Package.id P) db) = Returned (Some P) ->
      Delivery.Insert.packageId d = Package.id P ->
      (pg_accepts_delivery db d ->
       exists P',
         fst (PgStorage.getPackage (Package.id P)
                (snd (PgStorage.createDelivery d now db)))
         = Returned (Some P')
         /\ Package.status P' = Some "matched"
         /\ P' = Package.with_status (Some "matched") P)
      /\ (~ pg_accepts_delivery db d ->
          (exists message,
              fst (PgStorage.createDelivery d now db) = Thrown message)
          /\ fst (PgStorage.getPackage (Package.id P)
                    (snd (PgStorage.createDelivery d now db)))
             = Returned (Some P))).
Proof.
  split.
  - intros st P d now HP Hd.
    exists (Package.with_status (Some "matched") P).
    split; [|split; reflexivity]. now apply mem_createDelivery_matched.
  - intros db P d now HP Hd. split.
    + intros Hacc. exists (Package.with_status (Some "matched") P).
      split; [|split; reflexivity]. now apply pg_createDelivery_matched.
    + intros Hrefused. rewrite (pg_createDelivery_refused _ _ _ Hrefused).
      split; [eexists; reflexivity|]. exact HP.
Qed.

(** C1, the claim as the specification states it: in the database, a
    payload for the existing package 1 that names a traveler who is not a
    user is refused, and the package keeps the status "pending". *)
Lemma pg_createDelivery_refused_keeps_status :
  fst (PgStorage.getPackage 1 Scenario.staffed_database)
  = Returned (Some Scenario.pkg)
  /\ Delivery.Insert.packageId Scenario.unknown_traveler = 1
  /\ (exists message,
         fst (PgStorage.createDelivery Scenario.unknown_traveler 5
                Scenario.staffed_database)
         = Thrown message)
  /\ exists P',
      fst (PgStorage.getPackage 1
             (snd (PgStorage.createDelivery Scenario.unknown_traveler 5
                     Scenario.staffed_database)))
      = Returned (Some P')
      /\ Package.status P' = Some "pending"
      /\ Package.status P' <> Some "matched".
Proof.
  split; [reflexivity|]. split; [reflexivity|].
  split; [eexists; reflexivity|].
  exists Scenario.pkg. split; [reflexivity|]. split; [reflexivity|].
  discriminate.
Qed.

(** ** Updating the status of a delivery *)

Lemma mem_updateDeliveryStatus_delivered st D P now :
  fst (MemStorage.getDelivery (Delivery.id D) st) = Returned (Some D) ->
  fst (MemStorage.getPackage (Package.id P) st) = Returned (Some P) ->
  Delivery.packageId D = Package.id P ->
  fst (MemStorage.getPackage (Package.id P)
         (snd (MemStorage.updateDeliveryStatus (Delivery.id D) "delivered"
                 now st)))
  = Returned (Some (Package.with_status (Some "delivered") P)).
Proof.
  intros HD HP Hlink.
  rewrite getDelivery_eq in HD. rewrite getPackage_eq in HP. simpl in HD, HP.
  injection HD as HD. injection HP as HP.
  unfold MemStorage.updateDeliveryStatus. run_method.
  rewrite HD. simpl. rewrite Hlink, HP.
  erewrite updatePackage_found by (simpl; exact HP). simpl.
  now rewrite get_set_same.
Qed.

Lemma mem_updateDeliveryStatus_other st D s now :
  s <> "delivered" ->
  MemStorage.packages
    (snd (MemStorage.updateDeliveryStatus (Delivery.id D) s now st))
  = MemStorage.packages st.
Proof.
  intros Hs. apply String.eqb_neq in Hs.
  unfold MemStorage.updateDeliveryStatus, MemStorage.getDelivery. run_method.
  destruct (JsMap.get (Delivery.id D) (MemStorage.deliveries st));
    simpl; [|reflexivity].
  now rewrite Hs.
Qed.

Lemma pg_updateDeliveryStatus_delivered db D P now :
  fst (PgStorage.getDelivery (Delivery.id D) db) = Returned (Some D) ->
  fst (PgStorage.getPackage (Package.id P) db) = Returned (Some P) ->
  Delivery.packageId D = Package.id P ->
  fst (PgStorage.getPackage (Package.id P)
         (snd (PgStorage.updateDeliveryStatus (Delivery.id D) "delivered"
                 now db)))
  = Returned (Some (Package.with_status (Some "delivered") P)).
Proof.
  intros HD HP Hlink.
  unfold PgStorage.getDelivery, PgStorage.getPackage in *.
  cbn -[Sql.select] in HD, HP. injection HD as HD. injection HP as HP.
  unfold PgStorage.updateDeliveryStatus. run_query.
  unfold Sql.update at 1. cbn -[Sql.update Sql.select].
  destruct (Sql.select (fun d => Some (Delivery.id d =? Delivery.id D))
              (PgStorage.deliveries db)) as [|d rows] eqn:Hsel;
    [discriminate|].
  cbn -[Sql.update Sql.select] in *. unfold PgStorage.mapRowDates in HD.
  injection HD as ->.
  rewrite Hlink.
  rewrite (first_row_update Package.id) by reflexivity.
  now rewrite HP.
Qed.

Lemma pg_updateDeliveryStatus_other db id s now :
  s <> "delivered" ->
  PgStorage.packages (snd (PgStorage.updateDeliveryStatus id s now db))
  = PgStorage.packages db.
Proof.
  intros Hs. apply String.eqb_neq in Hs.
  unfold PgStorage.updateDeliveryStatus. run_query.
  unfold Sql.update. cbn -[Sql.select]. now rewrite Hs.
Qed.

(** C2.  For an existing delivery [D] linked to an existing package [P],
    [updateDeliveryStatus(D.id, s)] turns the status of [P] into
    "delivered" when [s] is the string "delivered", every other field of
    [P] kept; for every other [s] the packages are left as they were, so
    that [getPackage(P.id)] returns [P] unchanged.  In the in-memory store
    and in the database. *)
Theorem updateDeliveryStatus_package_status :
  (forall st D P s now,
      fst (MemStorage.getDelivery (Delivery.id D) st) = Returned (Some D) ->
      fst (MemStorage.getPackage (Package.id P) st) = Returned (Some P) ->
      Delivery.packageId D = Package.id P ->
      let st' :=
        snd (MemStorage.updateDeliveryStatus (Delivery.id D) s now st) in
      (s = "delivered" ->
       fst (MemStorage.getPackage (Package.id P) st')
       = Returned (Some (Package.with_status (Some "delivered") P)))
      /\
      (s <> "delivered" ->
       MemStorage.packages st' = MemStorage.packages st
       /\ fst (MemStorage.getPackage (Package.id P) st') = Returned (Some P)))
  /\
  (forall db D P s now,
      fst (PgStorage.getDelivery (Delivery.id D) db) = Returned (Some D) ->
      fst (PgStorage.getPackage (Package.id P) db) = Returned (Some P) ->
      Delivery.packageId D = Package.id P ->
      let db' :=
        snd (PgStorage.updateDeliveryStatus (Delivery.id D) s now db) in
      (s = "delivered" ->
       fst (PgStorage.getPackage (Package.id P) db')
       = Returned (Some (Package.with_status (Some "delivered") P)))
      /\
      (s <> "delivered" ->
       PgStorage.packages db' = PgStorage.packages db
       /\ fst (PgStorage.getPackage (Package.id P) db') = Returned (Some P))).
Proof.
  split.
  - intros st D P s now HD HP Hlink st'. split.
    + intros ->. now apply mem_updateDeliveryStatus_delivered.
    + intros Hs.
      assert (E : MemStorage.packages st' = MemStorage.packages st)
        by now apply mem_updateDeliveryStatus_other.
      split; [exact E|].
      rewrite getPackage_eq in *. simpl in *. now rewrite E.
  - intros db D P s now HD HP Hlink db'. split.
    + intros ->. now apply pg_updateDeliveryStatus_delivered.
    + intros Hs.
      assert (E : PgStorage.packages db' = PgStorage.packages db)
        by now apply pg_updateDeliveryStatus_other.
      split; [exact E|].
      unfold PgStorage.getPackage in *. run_query.
      cbn -[Sql.select] in HP. now rewrite E.
Qed.

(** ** The delivery that [createDelivery] returns *)

Lemma mem_createDelivery_deliveries st d now :
  exists delivery,
    fst (MemStorage.createDelivery d now st) = Returned delivery
    /\ Delivery.id delivery = MemStorage.deliveryId st
    /\ Delivery.status delivery = "pending"
    /\ Delivery.paymentStatus delivery = "pending"
    /\ MemStorage.deliveries (snd (MemStorage.createDelivery d now st))
       = JsMap.set (MemStorage.deliveryId st) delivery
                   (MemStorage.deliveries st).
Proof.
  unfold MemStorage.createDelivery. run_method.
  destruct (JsMap.get (Delivery.Insert.packageId d) (MemStorage.packages st))
    as [pkg|] eqn:Hpkg; simpl.
  - unfold MemStorage.updatePackage, MemStorage.getPackage. run_method.
    destruct (JsMap.get (Package.id pkg) (MemStorage.packages st)); simpl;
      eexists; repeat split; reflexivity.
  - eexists; repeat split; reflexivity.
Qed.

(** In the in-memory store the delivery that [createDelivery] returns has
    the status "pending" and the payment status "pending" for every insert
    payload (a payload has no field for either), and [getDelivery] reads
    the same delivery back. *)
Lemma mem_createDelivery_pending st d now :
  exists delivery,
    fst (MemStorage.createDelivery d now st) = Returned delivery
    /\ Delivery.status delivery = "pending"
    /\ Delivery.paymentStatus delivery = "pending"
    /\ fst (MemStorage.getDelivery (Delivery.id delivery)
              (snd (MemStorage.createDelivery d now st)))
       = Returned (Some delivery).
Proof.
  destruct (mem_createDelivery_deliveries st d now)
    as (delivery & Hret & Hid & Hs & Hp & Hmap).
  exists delivery. repeat split; try assumption.
  rewrite getDelivery_eq. simpl. rewrite Hmap, Hid.
  now rewrite get_set_same.
Qed.

(** In the database the row that [createDelivery] returns for a payload
    that the table accepts holds "pending" under [status] and under
    [payment_status], and has no key [paymentStatus]; the tuple is the one
    that [getDelivery] then selects. *)
Lemma pg_createDelivery_row db d now :
  pg_accepts_delivery db d ->
  exists row tuple,
    fst (PgStorage.createDelivery d now db) = Returned row
    /\ Row.get row "status" = Some (Row.Text "pending")
    /\ Row.get row "payment_status" = Some (Row.Text "pending")
    /\ Row.get row "paymentStatus" = None
    /\ row = Row.of_delivery tuple
    /\ fst (PgStorage.getDelivery (Delivery.id tuple)
              (snd (PgStorage.createDelivery d now db)))
       = Returned (Some tuple).
Proof.
  intros Hacc. rewrite pg_createDelivery_eq.
  rewrite (proj2 (pg_accepts_delivery_iff d now db) Hacc).
  do 2 eexists. split; [reflexivity|]. repeat split.
  unfold PgStorage.getDelivery, Method.gets. cbn [fst snd].
  cbn [PgStorage.deliveries PgStorage.set_packages PgStorage.set_deliveries
       Delivery.id].
  rewrite first_row_select_app_deliveries; [reflexivity| |reflexivity].
  exact (proj1 Hacc).
Qed.

(** C10.  On the database that holds the users 1 and 2, the trip 1 and
    the package 1, [createDelivery] for the payload that links them
    returns a row with "pending" under [status] and under
    [payment_status] and without the key [paymentStatus]: read as the
    [Delivery] that the method declares, its [paymentStatus] is
    [undefined].  The in-memory store returns, for the same payload, a
    delivery whose [paymentStatus] is "pending". *)
Theorem pg_createDelivery_row_lacks_paymentStatus :
  (exists row,
      fst (PgStorage.createDelivery Scenario.deliveryData 5
             Scenario.staffed_database) = Returned row
      /\ Row.get row "status" = Some (Row.Text "pending")
      /\ Row.get row "payment_status" = Some (Row.Text "pending")
      /\ Row.get row "paymentStatus" = None)
  /\ exists delivery,
      fst (MemStorage.createDelivery Scenario.deliveryData 5 Scenario.store)
      = Returned delivery
      /\ Delivery.status delivery = "pending"
      /\ Delivery.paymentStatus delivery = "pending".
Proof.
  split; eexists; repeat split; reflexivity.
Qed.

(** ** Identifiers that name nothing *)

(** C8.  For an identifier under which the store holds no entity, each
    [get] returns [undefined] (it returns: it does not throw) and leaves
    the store as it is; [updateUserVerification] with an identifier that
    names no user throws "User not found", and the store, the users among
    it, is the one before the call. *)
Theorem unknown_id_absent_or_not_found (st : MemStorage.t) (id : Z) :
  (~ In id (JsMap.keys (MemStorage.users st)) ->
   MemStorage.getUser id st = (Returned None, st))
  /\ (~ In id (JsMap.keys (MemStorage.trips st)) ->
      MemStorage.getTrip id st = (Returned None, st))
  /\ (~ In id (JsMap.keys (MemStorage.packages st)) ->
      MemStorage.getPackage id st = (Returned None, st))
  /\ (~ In id (JsMap.keys (MemStorage.deliveries st)) ->
      MemStorage.getDelivery id st = (Returned None, st))
  /\ (~ In id (JsMap.keys (MemStorage.messages st)) ->
      MemStorage.getMessage id st = (Returned None, st))
  /\ (~ In id (JsMap.keys (MemStorage.reviews st)) ->
      MemStorage.getReview id st = (Returned None, st))
  /\ (~ In id (JsMap.keys (MemStorage.users st)) ->
      forall verificationData,
        MemStorage.updateUserVerification id verificationData st
        = (Thrown "User not found", st)).
Proof.
  repeat split; intros H; try intros verificationData;
    apply get_None_iff in H;
    unfold MemStorage.getUser, MemStorage.getTrip, MemStorage.getPackage,
      MemStorage.getDelivery, MemStorage.getMessage, MemStorage.getReview,
      MemStorage.updateUserVerification, MemStorage.getUser;
    run_method; now rewrite H.
Qed.

(** ** The verified flag *)

Lemma In_values_set_inv {V : Type} (m : JsMap.t V) k v x :
  In x (JsMap.values (JsMap.set k v m)) -> x = v \/ In x (JsMap.values m).
Proof.
  unfold JsMap.values. intros Hx. apply in_map_iff in Hx.
  destruct Hx as ([k' v'] & <- & Hin). simpl.
  destruct (In_set_inv _ _ _ _ _ Hin) as [[_ ->]|H]; [now left|].
  right. apply in_map_iff. now exists (k', v').
Qed.

Lemma users_consistent_set st k u :
  users_consistent st ->
  verified_consistent u ->
  forall x, In x (JsMap.values (JsMap.set k u (MemStorage.users st))) ->
            verified_consistent x.
Proof.
  intros Hst Hu x Hx.
  destruct (In_values_set_inv _ _ _ _ Hx) as [->|H]; auto.
Qed.

Lemma every_flag_true (v : User.Verification.t) :
  forallb (fun status => Bool.eqb status true) (User.Verification.values v)
  = (User.Verification.idVerified v
     && User.Verification.phoneVerified v
     && User.Verification.addressVerified v)%bool.
Proof. destruct v as [[] [] []]; reflexivity. Qed.

Ltac users_untouched :=
  match goal with
  | H : users_consistent ?st |- users_consistent ?st' =>
      let E := fresh "E" in
      assert (E : MemStorage.users st' = MemStorage.users st);
      [ run_method;
        repeat match goal with
               | |- context [match ?x with _ => _ end] => destruct x; simpl
               end;
        reflexivity
      | unfold users_consistent; rewrite E; exact H ]
  end.

Lemma updatePackage_users id packageData st :
  exists o st',
    MemStorage.updatePackage id packageData st = (Returned o, st')
    /\ MemStorage.users st' = MemStorage.users st.
Proof.
  unfold MemStorage.updatePackage, MemStorage.getPackage. run_method.
  destruct (JsMap.get id (MemStorage.packages st)); simpl;
    eexists; eexists; split; reflexivity.
Qed.

Lemma exec_users_consistent c st :
  users_consistent st -> users_consistent (MemStorage.exec c st).
Proof.
  intros Hst.
  destruct c; unfold MemStorage.exec.
  4: { (* createUser *)
    unfold MemStorage.createUser. run_method.
    intros x Hx. simpl in Hx.
    apply (users_consistent_set st _ _ Hst) in Hx; [exact Hx|].
    reflexivity. }
  4: { (* updateUserVerification *)
    unfold MemStorage.updateUserVerification, MemStorage.getUser. run_method.
    destruct (JsMap.get userId (MemStorage.users st)) as [user|]; simpl;
      [|exact Hst].
    intros x Hx. simpl in Hx.
    apply (users_consistent_set st _ _ Hst) in Hx; [exact Hx|].
    exact (every_flag_true
             (User.Verification.spread (User.verificationStatus user)
                                       verificationData)). }
  29: { (* createReview *)
    unfold MemStorage.createReview, MemStorage.getUser. run_method.
    match goal with
    | |- context [match ?x with Some _ => _ | None => _ end] =>
        destruct x as [user|] eqn:Huser; simpl
    end; [|exact Hst].
    intros x Hx. simpl in Hx.
    apply (users_consistent_set st _ _ Hst) in Hx; [exact Hx|].
    unfold verified_consistent. simpl. apply Hst.
    apply get_Some_In in Huser.
    unfold JsMap.values. apply in_map_iff.
    eexists; split; [|exact Huser]; reflexivity. }
  all: try (unfold MemStorage.getUser, MemStorage.getUserByUsername,
      MemStorage.getUserByEmail, MemStorage.getTrip, MemStorage.getTrips,
      MemStorage.getTripsByUserId, MemStorage.createTrip,
      MemStorage.updateTrip, MemStorage.getPackage, MemStorage.getPackages,
      MemStorage.getPackagesByUserId, MemStorage.createPackage,
      MemStorage.getDelivery, MemStorage.getDeliveriesByTripId,
      MemStorage.getDeliveriesByPackageId, MemStorage.getDeliveriesByUserId,
      MemStorage.updatePaymentStatus, MemStorage.getMessage,
      MemStorage.getMessagesBetweenUsers, MemStorage.getMessagesByUserId,
      MemStorage.createMessage, MemStorage.markMessageAsRead,
      MemStorage.getReview, MemStorage.getReviewsByUserId,
      MemStorage.getReviewsByDeliveryId, MemStorage.updatePackage,
      MemStorage.createDelivery, MemStorage.updateDeliveryStatus,
      MemStorage.updatePackage, MemStorage.getPackage, MemStorage.getTrip,
      MemStorage.getDelivery, MemStorage.getMessage;
      users_untouched).
  - (* createDelivery *)
    unfold MemStorage.createDelivery, MemStorage.getPackage. run_method.
    destruct (JsMap.get _ (MemStorage.packages st)) as [pkg|]; simpl;
      [|exact Hst].
    match goal with
    | |- context [MemStorage.updatePackage ?i ?d ?s] =>
        destruct (updatePackage_users i d s) as (o & st' & -> & E)
    end.
    simpl. unfold users_consistent. rewrite E. exact Hst.
  - (* updateDeliveryStatus *)
    unfold MemStorage.updateDeliveryStatus, MemStorage.getDelivery,
      MemStorage.getPackage.
    run_method.
    destruct (JsMap.get id (MemStorage.deliveries st)) as [delivery|]; simpl;
      [|exact Hst].
    destruct (String.eqb status "delivered"); simpl; [|exact Hst].
    destruct (JsMap.get _ (MemStorage.packages st)) as [pkg|]; simpl;
      [|exact Hst].
    match goal with
    | |- context [MemStorage.updatePackage ?i ?d ?s] =>
        destruct (updatePackage_users i d s) as (o & st' & -> & E)
    end.
    simpl. unfold users_consistent. rewrite E. exact Hst.
Qed.

Lemma exec_all_users_consistent cs st :
  users_consistent st -> users_consistent (MemStorage.exec_all cs st).
Proof.
  revert st. unfold MemStorage.exec_all.
  induction cs as [|c cs IH]; intros st Hst; simpl; [exact Hst|].
  apply IH. now apply exec_users_consistent.
Qed.

(** C9.  In every store that a sequence of calls of the storage interface
    builds from the empty store, each user has [isVerified] equal to the
    conjunction of the three flags [idVerified], [phoneVerified] and
    [addressVerified] of its [verificationStatus]. *)
Theorem isVerified_is_conjunction_of_flags (cs : list MemStorage.call) :
  forall u,
    In u (JsMap.values
            (MemStorage.users (MemStorage.exec_all cs MemStorage.new))) ->
    User.isVerified u
    = (User.Verification.idVerified (User.verificationStatus u)
       && User.Verification.phoneVerified (User.verificationStatus u)
       && User.Verification.addressVerified (User.verificationStatus u))%bool.
Proof.
  apply (exec_all_users_consistent cs MemStorage.new).
  intros u [].
Qed.

(** ** Ratings *)




Section MemRatings.
Import MemStorage.
Variable uid : Z.



End MemRatings.

Lemma map_mapRowDates {R : Type} (rows : list R) :
  map PgStorage.mapRowDates rows = rows.
Proof. apply map_id. Qed.




Section PgRatings.
Import PgStorage.
Variable real : Q -> Q.
Variable uid : Z.




End PgRatings.



(** ** Sorting *)

Section SortFacts.
Context {A : Type} (compareFn : A -> A -> Z).

Hypothesis compareFn_total :
  forall x y, 0 < compareFn x y -> compareFn y x <= 0.

Lemma insert_Permutation x l :
  Permutation (JsArray.insert compareFn x l) (x :: l).
Proof.
  induction l as [|y l IH]; simpl; [reflexivity|].
  destruct (compareFn x y <=? 0); [reflexivity|].
  rewrite IH. apply perm_swap.
Qed.

Lemma sort_Permutation l : Permutation (JsArray.sort compareFn l) l.
Proof.
  induction l as [|x l IH]; simpl; [reflexivity|].
  rewrite insert_Permutation. now constructor.
Qed.

Lemma insert_HdRel a x l :
  may_precede compareFn a x ->
  HdRel (may_precede compareFn) a l ->
  HdRel (may_precede compareFn) a (JsArray.insert compareFn x l).
Proof.
  intros Hax Hal. destruct l as [|y l]; simpl.
  - now constructor.
  - destruct (compareFn x y <=? 0); constructor; [exact Hax|].
    now inversion Hal.
Qed.

Lemma insert_Sorted x l :
  Sorted (may_precede compareFn) l ->
  Sorted (may_precede compareFn) (JsArray.insert compareFn x l).
Proof.
  induction l as [|y l IH]; intros Hl; simpl.
  - repeat constructor.
  - destruct (Z.leb_spec (compareFn x y) 0) as [Hxy|Hxy].
    + constructor; [exact Hl|]. constructor. exact Hxy.
    + inversion Hl as [|? ? Hs Hh]; subst.
      constructor; [now apply IH|].
      apply insert_HdRel; [|exact Hh].
      now apply compareFn_total.
Qed.

Lemma sort_Sorted l :
  Sorted (may_precede compareFn) (JsArray.sort compareFn l).
Proof.
  induction l as [|x l IH]; simpl; [constructor|].
  now apply insert_Sorted.
Qed.

End SortFacts.

Lemma Sorted_mono {A : Type} (R S : A -> A -> Prop) l :
  (forall x y, R x y -> S x y) -> Sorted R l -> Sorted S l.
Proof.
  intros HRS. induction 1 as [|a l Hl IH Hh]; constructor; [exact IH|].
  destruct Hh; constructor. now apply HRS.
Qed.


Lemma sort_newest_first l :
  StronglySorted newest_first
    (JsArray.sort (fun a b => Message.createdAt b - Message.createdAt a) l).
Proof.
  apply Sorted_StronglySorted.
  - intros x y z. unfold newest_first. lia.
  - eapply Sorted_mono; [|apply sort_Sorted].
    + intros a b. unfold newest_first, may_precede. lia.
    + intros x y. simpl. lia.
Qed.

Lemma exchanged_test A B m :
  (((Message.senderId m =? A) && (Message.receiverId m =? B))
   || ((Message.senderId m =? B) && (Message.receiverId m =? A)))%bool = true
  <-> exchanged A B m.
Proof.
  unfold exchanged.
  rewrite orb_true_iff, !andb_true_iff, !Z.eqb_eq. reflexivity.
Qed.


Lemma In_sort_iff {A : Type} (compareFn : A -> A -> Z) l x :
  In x (JsArray.sort compareFn l) <-> In x l.
Proof.
  split; apply Permutation_in;
    [|apply Permutation_sym]; apply sort_Permutation.
Qed.

(** ** Messages of a conversation and of a user *)



(** ** Substrings *)

Lemma startsWith_empty s : JsString.startsWith s "" = true.
Proof. destruct s; reflexivity. Qed.

Lemma includes_empty s : JsString.includes s "" = true.
Proof. destruct s; reflexivity. Qed.

Lemma startsWith_spec s sub :
  JsString.startsWith s sub = true <-> exists post, s = (sub ++ post)%string.
Proof.
  revert s. induction sub as [|c sub IH]; intros s; simpl.
  - split; [intros _; now exists s | reflexivity].
  - destruct s as [|d s].
    + split; [discriminate | intros [post H]; discriminate].
    + rewrite andb_true_iff, Ascii.eqb_eq, IH. split.
      * intros [-> [post ->]]. now exists post.
      * intros [post [= -> ->]]. split; [reflexivity | now exists post].
Qed.

Lemma includes_spec s sub :
  JsString.includes s sub = true
  <-> exists pre post, s = (pre ++ sub ++ post)%string.
Proof.
  induction s as [|d s IH]; simpl.
  - rewrite orb_false_r, startsWith_spec. split.
    + intros [post H]. now exists ""%string, post.
    + intros (pre & post & H). destruct pre; [now exists post|discriminate].
  - rewrite orb_true_iff, IH, startsWith_spec. split.
    + intros [[post H]|(pre & post & H)].
      * now exists ""%string, post.
      * exists (String d pre), post. simpl. now rewrite H.
    + intros (pre & post & H). destruct pre as [|c pre].
      * left. now exists post.
      * right. injection H as -> ->. now exists pre, post.
Qed.

(** ** Optional filters *)

Lemma In_guarded_filter {A B : Type} (o : option B) (guard : B -> bool)
    (test : B -> A -> bool) (l : list A) (x : A) :
  In x match o with
       | Some b => if guard b then filter (test b) l else l
       | None => l
       end
  <-> In x l /\ (forall b, o = Some b -> guard b = true -> test b x = true).
Proof.
  destruct o as [b|].
  - destruct (guard b) eqn:G.
    + rewrite filter_In. split.
      * intros [Hin Ht]. split; [exact Hin|]. now intros ? [= <-] _.
      * intros [Hin H]. split; [exact Hin|]. now apply H.
    + split; [|tauto]. intros Hin. split; [exact Hin|].
      intros ? [= <-]. congruence.
  - split; [|tauto]. intros Hin. split; [exact Hin|]. discriminate.
Qed.

Lemma In_optional_filter {A B : Type} (o : option B)
    (test : B -> A -> bool) (l : list A) (x : A) :
  In x match o with
       | Some b => filter (test b) l
       | None => l
       end
  <-> In x l /\ (forall b, o = Some b -> test b x = true).
Proof.
  destruct o as [b|].
  - rewrite filter_In. split.
    + intros [Hin Ht]. split; [exact Hin|]. now intros ? [= <-].
    + intros [Hin H]. split; [exact Hin|]. now apply H.
  - split; [|tauto]. intros Hin. split; [exact Hin|]. discriminate.
Qed.

Lemma truthy_false_empty a : JsString.truthy a = false -> a = ""%string.
Proof. destruct a; [reflexivity | discriminate]. Qed.

(** ** Listing trips *)

Lemma truthy_active b : JsBool.truthy b = true <-> b = Some true.
Proof. destruct b as [[]|]; simpl; split; congruence. Qed.

Lemma guarded_includes_iff (o : option string) (s : string) :
  (forall a, o = Some a -> JsString.truthy a = true ->
             JsString.includes (JsString.toLowerCase s)
                               (JsString.toLowerCase a) = true)
  <-> (forall a, o = Some a -> contains_ignoring_case s a).
Proof.
  unfold contains_ignoring_case. split.
  - intros H a Ha. apply includes_spec.
    destruct (JsString.truthy a) eqn:T; [now apply H|].
    apply truthy_false_empty in T. subst a. apply includes_empty.
  - intros H a Ha _. apply includes_spec. now apply H.
Qed.

Lemma mem_getTrips_exact st filters :
  exists trips,
    fst (MemStorage.getTrips (Some filters) st) = Returned trips
    /\ forall trip,
        In trip trips <->
        In trip (JsMap.values (MemStorage.trips st))
        /\ trip_matches filters trip.
Proof.
  unfold MemStorage.getTrips. run_method. eexists. split; [reflexivity|].
  intros trip. unfold trip_matches.
  rewrite (In_optional_filter
             (Trip.Partial.availableWeight filters)
             (fun w t => Qle_bool w (Trip.availableWeight t))).
  rewrite (In_optional_filter
             (Trip.Partial.departureDate filters)
             (fun d t => Trip.departureDate t >=? d)).
  rewrite (In_guarded_filter
             (Trip.Partial.destinationCity filters) JsString.truthy
             (fun c t => JsString.includes
                           (JsString.toLowerCase (Trip.destinationCity t))
                           (JsString.toLowerCase c))).
  rewrite (In_guarded_filter
             (Trip.Partial.departureAirport filters) JsString.truthy
             (fun a t => JsString.includes
                           (JsString.toLowerCase (Trip.departureAirport t))
                           (JsString.toLowerCase a))).
  rewrite filter_In, truthy_active, !guarded_includes_iff.
  assert (Hd : (forall b, Trip.Partial.departureDate filters = Some b ->
                          (Trip.departureDate trip >=? b) = true)
               <-> (forall d, Trip.Partial.departureDate filters = Some d ->
                              d <= Trip.departureDate trip)).
  { split; intros H d Hd; specialize (H d Hd); lia. }
  assert (Hw : (forall b, Trip.Partial.availableWeight filters = Some b ->
                          Qle_bool b (Trip.availableWeight trip) = true)
               <-> (forall w, Trip.Partial.availableWeight filters = Some w ->
                              (w <= Trip.availableWeight trip)%Q)).
  { split; intros H w Hw; specialize (H w Hw); now apply Qle_bool_iff. }
  rewrite Hd, Hw. tauto.
Qed.

(** ** Listing packages *)

Lemma In_deadline_filter (o : option (option Date)) (l : list Package.t) x :
  In x match o with
       | Some (Some deliveryDeadline) =>
           filter (fun pkg =>
                     match Package.deliveryDeadline pkg with
                     | None => true
                     | Some pkgDeadline => pkgDeadline >=? deliveryDeadline
                     end) l
       | _ => l
       end
  <-> In x l
      /\ (forall d pd, o = Some (Some d) ->
                       Package.deliveryDeadline x = Some pd -> d <= pd).
Proof.
  destruct o as [[d|]|].
  - rewrite filter_In. split.
    + intros [Hin Ht]. split; [exact Hin|].
      intros ? pd [= <-] Hpd. rewrite Hpd in Ht. lia.
    + intros [Hin H]. split; [exact Hin|].
      destruct (Package.deliveryDeadline x) as [pd|]; [|reflexivity].
      specialize (H d pd eq_refl eq_refl). lia.
  - split; [|tauto]. intros Hin. split; [exact Hin|]. discriminate.
  - split; [|tauto]. intros Hin. split; [exact Hin|]. discriminate.
Qed.

Lemma truthy_true_nonempty a : JsString.truthy a = true <-> a <> ""%string.
Proof. destruct a; simpl; split; congruence. Qed.

Lemma mem_getPackages_exact st filters :
  exists packages,
    fst (MemStorage.getPackages (Some filters) st) = Returned packages
    /\ forall pkg,
        In pkg packages <->
        In pkg (JsMap.values (MemStorage.packages st))
        /\ package_matches filters pkg.
Proof.
  unfold MemStorage.getPackages. run_method. eexists. split; [reflexivity|].
  intros pkg. unfold package_matches.
  rewrite In_deadline_filter.
  rewrite (In_optional_filter
             (Package.Partial.weight filters)
             (fun w p => Qle_bool (Package.weight p) w)).
  rewrite (In_guarded_filter
             (Package.Partial.packageType filters) JsString.truthy
             (fun ty p => String.eqb (Package.packageType p) ty)).
  rewrite (In_guarded_filter
             (Package.Partial.receiverCity filters) JsString.truthy
             (fun c p => JsString.includes
                           (JsString.toLowerCase (Package.receiverCity p))
                           (JsString.toLowerCase c))).
  rewrite (In_guarded_filter
             (Package.Partial.senderCity filters) JsString.truthy
             (fun c p => JsString.includes
                           (JsString.toLowerCase (Package.senderCity p))
                           (JsString.toLowerCase c))).
  rewrite filter_In, truthy_active, !guarded_includes_iff.
  assert (Hty : (forall b, Package.Partial.packageType filters = Some b ->
                           JsString.truthy b = true ->
                           String.eqb (Package.packageType pkg) b = true)
                <-> (forall ty, Package.Partial.packageType filters = Some ty ->
                                ty <> ""%string ->
                                Package.packageType pkg = ty)).
  { split; intros H ty Hty Hne.
    - apply String.eqb_eq. apply H; [exact Hty|].
      now apply truthy_true_nonempty.
    - apply String.eqb_eq. apply H; [exact Hty|].
      now apply truthy_true_nonempty. }
  assert (Hw : (forall b, Package.Partial.weight filters = Some b ->
                          Qle_bool (Package.weight pkg) b = true)
               <-> (forall w, Package.Partial.weight filters = Some w ->
                              (Package.weight pkg <= w)%Q)).
  { split; intros H w Hw; specialize (H w Hw); now apply Qle_bool_iff. }
  rewrite Hty, Hw. tauto.
Qed.

(** C6.  With a filter [availableWeight = w], [getTrips] returns only
    trips whose [availableWeight] is at least [w]; with a filter
    [weight = w], [getPackages] returns only packages whose [weight] is at
    most [w]. *)
Theorem weight_filters_are_thresholds (st : MemStorage.t) (w : Q) :
  (forall filters trips trip,
      Trip.Partial.availableWeight filters = Some w ->
      fst (MemStorage.getTrips (Some filters) st) = Returned trips ->
      In trip trips ->
      (w <= Trip.availableWeight trip)%Q)
  /\
  (forall filters packages pkg,
      Package.Partial.weight filters = Some w ->
      fst (MemStorage.getPackages (Some filters) st) = Returned packages ->
      In pkg packages ->
      (Package.weight pkg <= w)%Q).
Proof.
  split.
  - intros filters trips trip Hw Hret Hin.
    destruct (mem_getTrips_exact st filters) as (trips' & Hret' & Hspec).
    rewrite Hret in Hret'. injection Hret' as <-.
    apply Hspec in Hin. destruct Hin as (_ & _ & _ & _ & _ & H).
    now apply H.
  - intros filters packages pkg Hw Hret Hin.
    destruct (mem_getPackages_exact st filters) as (pkgs' & Hret' & Hspec).
    rewrite Hret in Hret'. injection Hret' as <-.
    apply Hspec in Hin. destruct Hin as (_ & _ & _ & _ & _ & H & _).
    now apply H.
Qed.

(** ** Where the two implementations agree *)

Lemma like_percent_all s : Sql.like "%" s = true.
Proof. induction s as [|c s IH]; simpl; [reflexivity|]. exact IH. Qed.

Lemma like_any p s :
  Sql.like (String "%" p) s = true
  <-> exists pre t, s = (pre ++ t)%string /\ Sql.like p t = true.
Proof.
  induction s as [|c s IH].
  - simpl. rewrite orb_false_r. split.
    + intros H. now exists ""%string, ""%string.
    + intros (pre & t & E & H).
      destruct pre; [|discriminate]. simpl in E. now subst t.
  - change (Sql.like (String "%" p) (String c s))
      with (Sql.like p (String c s) || Sql.like (String "%" p) s)%bool.
    rewrite orb_true_iff, IH. split.
    + intros [H|(pre & t & -> & H)].
      * now exists ""%string, (String c s).
      * now exists (String c pre), t.
    + intros (pre & t & E & H). destruct pre as [|d pre].
      * left. simpl in E. now subst t.
      * right. injection E as -> ->. now exists pre, t.
Qed.

Lemma like_literal_char c p s :
  literal_char c = true ->
  Sql.like (String c p) s
  = match s with
    | EmptyString => false
    | String x s' => (Ascii.eqb x c && Sql.like p s')%bool
    end.
Proof.
  unfold literal_char. rewrite !negb_true_iff, !orb_false_iff.
  intros [[H1 H2] H3]. simpl. now rewrite H1, H2, H3.
Qed.

Lemma like_literal p rest s :
  literal p = true ->
  Sql.like (p ++ rest) s = true
  <-> exists t, s = (p ++ t)%string /\ Sql.like rest t = true.
Proof.
  revert s. induction p as [|c p IH]; intros s Hlit.
  - simpl. split; [intros H; now exists s | now intros (t & -> & H)].
  - simpl in Hlit. apply andb_true_iff in Hlit. destruct Hlit as [Hc Hp].
    change (String c p ++ rest)%string with (String c (p ++ rest)%string).
    rewrite like_literal_char by exact Hc.
    destruct s as [|x s].
    + split; [discriminate | intros (t & E & _); discriminate].
    + rewrite andb_true_iff, Ascii.eqb_eq, (IH s Hp). split.
      * intros [-> (t & -> & H)]. now exists t.
      * intros (t & [= -> ->] & H). split; [reflexivity | now exists t].
Qed.

(** With a pattern free of [%], [_] and the backslash, [LIKE '%p%'] is
    [includes]. *)
Lemma like_includes p s :
  literal p = true ->
  Sql.like ("%" ++ p ++ "%") s = JsString.includes s p.
Proof.
  intros Hlit. apply eq_true_iff_eq.
  change ("%" ++ p ++ "%")%string with (String "%" (p ++ "%")%string).
  rewrite like_any, includes_spec. split.
  - intros (pre & t & -> & H). apply (like_literal p) in H; [|exact Hlit].
    destruct H as (post & -> & _). now exists pre, post.
  - intros (pre & post & ->). exists pre, (p ++ post)%string.
    split; [reflexivity|]. apply like_literal; [exact Hlit|].
    exists post. split; [reflexivity | apply like_percent_all].
Qed.

Lemma literal_char_lower c :
  literal_char c = true -> literal_char (JsString.lower_ascii c) = true.
Proof.
  destruct c as [[] [] [] [] [] [] [] []]; intros H; try discriminate;
    reflexivity.
Qed.

Lemma literal_toLowerCase s :
  literal s = true -> literal (JsString.toLowerCase s) = true.
Proof.
  induction s as [|c s IH]; simpl; [reflexivity|].
  rewrite !andb_true_iff. intros [Hc Hs].
  split; [now apply literal_char_lower | now apply IH].
Qed.

Lemma and_true_iff (a b : Sql.cond) :
  Sql.and a b = Some true <-> a = Some true /\ b = Some true.
Proof. destruct a as [[]|], b as [[]|]; simpl; intuition congruence. Qed.

Lemma conj_holds {R : Type} (clauses : list (R -> Sql.cond)) (row : R) :
  Sql.holds (Sql.conj clauses row) = true
  <-> Forall (fun clause => clause row = Some true) clauses.
Proof.
  unfold Sql.conj.
  assert (G : forall acc,
             fold_left (fun acc clause => Sql.and acc (clause row)) clauses acc
             = Some true
             <-> acc = Some true
                 /\ Forall (fun clause => clause row = Some true) clauses).
  { induction clauses as [|c cs IH]; intros acc; simpl.
    - split; [intros H; split; [exact H | constructor] | tauto].
    - rewrite IH, and_true_iff. split.
      + intros [[Ha Hc] Hcs]. split; [exact Ha | now constructor].
      + intros [Ha Hall]. inversion Hall; subst. tauto. }
  destruct (G (Some true)) as [G1 G2].
  unfold Sql.holds. split.
  - intros H. apply G1.
    destruct (fold_left (fun acc clause => Sql.and acc (clause row))
                        clauses (Some true)) as [[]|];
      [reflexivity | discriminate | discriminate].
  - intros H. rewrite G2; [reflexivity|]. now split.
Qed.

Lemma Forall_guarded_clause {R B : Type} (o : option B) (guard : B -> bool)
    (clause : B -> R -> Sql.cond) (clauses : list (R -> Sql.cond)) (row : R) :
  Forall (fun c => c row = Some true)
    match o with
    | Some b => if guard b then clauses ++ [clause b] else clauses
    | None => clauses
    end
  <-> Forall (fun c => c row = Some true) clauses
      /\ (forall b, o = Some b -> guard b = true -> clause b row = Some true).
Proof.
  destruct o as [b|].
  - destruct (guard b) eqn:G.
    + rewrite Forall_app. split.
      * intros [Hcs Hc]. split; [exact Hcs|]. intros ? [= <-] _.
        now inversion Hc.
      * intros [Hcs H]. split; [exact Hcs|]. constructor; [now apply H|].
        constructor.
    + split; [|tauto]. intros H. split; [exact H|].
      intros ? [= <-]. congruence.
  - split; [|tauto]. intros H. split; [exact H|]. discriminate.
Qed.

Lemma Forall_optional_clause {R B : Type} (o : option B)
    (clause : B -> R -> Sql.cond) (clauses : list (R -> Sql.cond)) (row : R) :
  Forall (fun c => c row = Some true)
    match o with
    | Some b => clauses ++ [clause b]
    | None => clauses
    end
  <-> Forall (fun c => c row = Some true) clauses
      /\ (forall b, o = Some b -> clause b row = Some true).
Proof.
  destruct o as [b|].
  - rewrite Forall_app. split.
    + intros [Hcs Hc]. split; [exact Hcs|]. intros ? [= <-].
      now inversion Hc.
    + intros [Hcs H]. split; [exact Hcs|]. constructor; [now apply H|].
      constructor.
  - split; [|tauto]. intros H. split; [exact H|]. discriminate.
Qed.

Lemma Forall_single {R : Type} (c : R -> Sql.cond) (row : R) :
  Forall (fun c => c row = Some true) [c] <-> c row = Some true.
Proof.
  split; [intros H; now inversion H | intros H; now repeat constructor].
Qed.

Lemma Some_eq_true (b : bool) : Some b = Some true <-> b = true.
Proof. split; congruence. Qed.

Lemma guarded_like_iff (o : option string) (s : string) :
  (forall a, o = Some a -> literal a = true) ->
  (forall a, o = Some a -> JsString.truthy a = true ->
             Some (Sql.like ("%" ++ JsString.toLowerCase a ++ "%")
                            (Sql.LOWER s)) = Some true)
  <-> (forall a, o = Some a -> contains_ignoring_case s a).
Proof.
  intros Hlit. rewrite <- guarded_includes_iff.
  split; intros H a Ha Ht; specialize (H a Ha Ht).
  - apply Some_eq_true in H.
    rewrite like_includes in H; [exact H|].
    apply literal_toLowerCase. now apply Hlit.
  - apply Some_eq_true.
    rewrite like_includes; [exact H|].
    apply literal_toLowerCase. now apply Hlit.
Qed.

(** With filter texts free of [LIKE] wildcards, the database [getTrips]
    returns the rows that the filters match. *)
Lemma pg_getTrips_literal db filters :
  trip_filters_literal filters ->
  exists rows,
    fst (PgStorage.getTrips (Some filters) db) = Returned rows
    /\ forall row,
        In row rows <->
        In row (PgStorage.trips db) /\ trip_matches filters row.
Proof.
  intros [Hla Hlc].
  unfold PgStorage.getTrips. run_query. rewrite map_mapRowDates.
  eexists. split; [reflexivity|].
  intros row. unfold Sql.select, trip_matches.
  rewrite filter_In, conj_holds.
  rewrite (Forall_optional_clause
             (Trip.Partial.availableWeight filters)
             (fun w r => Some (Qle_bool w (Trip.availableWeight r)))).
  rewrite (Forall_optional_clause
             (Trip.Partial.departureDate filters)
             (fun d r => Some (Trip.departureDate r >=? d))).
  rewrite (Forall_guarded_clause
             (Trip.Partial.destinationCity filters) JsString.truthy
             (fun c r =>
                Some (Sql.like ("%" ++ JsString.toLowerCase c ++ "%")
                               (Sql.LOWER (Trip.destinationCity r))))).
  rewrite (Forall_guarded_clause
             (Trip.Partial.departureAirport filters) JsString.truthy
             (fun a r =>
                Some (Sql.like ("%" ++ JsString.toLowerCase a ++ "%")
                               (Sql.LOWER (Trip.departureAirport r))))).
  rewrite Forall_single.
  rewrite (guarded_like_iff _ _ Hla), (guarded_like_iff _ _ Hlc).
  unfold Sql.is_true.
  assert (Hd : (forall b, Trip.Partial.departureDate filters = Some b ->
                          Some (Trip.departureDate row >=? b) = Some true)
               <-> (forall d, Trip.Partial.departureDate filters = Some d ->
                              d <= Trip.departureDate row)).
  { split; intros H d Hd; specialize (H d Hd).
    - apply Some_eq_true in H. lia.
    - apply Some_eq_true. lia. }
  assert (Hw : (forall b, Trip.Partial.availableWeight filters = Some b ->
                          Some (Qle_bool b (Trip.availableWeight row))
                          = Some true)
               <-> (forall w, Trip.Partial.availableWeight filters = Some w ->
                              (w <= Trip.availableWeight row)%Q)).
  { split; intros H w Hw; specialize (H w Hw).
    - apply Some_eq_true in H. now apply Qle_bool_iff.
    - apply Some_eq_true. now apply Qle_bool_iff. }
  rewrite Hd, Hw. tauto.
Qed.

(** On the same trips and with filter texts free of [LIKE] wildcards the
    two implementations list the same trips. *)
Lemma getTrips_agree_on_literal_filters st db filters :
  JsMap.values (MemStorage.trips st) = PgStorage.trips db ->
  trip_filters_literal filters ->
  exists mem pg,
    fst (MemStorage.getTrips (Some filters) st) = Returned mem
    /\ fst (PgStorage.getTrips (Some filters) db) = Returned pg
    /\ forall trip, In trip mem <-> In trip pg.
Proof.
  intros Hsame Hlit.
  destruct (mem_getTrips_exact st filters) as (mem & Hmem & Hm).
  destruct (pg_getTrips_literal db filters Hlit) as (pg & Hpg & Hp).
  exists mem, pg. split; [exact Hmem|]. split; [exact Hpg|].
  intros trip. rewrite Hm, Hp, Hsame. reflexivity.
Qed.

Lemma Forall_deadline_clause (o : option (option Date))
    (clauses : list (Package.t -> Sql.cond)) (row : Package.t) :
  Forall (fun c => c row = Some true)
    match o with
    | Some (Some deliveryDeadline) =>
        clauses ++
        [fun row => Sql.date_ge (Package.deliveryDeadline row) deliveryDeadline]
    | _ => clauses
    end
  <-> Forall (fun c => c row = Some true) clauses
      /\ (forall d, o = Some (Some d) ->
                    exists pd, Package.deliveryDeadline row = Some pd
                               /\ d <= pd).
Proof.
  destruct o as [[d|]|].
  - rewrite Forall_app, Forall_single. unfold Sql.date_ge. split.
    + intros [Hcs Hc]. split; [exact Hcs|]. intros ? [= <-].
      destruct (Package.deliveryDeadline row) as [pd|]; [|discriminate].
      exists pd. split; [reflexivity|]. apply Some_eq_true in Hc. lia.
    + intros [Hcs H]. split; [exact Hcs|].
      destruct (H d eq_refl) as (pd & -> & Hle).
      apply Some_eq_true. lia.
  - split; [|tauto]. intros H. split; [exact H|]. discriminate.
  - split; [|tauto]. intros H. split; [exact H|]. discriminate.
Qed.

(** With filter texts free of [LIKE] wildcards, and with a deadline on
    every row when the deadline filter is supplied, the database
    [getPackages] returns the rows that the filters match. *)
Lemma pg_getPackages_literal db filters :
  package_filters_literal filters ->
  deadlines_present filters (PgStorage.packages db) ->
  exists rows,
    fst (PgStorage.getPackages (Some filters) db) = Returned rows
    /\ forall row,
        In row rows <->
        In row (PgStorage.packages db) /\ package_matches filters row.
Proof.
  intros [Hls Hlr] Hdl.
  unfold PgStorage.getPackages. run_query. rewrite map_mapRowDates.
  eexists. split; [reflexivity|].
  intros row. unfold Sql.select, package_matches.
  rewrite filter_In, conj_holds.
  rewrite Forall_deadline_clause.
  rewrite (Forall_optional_clause
             (Package.Partial.weight filters)
             (fun w r => Some (Qle_bool (Package.weight r) w))).
  rewrite (Forall_guarded_clause
             (Package.Partial.packageType filters) JsString.truthy
             (fun ty r => Some (String.eqb (Package.packageType r) ty))).
  rewrite (Forall_guarded_clause
             (Package.Partial.receiverCity filters) JsString.truthy
             (fun c r =>
                Some (Sql.like ("%" ++ JsString.toLowerCase c ++ "%")
                               (Sql.LOWER (Package.receiverCity r))))).
  rewrite (Forall_guarded_clause
             (Package.Partial.senderCity filters) JsString.truthy
             (fun c r =>
                Some (Sql.like ("%" ++ JsString.toLowerCase c ++ "%")
                               (Sql.LOWER (Package.senderCity r))))).
  rewrite Forall_single.
  rewrite (guarded_like_iff _ _ Hls), (guarded_like_iff _ _ Hlr).
  unfold Sql.is_true.
  assert (Hty : (forall b, Package.Partial.packageType filters = Some b ->
                           JsString.truthy b = true ->
                           Some (String.eqb (Package.packageType row) b)
                           = Some true)
                <-> (forall ty, Package.Partial.packageType filters = Some ty ->
                                ty <> ""%string ->
                                Package.packageType row = ty)).
  { split; intros H ty Hty Hne.
    - apply String.eqb_eq, Some_eq_true. apply H; [exact Hty|].
      now apply truthy_true_nonempty.
    - apply Some_eq_true, String.eqb_eq. apply H; [exact Hty|].
      now apply truthy_true_nonempty. }
  assert (Hw : (forall b, Package.Partial.weight filters = Some b ->
                          Some (Qle_bool (Package.weight row) b) = Some true)
               <-> (forall w, Package.Partial.weight filters = Some w ->
                              (Package.weight row <= w)%Q)).
  { split; intros H w Hw; specialize (H w Hw).
    - apply Some_eq_true in H. now apply Qle_bool_iff.
    - apply Some_eq_true. now apply Qle_bool_iff. }
  rewrite Hty, Hw. split.
  - intros (Hin & ((((Ha & Hs) & Hr) & Ht) & Hwt) & Hd).
    split; [exact Hin|]. repeat split; try assumption.
    intros d pd Hf Hpd. destruct (Hd d Hf) as (pd' & Hpd' & Hle).
    congruence.
  - intros (Hin & Ha & Hs & Hr & Ht & Hwt & Hd).
    split; [exact Hin|]. repeat split; try assumption.
    intros d Hf.
    destruct (Package.deliveryDeadline row) as [pd|] eqn:Hpd.
    + exists pd. split; [reflexivity|]. now apply (Hd d pd).
    + exfalso. now apply (Hdl d Hf row Hin).
Qed.

(** On the same packages the two implementations list the same packages
    when the filter texts are free of [LIKE] wildcards and no package
    without a deadline meets a deadline filter. *)
Lemma getPackages_agree_on_literal_filters st db filters :
  JsMap.values (MemStorage.packages st) = PgStorage.packages db ->
  package_filters_literal filters ->
  deadlines_present filters (PgStorage.packages db) ->
  exists mem pg,
    fst (MemStorage.getPackages (Some filters) st) = Returned mem
    /\ fst (PgStorage.getPackages (Some filters) db) = Returned pg
    /\ forall pkg, In pkg mem <-> In pkg pg.
Proof.
  intros Hsame Hlit Hdl.
  destruct (mem_getPackages_exact st filters) as (mem & Hmem & Hm).
  destruct (pg_getPackages_literal db filters Hlit Hdl) as (pg & Hpg & Hp).
  exists mem, pg. split; [exact Hmem|]. split; [exact Hpg|].
  intros pkg. rewrite Hm, Hp, Hsame. reflexivity.
Qed.

(** ** The two implementations on the same contents *)

Lemma scenario_contents :
  JsMap.values (MemStorage.trips Scenario.store) = [Scenario.trip]
  /\ JsMap.values (MemStorage.packages Scenario.store) = [Scenario.pkg]
  /\ PgStorage.trips Scenario.database = [Scenario.trip]
  /\ PgStorage.packages Scenario.database = [Scenario.pkg].
Proof. repeat split; reflexivity. Qed.

Lemma underscore_not_in_city :
  ~ trip_matches Scenario.underscore_city Scenario.trip.
Proof.
  intros (_ & _ & H & _).
  specialize (H "_"%string eq_refl).
  apply includes_spec in H. vm_compute in H. discriminate.
Qed.

(** C4, at the filter [{ destinationCity: "_" }] and a store that holds
    one active trip to "Addis Ababa": the in-memory [getTrips] returns no
    trip, as "addis ababa" does not contain "_"; the database [getTrips]
    returns the trip, which the filter does not match, because [_]
    stands for any character in the pattern [%_%] of [LIKE]. *)
Theorem pg_getTrips_returns_unmatched_trip :
  fst (MemStorage.getTrips (Some Scenario.underscore_city) Scenario.store)
  = Returned []
  /\ fst (PgStorage.getTrips (Some Scenario.underscore_city)
            Scenario.database)
     = Returned [Scenario.trip]
  /\ In Scenario.trip (PgStorage.trips Scenario.database)
  /\ ~ trip_matches Scenario.underscore_city Scenario.trip.
Proof.
  split; [reflexivity|]. split; [reflexivity|].
  split; [now left | exact underscore_not_in_city].
Qed.

(** C5, on a store and a database with the same contents: with the filter
    [{ deliveryDeadline }] the in-memory [getPackages] returns the package
    that has no deadline and the database [getPackages] does not, as
    [delivery_deadline >= $1] is unknown on [NULL]; with the filter
    [{ destinationCity: "_" }] the in-memory [getTrips] returns no trip
    and the database [getTrips] returns the trip to "Addis Ababa". *)
Theorem implementations_list_differently :
  JsMap.values (MemStorage.packages Scenario.store)
  = PgStorage.packages Scenario.database
  /\ JsMap.values (MemStorage.trips Scenario.store)
     = PgStorage.trips Scenario.database
  /\ fst (MemStorage.getPackages (Some Scenario.deadline_500) Scenario.store)
     = Returned [Scenario.pkg]
  /\ fst (PgStorage.getPackages (Some Scenario.deadline_500)
            Scenario.database)
     = Returned []
  /\ fst (MemStorage.getTrips (Some Scenario.underscore_city) Scenario.store)
     = Returned []
  /\ fst (PgStorage.getTrips (Some Scenario.underscore_city)
            Scenario.database)
     = Returned [Scenario.trip].
Proof. repeat split; reflexivity. Qed.

Lemma createDelivery_sets_package_matched_witness :
  (exists P',
      fst (MemStorage.getPackage 1 Scenario.matched_store)
      = Returned (Some P')
      /\ Package.status P' = Some "matched"
      /\ P' = Scenario.matched_pkg)
  /\
  (exists P',
      fst (PgStorage.getPackage 1 Scenario.matched_database)
      = Returned (Some P')
      /\ Package.status P' = Some "matched"
      /\ P' = Scenario.matched_pkg)
  /\
  (exists message,
      fst (PgStorage.createDelivery Scenario.unknown_traveler 5
             Scenario.staffed_database)
      = Thrown message)
  /\ fst (PgStorage.getPackage 1
            (snd (PgStorage.createDelivery Scenario.unknown_traveler 5
                    Scenario.staffed_database)))
     = Returned (Some Scenario.pkg).
Proof.
  split; [|split].
  - apply (proj1 createDelivery_sets_package_matched
             Scenario.store Scenario.pkg Scenario.deliveryData 5);
      reflexivity.
  - apply (proj2 createDelivery_sets_package_matched
             Scenario.staffed_database Scenario.pkg Scenario.deliveryData 5);
      [reflexivity | reflexivity |].
    apply (pg_accepts_delivery_iff Scenario.deliveryData 5). reflexivity.
  - apply (proj2 createDelivery_sets_package_matched
             Scenario.staffed_database Scenario.pkg
             Scenario.unknown_traveler 5);
      [reflexivity | reflexivity |].
    intros Haccepted.
    apply (pg_accepts_delivery_iff Scenario.unknown_traveler 5) in Haccepted.
    discriminate Haccepted.
Defined.

Lemma updateDeliveryStatus_package_status_witness :
  fst (MemStorage.getPackage 1
         (snd (MemStorage.updateDeliveryStatus 1 "delivered" 7
                 Scenario.matched_store)))
  = Returned (Some (Package.with_status (Some "delivered")
                      Scenario.matched_pkg))
  /\ fst (MemStorage.getPackage 1
            (snd (MemStorage.updateDeliveryStatus 1 "in_transit" 7
                    Scenario.matched_store)))
     = Returned (Some Scenario.matched_pkg)
  /\ fst (PgStorage.getPackage 1
            (snd (PgStorage.updateDeliveryStatus 1 "delivered" 7
                    Scenario.matched_database)))
     = Returned (Some (Package.with_status (Some "delivered")
                         Scenario.matched_pkg))
  /\ fst (PgStorage.getPackage 1
            (snd (PgStorage.updateDeliveryStatus 1 "in_transit" 7
                    Scenario.matched_database)))
     = Returned (Some Scenario.matched_pkg).
Proof.
  pose proof (proj1 updateDeliveryStatus_package_status
                Scenario.matched_store Scenario.delivery
                Scenario.matched_pkg) as Hmem.
  pose proof (proj2 updateDeliveryStatus_package_status
                Scenario.matched_database Scenario.delivery
                Scenario.matched_pkg) as Hpg.
  split; [|split; [|split]].
  - apply (Hmem "delivered"%string 7); reflexivity.
  - apply (Hmem "in_transit"%string 7); try reflexivity. discriminate.
  - apply (Hpg "delivered"%string 7); reflexivity.
  - apply (Hpg "in_transit"%string 7); try reflexivity. discriminate.
Defined.


Lemma weight_filters_are_thresholds_witness :
  (5 <= Trip.availableWeight Scenario.trip)%Q
  /\ (Package.weight Scenario.pkg <= 5)%Q.
Proof.
  split.
  - apply (proj1 (weight_filters_are_thresholds Scenario.store 5%Q)
             Scenario.at_least_5 [Scenario.trip] Scenario.trip);
      [reflexivity | reflexivity | now left].
  - apply (proj2 (weight_filters_are_thresholds Scenario.store 5%Q)
             Scenario.at_most_5 [Scenario.pkg] Scenario.pkg);
      [reflexivity | reflexivity | now left].
Defined.

Lemma unknown_id_absent_or_not_found_witness :
  MemStorage.getUser 7 MemStorage.new = (Returned None, MemStorage.new)
  /\ MemStorage.getPackage 7 Scenario.store = (Returned None, Scenario.store)
  /\ MemStorage.updateUserVerification 7 Scenario.id_checked
       Scenario.user_store
     = (Thrown "User not found", Scenario.user_store).
Proof.
  split; [|split].
  - apply (unknown_id_absent_or_not_found MemStorage.new 7). intros [].
  - apply (unknown_id_absent_or_not_found Scenario.store 7).
    simpl. intros [H|[]]. discriminate.
  - apply (unknown_id_absent_or_not_found Scenario.user_store 7).
    simpl. intros [H|[]]. discriminate.
Defined.

Lemma isVerified_is_conjunction_of_flags_witness :
  User.isVerified Scenario.id_checked_user
  = (User.Verification.idVerified
       (User.verificationStatus Scenario.id_checked_user)
     && User.Verification.phoneVerified
          (User.verificationStatus Scenario.id_checked_user)
     && User.Verification.addressVerified
          (User.verificationStatus Scenario.id_checked_user))%bool.
Proof.
  apply (isVerified_is_conjunction_of_flags
           [MemStorage.CreateUser Scenario.userData "hash" 0;
            MemStorage.UpdateUserVerification 1 Scenario.id_checked]).
  simpl. left. reflexivity.
Defined.

(** * Further properties of the in-memory store *)

(** ** Keys of a map *)

Section JsMapKeys.
Context {V : Type}.
Implicit Types (m : JsMap.t V) (k : Z) (v : V).

Lemma get_Some_key m k v : JsMap.get k m = Some v -> In k (JsMap.keys m).
Proof.
  intros H. apply get_Some_In in H. unfold JsMap.keys.
  apply in_map_iff. now exists (k, v).
Qed.

Lemma keys_set_present m k v :
  In k (JsMap.keys m) -> JsMap.keys (JsMap.set k v m) = JsMap.keys m.
Proof.
  induction m as [|[k0 v0] m IH]; simpl; [tauto|].
  destruct (Z.eqb_spec k k0) as [->|Hk]; simpl; [reflexivity|].
  intros [E|Hin]; [congruence|]. now rewrite IH.
Qed.

Lemma set_absent m k v :
  ~ In k (JsMap.keys m) -> JsMap.set k v m = m ++ [(k, v)].
Proof.
  induction m as [|[k0 v0] m IH]; simpl; [reflexivity|].
  intros H. destruct (Z.eqb_spec k k0) as [->|Hk].
  - exfalso. apply H. now left.
  - rewrite IH; [reflexivity|]. intros Hin. apply H. now right.
Qed.

Lemma keys_fresh_absent m counter :
  keys_fresh m counter -> ~ In counter (JsMap.keys m).
Proof. intros (_ & _ & H) Hin. specialize (H _ Hin). lia. Qed.

Lemma keys_fresh_insert m counter v :
  keys_fresh m counter -> keys_fresh (JsMap.set counter v m) (counter + 1).
Proof.
  intros Hm. pose proof (keys_fresh_absent _ _ Hm) as Habs.
  destruct Hm as (Hc & Hnd & Hr). rewrite set_absent by exact Habs.
  unfold keys_fresh, JsMap.keys. rewrite map_app. simpl.
  split; [lia|]. split.
  - apply NoDup_app; [exact Hnd | repeat constructor; intros [] |].
    intros x Hx [<-|[]]. now apply Habs.
  - intros k Hk. apply in_app_or in Hk. destruct Hk as [Hk|[<-|[]]].
    + specialize (Hr _ Hk). lia.
    + lia.
Qed.

Lemma keys_fresh_update m counter k v :
  keys_fresh m counter -> In k (JsMap.keys m) ->
  keys_fresh (JsMap.set k v m) counter.
Proof.
  intros Hm Hk. unfold keys_fresh. now rewrite keys_set_present.
Qed.

Lemma ids_are_keys_set (id : V -> Z) m k v :
  ids_are_keys id m -> id v = k -> ids_are_keys id (JsMap.set k v m).
Proof.
  intros Hm Hv k' v' Hin.
  destruct (In_set_inv _ _ _ _ _ Hin) as [[-> ->]|Hold];
    [exact Hv | now apply Hm].
Qed.

Lemma get_In_NoDup m k v :
  NoDup (JsMap.keys m) -> In (k, v) m -> JsMap.get k m = Some v.
Proof.
  induction m as [|[k0 v0] m IH]; simpl; [tauto|].
  intros Hnd [E|Hin].
  - injection E as -> ->. now rewrite Z.eqb_refl.
  - inversion Hnd as [|? ? Hnot Hnd']; subst.
    destruct (Z.eqb_spec k k0) as [->|Hk].
    + exfalso. apply Hnot. unfold JsMap.keys. apply in_map_iff.
      now exists (k0, v).
    + now apply IH.
Qed.

End JsMapKeys.

(** ** The shape of a store is kept *)

Create HintDb store_shape.

#[local] Hint Resolve keys_fresh_insert keys_fresh_update ids_are_keys_set
  get_Some_key : store_shape.

Ltac shape_intro :=
  intros (Hu & Ht & Hp & Hd & Hm & Hr & Iu & Id & Im & Ir).

Ltac shape_split :=
  unfold well_formed; cbn [MemStorage.users MemStorage.trips
    MemStorage.packages MemStorage.deliveries MemStorage.messages
    MemStorage.reviews MemStorage.userId MemStorage.tripId
    MemStorage.packageId MemStorage.deliveryId MemStorage.messageId
    MemStorage.reviewId MemStorage.set_users MemStorage.set_trips
    MemStorage.set_packages MemStorage.set_deliveries
    MemStorage.set_messages MemStorage.set_reviews];
  repeat match goal with |- _ /\ _ => split end;
  try assumption.

Section StoreShape.
Import MemStorage.

Lemma createUser_well_formed userData hashedPassword now st :
  well_formed st ->
  well_formed (snd (createUser userData hashedPassword now st)).
Proof.
  shape_intro. unfold createUser. run_method. shape_split;
    eauto with store_shape.
Qed.

Lemma updateUserVerification_well_formed userId verificationData st :
  well_formed st ->
  well_formed (snd (updateUserVerification userId verificationData st)).
Proof.
  shape_intro. unfold updateUserVerification, getUser. run_method.
  destruct (JsMap.get userId (users st)) as [user|] eqn:E; simpl;
    [|shape_split].
  shape_split; eauto with store_shape.
  apply ids_are_keys_set; [exact Iu|]. simpl.
  apply Iu. now apply get_Some_In.
Qed.

Lemma createTrip_well_formed tripData userId now st :
  well_formed st -> well_formed (snd (createTrip tripData userId now st)).
Proof.
  shape_intro. unfold createTrip. run_method. shape_split;
    eauto with store_shape.
Qed.

Lemma updateTrip_well_formed id tripData st :
  well_formed st -> well_formed (snd (updateTrip id tripData st)).
Proof.
  shape_intro. unfold updateTrip, getTrip. run_method.
  destruct (JsMap.get id (trips st)) as [trip|] eqn:E; simpl;
    shape_split; eauto with store_shape.
Qed.

Lemma createPackage_well_formed packageData userId now st :
  well_formed st -> well_formed (snd (createPackage packageData userId now st)).
Proof.
  shape_intro. unfold createPackage. run_method. shape_split;
    eauto with store_shape.
Qed.

Lemma updatePackage_well_formed id packageData st :
  well_formed st -> well_formed (snd (updatePackage id packageData st)).
Proof.
  shape_intro. unfold updatePackage, getPackage. run_method.
  destruct (JsMap.get id (packages st)) as [pkg|] eqn:E; simpl;
    shape_split; eauto with store_shape.
Qed.

Lemma createDelivery_well_formed deliveryData now st :
  well_formed st -> well_formed (snd (createDelivery deliveryData now st)).
Proof.
  intros Hst. unfold createDelivery, getPackage. run_method.
  match goal with
  | |- context [set_deliveries ?m ?s] =>
      assert (Hmid : well_formed (set_deliveries m s))
  end.
  { revert Hst. shape_intro. shape_split; eauto with store_shape. }
  destruct (JsMap.get _ (packages st)) as [pkg|]; simpl; [|exact Hmid].
  match goal with
  | |- context [updatePackage ?i ?d ?s] =>
      pose proof (updatePackage_well_formed i d s Hmid) as Hup;
      destruct (updatePackage i d s) as [[o|msg] st']
  end; exact Hup.
Qed.

Lemma updateDeliveryStatus_well_formed id status now st :
  well_formed st -> well_formed (snd (updateDeliveryStatus id status now st)).
Proof.
  intros Hst. unfold updateDeliveryStatus, getDelivery, getPackage.
  run_method.
  destruct (JsMap.get id (deliveries st)) as [delivery|] eqn:E; simpl;
    [|exact Hst].
  match goal with
  | |- context [set_deliveries ?m ?s] =>
      assert (Hmid : well_formed (set_deliveries m s))
  end.
  { revert Hst. shape_intro. shape_split; eauto with store_shape.
    apply ids_are_keys_set; [exact Id|]. simpl.
    apply Id. now apply get_Some_In. }
  destruct (String.eqb status "delivered"); simpl; [|exact Hmid].
  destruct (JsMap.get _ (packages st)) as [pkg|]; simpl; [|exact Hmid].
  match goal with
  | |- context [updatePackage ?i ?d ?s] =>
      pose proof (updatePackage_well_formed i d s Hmid) as Hup;
      destruct (updatePackage i d s) as [[o|msg] st']
  end; exact Hup.
Qed.

Lemma updatePaymentStatus_well_formed id paymentStatus now st :
  well_formed st ->
  well_formed (snd (updatePaymentStatus id paymentStatus now st)).
Proof.
  shape_intro. unfold updatePaymentStatus, getDelivery. run_method.
  destruct (JsMap.get id (deliveries st)) as [delivery|] eqn:E; simpl;
    shape_split; eauto with store_shape.
  apply ids_are_keys_set; [exact Id|]. simpl.
  apply Id. now apply get_Some_In.
Qed.

Lemma createMessage_well_formed messageData now st :
  well_formed st -> well_formed (snd (createMessage messageData now st)).
Proof.
  shape_intro. unfold createMessage. run_method. shape_split;
    eauto with store_shape.
Qed.

Lemma markMessageAsRead_well_formed id st :
  well_formed st -> well_formed (snd (markMessageAsRead id st)).
Proof.
  shape_intro. unfold markMessageAsRead, getMessage. run_method.
  destruct (JsMap.get id (messages st)) as [message|] eqn:E; simpl;
    shape_split; eauto with store_shape.
  apply ids_are_keys_set; [exact Im|]. simpl.
  apply Im. now apply get_Some_In.
Qed.

Lemma createReview_well_formed reviewData now st :
  well_formed st -> well_formed (snd (createReview reviewData now st)).
Proof.
  shape_intro. unfold createReview, getUser, getReviewsByUserId. run_method.
  destruct (JsMap.get (Review.Insert.revieweeId reviewData) (users st))
    as [user|] eqn:E; simpl.
  - assert (Hid : User.id user = Review.Insert.revieweeId reviewData)
      by (apply Iu; now apply get_Some_In).
    shape_split; eauto with store_shape.
    rewrite Hid. eauto with store_shape.
  - shape_split; eauto with store_shape.
Qed.

End StoreShape.

Lemma new_well_formed : well_formed MemStorage.new.
Proof.
  unfold well_formed, keys_fresh, ids_are_keys. simpl.
  repeat split; try lia; try constructor; try tauto.
Qed.

Lemma exec_well_formed c st :
  well_formed st -> well_formed (MemStorage.exec c st).
Proof.
  intros Hst. destruct c; unfold MemStorage.exec;
    try exact Hst;
    auto using createUser_well_formed, updateUserVerification_well_formed,
      createTrip_well_formed, updateTrip_well_formed,
      createPackage_well_formed, updatePackage_well_formed,
      createDelivery_well_formed, updateDeliveryStatus_well_formed,
      updatePaymentStatus_well_formed, createMessage_well_formed,
      markMessageAsRead_well_formed, createReview_well_formed.
  all: destruct role; exact Hst.
Qed.

Lemma exec_all_well_formed cs st :
  well_formed st -> well_formed (MemStorage.exec_all cs st).
Proof.
  revert st. unfold MemStorage.exec_all.
  induction cs as [|c cs IH]; intros st Hst; simpl; [exact Hst|].
  apply IH. now apply exec_well_formed.
Qed.

(** ** Creating an entity *)

Lemma values_set_absent {V : Type} (m : JsMap.t V) k v :
  ~ In k (JsMap.keys m) ->
  JsMap.values (JsMap.set k v m) = JsMap.values m ++ [v].
Proof.
  intros H. rewrite set_absent by exact H.
  unfold JsMap.values. now rewrite map_app.
Qed.

Lemma set_fresh_reads {V : Type} (m : JsMap.t V) counter v :
  keys_fresh m counter ->
  JsMap.get counter m = None
  /\ JsMap.get counter (JsMap.set counter v m) = Some v
  /\ (forall k, k <> counter ->
                JsMap.get k (JsMap.set counter v m) = JsMap.get k m)
  /\ JsMap.values (JsMap.set counter v m) = JsMap.values m ++ [v].
Proof.
  intros Hm. pose proof (keys_fresh_absent _ _ Hm) as Habs.
  split; [now apply get_None_iff|].
  split; [apply get_set_same|].
  split; [intros k Hk; apply get_set_other; congruence|].
  now apply values_set_absent.
Qed.

Lemma built_store_well_formed cs :
  well_formed (MemStorage.exec_all cs MemStorage.new).
Proof. apply exec_all_well_formed, new_well_formed. Qed.

(** X1.  In every store that calls of the interface build from the empty
    store, the keys of each map are distinct identifiers between 1 and the
    counter of the map, and each user, delivery, message and review sits
    under the key that its [id] names. *)
Theorem reachable_store_well_formed (cs : list MemStorage.call) :
  well_formed (MemStorage.exec_all cs MemStorage.new).
Proof. apply exec_all_well_formed, new_well_formed. Qed.

(** X2.  In a store built from the empty store, what [getUser],
    [getDelivery], [getMessage] and [getReview] return for [k] has the
    identifier [k], and [k] is below the counter. *)
Theorem reachable_get_returns_id (cs : list MemStorage.call) (k : Z) :
  let st := MemStorage.exec_all cs MemStorage.new in
  (forall u, fst (MemStorage.getUser k st) = Returned (Some u) ->
             User.id u = k /\ 1 <= k < MemStorage.userId st)
  /\ (forall d, fst (MemStorage.getDelivery k st) = Returned (Some d) ->
                Delivery.id d = k /\ 1 <= k < MemStorage.deliveryId st)
  /\ (forall m, fst (MemStorage.getMessage k st) = Returned (Some m) ->
                Message.id m = k /\ 1 <= k < MemStorage.messageId st)
  /\ (forall r, fst (MemStorage.getReview k st) = Returned (Some r) ->
                Review.id r = k /\ 1 <= k < MemStorage.reviewId st).
Proof.
  intros st.
  destruct (built_store_well_formed cs)
    as ((_ & _ & Hu) & _ & _ & (_ & _ & Hd) & (_ & _ & Hm) & (_ & _ & Hr)
        & Iu & Id & Im & Ir).
  fold st in Hu, Hd, Hm, Hr, Iu, Id, Im, Ir. clearbody st.
  unfold MemStorage.getUser, MemStorage.getDelivery, MemStorage.getMessage,
    MemStorage.getReview, Method.gets.
  split; [|split; [|split]]; intros x Hx; cbn [fst] in Hx;
    injection Hx as Hx; (split; [|eapply Hu || eapply Hd || eapply Hm
                                   || eapply Hr; eapply get_Some_key;
                                   eassumption]).
  - apply Iu. now apply get_Some_In.
  - apply Id. now apply get_Some_In.
  - apply Im. now apply get_Some_In.
  - apply Ir. now apply get_Some_In.
Qed.

(** X3.  In a store built from the empty store, [createUser] returns a
    user under an identifier that named no user before, unverified, with
    the three flags off, rating 0 and no review, the hash as password and
    the payload's name and email; [getUser] reads that user back, reads
    every other identifier as before, and [values] lists the user last. *)
Theorem createUser_registers (cs : list MemStorage.call)
    (userData : User.Insert.t) (hashedPassword : string) (now : Date) :
  let st := MemStorage.exec_all cs MemStorage.new in
  let st' := snd (MemStorage.createUser userData hashedPassword now st) in
  exists user,
    fst (MemStorage.createUser userData hashedPassword now st) = Returned user
    /\ user
       = {| User.id := MemStorage.userId st;
            User.password := hashedPassword;
            User.email := User.Insert.email userData;
            User.firstName := User.Insert.firstName userData;
            User.lastName := User.Insert.lastName userData;
            User.profileImage := User.Insert.profileImage userData;
            User.isVerified := false;
            User.verificationStatus := User.Verification.mk false false false;
            User.createdAt := now;
            User.rating := 0%Q;
            User.reviewCount := 0 |}
    /\ fst (MemStorage.getUser (User.id user) st) = Returned None
    /\ fst (MemStorage.getUser (User.id user) st') = Returned (Some user)
    /\ (forall k, k <> User.id user ->
                  fst (MemStorage.getUser k st')
                  = fst (MemStorage.getUser k st))
    /\ JsMap.values (MemStorage.users st')
       = JsMap.values (MemStorage.users st) ++ [user].
Proof.
  intros st st'.
  destruct (built_store_well_formed cs) as (Hu & _). fold st in Hu.
  subst st'. clearbody st.
  unfold MemStorage.createUser, MemStorage.getUser. run_method.
  eexists. split; [reflexivity|]. split; [reflexivity|]. simpl.
  destruct (set_fresh_reads (MemStorage.users st) (MemStorage.userId st)
              {| User.id := MemStorage.userId st;
                 User.password := hashedPassword;
                 User.email := User.Insert.email userData;
                 User.firstName := User.Insert.firstName userData;
                 User.lastName := User.Insert.lastName userData;
                 User.profileImage := User.Insert.profileImage userData;
                 User.isVerified := false;
                 User.verificationStatus :=
                   User.Verification.mk false false false;
                 User.createdAt := now;
                 User.rating := 0%Q;
                 User.reviewCount := 0 |} Hu) as (H1 & H2 & H3 & H4).
  split; [now rewrite H1|]. split; [now rewrite H2|].
  split; [|exact H4]. intros k Hk. now rewrite H3.
Qed.

(** X4.  In a store built from the empty store, [createTrip] returns an
    active trip of the given owner under an identifier that named no trip
    before; [getTrip] reads it back and reads every other identifier as
    before; [getTrips()] and [getTripsByUserId(owner)] list what they
    listed before, followed by the new trip. *)
Theorem createTrip_lists_trip (cs : list MemStorage.call)
    (tripData : Trip.Insert.t) (userId : Z) (now : Date) :
  let st := MemStorage.exec_all cs MemStorage.new in
  let st' := snd (MemStorage.createTrip tripData userId now st) in
  exists trip listed owned,
    fst (MemStorage.createTrip tripData userId now st) = Returned trip
    /\ Trip.id trip = MemStorage.tripId st
    /\ Trip.userId trip = userId
    /\ Trip.isActive trip = Some true
    /\ Trip.createdAt trip = Some now
    /\ Trip.departureAirport trip = Trip.Insert.departureAirport tripData
    /\ Trip.destinationCity trip = Trip.Insert.destinationCity tripData
    /\ Trip.availableWeight trip = Trip.Insert.availableWeight tripData
    /\ fst (MemStorage.getTrip (Trip.id trip) st) = Returned None
    /\ fst (MemStorage.getTrip (Trip.id trip) st') = Returned (Some trip)
    /\ (forall k, k <> Trip.id trip ->
                  fst (MemStorage.getTrip k st')
                  = fst (MemStorage.getTrip k st))
    /\ fst (MemStorage.getTrips None st) = Returned listed
    /\ fst (MemStorage.getTrips None st') = Returned (listed ++ [trip])
    /\ fst (MemStorage.getTripsByUserId userId st) = Returned owned
    /\ fst (MemStorage.getTripsByUserId userId st')
       = Returned (owned ++ [trip]).
Proof.
  intros st st'.
  destruct (built_store_well_formed cs) as (_ & Ht & _). fold st in Ht.
  subst st'. clearbody st.
  unfold MemStorage.createTrip, MemStorage.getTrip, MemStorage.getTrips,
    MemStorage.getTripsByUserId.
  run_method.
  match goal with
  | |- context [JsMap.set (MemStorage.tripId st) ?t _] =>
      destruct (set_fresh_reads (MemStorage.trips st) (MemStorage.tripId st)
                  t Ht) as (H1 & H2 & H3 & H4)
  end.
  do 3 eexists. split; [reflexivity|]. simpl.
  rewrite H1, H2, H4, !filter_app. simpl. rewrite Z.eqb_refl.
  repeat match goal with |- _ /\ _ => split end; try reflexivity.
  intros k Hk. now rewrite H3.
Qed.

(** X5.  In a store built from the empty store, [createPackage] returns
    an active package of the given owner with the status "pending" under
    an identifier that named no package before; [getPackage] reads it back
    and reads every other identifier as before; [getPackages()] and
    [getPackagesByUserId(owner)] list what they listed before, followed by
    the new package. *)
Theorem createPackage_lists_package (cs : list MemStorage.call)
    (packageData : Package.Insert.t) (userId : Z) (now : Date) :
  let st := MemStorage.exec_all cs MemStorage.new in
  let st' := snd (MemStorage.createPackage packageData userId now st) in
  exists pkg listed owned,
    fst (MemStorage.createPackage packageData userId now st) = Returned pkg
    /\ Package.id pkg = MemStorage.packageId st
    /\ Package.userId pkg = userId
    /\ Package.status pkg = Some "pending"
    /\ Package.isActive pkg = Some true
    /\ Package.createdAt pkg = Some now
    /\ Package.weight pkg = Package.Insert.weight packageData
    /\ Package.deliveryDeadline pkg
       = Package.Insert.deliveryDeadline packageData
    /\ fst (MemStorage.getPackage (Package.id pkg) st) = Returned None
    /\ fst (MemStorage.getPackage (Package.id pkg) st') = Returned (Some pkg)
    /\ (forall k, k <> Package.id pkg ->
                  fst (MemStorage.getPackage k st')
                  = fst (MemStorage.getPackage k st))
    /\ fst (MemStorage.getPackages None st) = Returned listed
    /\ fst (MemStorage.getPackages None st') = Returned (listed ++ [pkg])
    /\ fst (MemStorage.getPackagesByUserId userId st) = Returned owned
    /\ fst (MemStorage.getPackagesByUserId userId st')
       = Returned (owned ++ [pkg]).
Proof.
  intros st st'.
  destruct (built_store_well_formed cs) as (_ & _ & Hp & _).
  fold st in Hp. subst st'. clearbody st.
  unfold MemStorage.createPackage, MemStorage.getPackage,
    MemStorage.getPackages, MemStorage.getPackagesByUserId.
  run_method.
  match goal with
  | |- context [JsMap.set (MemStorage.packageId st) ?p _] =>
      destruct (set_fresh_reads (MemStorage.packages st)
                  (MemStorage.packageId st) p Hp) as (H1 & H2 & H3 & H4)
  end.
  do 3 eexists. split; [reflexivity|]. simpl.
  rewrite H1, H2, H4, !filter_app. simpl. rewrite Z.eqb_refl.
  repeat match goal with |- _ /\ _ => split end; try reflexivity.
  intros k Hk. now rewrite H3.
Qed.

Lemma In_values_set {V : Type} (m : JsMap.t V) k v :
  In v (JsMap.values (JsMap.set k v m)).
Proof.
  unfold JsMap.values. apply in_map_iff. exists (k, v). split; [reflexivity|].
  induction m as [|[k0 v0] m IH]; simpl; [now left|].
  destruct (Z.eqb k k0); [now left | now right].
Qed.

(** X6.  In a store built from the empty store, [createMessage] returns
    an unread message under an identifier that named no message before;
    [getMessage] reads it back; the message is in the conversation of its
    sender and its receiver and among the messages of each of them; and a
    conversation of two users that the message is not between is the one
    it was. *)
Theorem createMessage_joins_conversation (cs : list MemStorage.call)
    (messageData : Message.Insert.t) (now : Date) :
  let st := MemStorage.exec_all cs MemStorage.new in
  let st' := snd (MemStorage.createMessage messageData now st) in
  let message :=
    {| Message.id := MemStorage.messageId st;
       Message.senderId := Message.Insert.senderId messageData;
       Message.receiverId := Message.Insert.receiverId messageData;
       Message.content := Message.Insert.content messageData;
       Message.isRead := false;
       Message.createdAt := now |} in
  fst (MemStorage.createMessage messageData now st) = Returned message
  /\ fst (MemStorage.getMessage (Message.id message) st) = Returned None
  /\ fst (MemStorage.getMessage (Message.id message) st')
     = Returned (Some message)
  /\ (forall k, k <> Message.id message ->
                fst (MemStorage.getMessage k st')
                = fst (MemStorage.getMessage k st))
  /\ (exists ms,
         fst (MemStorage.getMessagesBetweenUsers
                (Message.senderId message) (Message.receiverId message) st')
         = Returned ms /\ In message ms)
  /\ (exists ms,
         fst (MemStorage.getMessagesByUserId (Message.senderId message) st')
         = Returned ms /\ In message ms)
  /\ (exists ms,
         fst (MemStorage.getMessagesByUserId (Message.receiverId message) st')
         = Returned ms /\ In message ms)
  /\ (forall A B,
         ~ exchanged A B message ->
         fst (MemStorage.getMessagesBetweenUsers A B st')
         = fst (MemStorage.getMessagesBetweenUsers A B st)).
Proof.
  intros st st' message.
  destruct (built_store_well_formed cs) as (_ & _ & _ & _ & Hm & _).
  fold st in Hm. subst st'. clearbody st.
  destruct (set_fresh_reads (MemStorage.messages st) (MemStorage.messageId st)
              message Hm) as (H1 & H2 & H3 & H4).
  unfold MemStorage.createMessage, MemStorage.getMessage,
    MemStorage.getMessagesBetweenUsers, MemStorage.getMessagesByUserId.
  run_method. fold message.
  split; [reflexivity|]. split; [now rewrite H1|]. split; [now rewrite H2|].
  split; [intros k Hk; now rewrite H3|].
  rewrite H4.
  split; [|split; [|split]].
  - eexists. split; [reflexivity|].
    apply In_sort_iff, filter_In. split; [apply in_or_app; right; now left|].
    simpl. now rewrite !Z.eqb_refl.
  - eexists. split; [reflexivity|].
    apply In_sort_iff, filter_In. split; [apply in_or_app; right; now left|].
    simpl. now rewrite Z.eqb_refl.
  - eexists. split; [reflexivity|].
    apply In_sort_iff, filter_In. split; [apply in_or_app; right; now left|].
    simpl. rewrite Z.eqb_refl. apply orb_true_r.
  - intros A B Hnot. rewrite filter_app. simpl.
    destruct ((_ && _) || (_ && _))%bool eqn:E.
    + exfalso. apply Hnot. now apply exchanged_test.
    + now rewrite app_nil_r.
Qed.


(** ** Updating a trip or a package *)

Lemma set_get_id {V : Type} (m : JsMap.t V) k v :
  JsMap.get k m = Some v -> JsMap.set k v m = m.
Proof.
  induction m as [|[k0 v0] m IH]; simpl; [discriminate|].
  destruct (Z.eqb_spec k k0) as [->|Hk].
  - now intros [= ->].
  - intros H. now rewrite IH.
Qed.

Lemma set_set_same {V : Type} (m : JsMap.t V) k v v' :
  JsMap.set k v (JsMap.set k v' m) = JsMap.set k v m.
Proof.
  induction m as [|[k0 v0] m IH]; simpl.
  - now rewrite Z.eqb_refl.
  - destruct (Z.eqb k k0) eqn:E; simpl.
    + now rewrite Z.eqb_refl.
    + now rewrite E, IH.
Qed.

Lemma spread_key_twice {A : Type} (old : A) (new : option A) :
  JsObject.spread_key (JsObject.spread_key old new) new
  = JsObject.spread_key old new.
Proof. now destruct new. Qed.

Lemma trip_spread_twice trip tripData :
  Trip.spread (Trip.spread trip tripData) tripData = Trip.spread trip tripData.
Proof. unfold Trip.spread. simpl. now rewrite !spread_key_twice. Qed.

Lemma trip_spread_empty trip : Trip.spread trip Trip.Partial.empty = trip.
Proof. now destruct trip. Qed.

Lemma package_spread_twice pkg packageData :
  Package.spread (Package.spread pkg packageData) packageData
  = Package.spread pkg packageData.
Proof. unfold Package.spread. simpl. now rewrite !spread_key_twice. Qed.

Lemma package_spread_empty pkg :
  Package.spread pkg Package.Partial.empty = pkg.
Proof. now destruct pkg. Qed.

Lemma mem_store_eta st :
  MemStorage.mk (MemStorage.users st) (MemStorage.trips st)
    (MemStorage.packages st) (MemStorage.deliveries st)
    (MemStorage.messages st) (MemStorage.reviews st) (MemStorage.userId st)
    (MemStorage.tripId st) (MemStorage.packageId st)
    (MemStorage.deliveryId st) (MemStorage.messageId st)
    (MemStorage.reviewId st)
  = st.
Proof. now destruct st. Qed.

Lemma updateTrip_found id trip tripData st :
  JsMap.get id (MemStorage.trips st) = Some trip ->
  MemStorage.updateTrip id tripData st
  = (Returned (Some (Trip.spread trip tripData)),
     MemStorage.set_trips
       (JsMap.set id (Trip.spread trip tripData) (MemStorage.trips st)) st).
Proof.
  intros H. unfold MemStorage.updateTrip, MemStorage.getTrip. run_method.
  now rewrite H.
Qed.

(** X8.  [updateTrip] on an identifier that names no trip returns
    [undefined] and changes nothing.  On a trip it returns the trip with
    the keys of the payload written over it, which [getTrip] then reads;
    every other identifier reads as before; the same update once more
    changes nothing; and the payload [{}] changes nothing at all. *)
Theorem updateTrip_merges_payload
    (st : MemStorage.t) (id : Z) (tripData : Trip.Partial.t) :
  (fst (MemStorage.getTrip id st) = Returned None ->
   MemStorage.updateTrip id tripData st = (Returned None, st))
  /\
  (forall trip,
      fst (MemStorage.getTrip id st) = Returned (Some trip) ->
      let st' := snd (MemStorage.updateTrip id tripData st) in
      fst (MemStorage.updateTrip id tripData st)
      = Returned (Some (Trip.spread trip tripData))
      /\ fst (MemStorage.getTrip id st')
         = Returned (Some (Trip.spread trip tripData))
      /\ (forall k, k <> id ->
                    fst (MemStorage.getTrip k st')
                    = fst (MemStorage.getTrip k st))
      /\ MemStorage.updateTrip id tripData st'
         = (Returned (Some (Trip.spread trip tripData)), st'))
  /\ snd (MemStorage.updateTrip id Trip.Partial.empty st) = st.
Proof.
  unfold MemStorage.updateTrip, MemStorage.getTrip. run_method.
  split; [|split].
  - intros H. injection H as H. now rewrite H.
  - intros trip H. injection H as H. rewrite H. simpl.
    rewrite get_set_same. simpl.
    split; [reflexivity|]. split; [reflexivity|]. split.
    + intros k Hk. rewrite get_set_other by congruence. reflexivity.
    + now rewrite trip_spread_twice, set_set_same.
  - destruct (JsMap.get id (MemStorage.trips st)) as [trip|] eqn:E; simpl;
      [|reflexivity].
    rewrite trip_spread_empty, (set_get_id _ _ _ E).
    apply mem_store_eta.
Qed.

(** X9.  [updatePackage] on an identifier that names no package returns
    [undefined] and changes nothing.  On a package it returns the package
    with the keys of the payload written over it, which [getPackage] then
    reads; every other identifier reads as before; the same update once
    more changes nothing; and the payload [{}] changes nothing at all. *)
Theorem updatePackage_merges_payload
    (st : MemStorage.t) (id : Z) (packageData : Package.Partial.t) :
  (fst (MemStorage.getPackage id st) = Returned None ->
   MemStorage.updatePackage id packageData st = (Returned None, st))
  /\
  (forall pkg,
      fst (MemStorage.getPackage id st) = Returned (Some pkg) ->
      let st' := snd (MemStorage.updatePackage id packageData st) in
      fst (MemStorage.updatePackage id packageData st)
      = Returned (Some (Package.spread pkg packageData))
      /\ fst (MemStorage.getPackage id st')
         = Returned (Some (Package.spread pkg packageData))
      /\ (forall k, k <> id ->
                    fst (MemStorage.getPackage k st')
                    = fst (MemStorage.getPackage k st))
      /\ MemStorage.updatePackage id packageData st'
         = (Returned (Some (Package.spread pkg packageData)), st'))
  /\ snd (MemStorage.updatePackage id Package.Partial.empty st) = st.
Proof.
  unfold MemStorage.updatePackage, MemStorage.getPackage. run_method.
  split; [|split].
  - intros H. injection H as H. now rewrite H.
  - intros pkg H. injection H as H. rewrite H. simpl.
    rewrite get_set_same. simpl.
    split; [reflexivity|]. split; [reflexivity|]. split.
    + intros k Hk. rewrite get_set_other by congruence. reflexivity.
    + now rewrite package_spread_twice, set_set_same.
  - destruct (JsMap.get id (MemStorage.packages st)) as [pkg|] eqn:E; simpl;
      [|reflexivity].
    rewrite package_spread_empty, (set_get_id _ _ _ E).
    apply mem_store_eta.
Qed.

(** X10.  A trip that [updateTrip] leaves with an [isActive] other than
    [true] is not returned by [getTrips], whatever the filters, while
    [getTrip] and [getTripsByUserId] of its owner still return it; the
    same holds of a package with [updatePackage], [getPackages],
    [getPackage] and [getPackagesByUserId]. *)
Theorem deactivated_is_hidden_from_listing (id : Z) (b : option bool) :
  JsBool.truthy b = false ->
  (forall st trip filters,
      fst (MemStorage.getTrip id st) = Returned (Some trip) ->
      let hidden := Trip.spread trip (trip_isActive b) in
      let st' := snd (MemStorage.updateTrip id (trip_isActive b) st) in
      (forall listed, fst (MemStorage.getTrips filters st') = Returned listed ->
                      ~ In hidden listed)
      /\ fst (MemStorage.getTrip id st') = Returned (Some hidden)
      /\ (forall owned,
             fst (MemStorage.getTripsByUserId (Trip.userId trip) st')
             = Returned owned -> In hidden owned))
  /\
  (forall st pkg filters,
      fst (MemStorage.getPackage id st) = Returned (Some pkg) ->
      let hidden := Package.spread pkg (package_isActive b) in
      let st' := snd (MemStorage.updatePackage id (package_isActive b) st) in
      (forall listed,
          fst (MemStorage.getPackages filters st') = Returned listed ->
          ~ In hidden listed)
      /\ fst (MemStorage.getPackage id st') = Returned (Some hidden)
      /\ (forall owned,
             fst (MemStorage.getPackagesByUserId (Package.userId pkg) st')
             = Returned owned -> In hidden owned)).
Proof.
  intros Hb. split.
  - intros st trip filters Htrip hidden st'.
    assert (Hget : fst (MemStorage.getTrip id st') = Returned (Some hidden)).
    { subst st'. unfold MemStorage.getTrip, Method.gets in Htrip |- *.
      cbn [fst] in Htrip. injection Htrip as Htrip.
      rewrite (updateTrip_found _ _ _ _ Htrip). simpl.
      now rewrite get_set_same. }
    split; [|split; [exact Hget|]].
    + intros listed Hlisted Hin.
      assert (Hact : Trip.isActive hidden = Some true).
      { destruct filters as [filters|].
        - destruct (mem_getTrips_exact st' filters) as (l & Hl & Hspec).
          rewrite Hlisted in Hl. injection Hl as <-.
          apply Hspec in Hin. now destruct Hin as (_ & Hact & _).
        - unfold MemStorage.getTrips, Method.gets in Hlisted.
          cbn [fst] in Hlisted. injection Hlisted as <-.
          apply filter_In in Hin. now apply truthy_active. }
      subst hidden. simpl in Hact. subst b. discriminate.
    + intros owned Howned.
      unfold MemStorage.getTripsByUserId, Method.gets in Howned.
      cbn [fst] in Howned. injection Howned as <-.
      apply filter_In. split; [|simpl; apply Z.eqb_refl].
      unfold MemStorage.getTrip, Method.gets in Hget. cbn [fst] in Hget.
      injection Hget as Hget. apply get_Some_In in Hget.
      unfold JsMap.values. apply in_map_iff. now exists (id, hidden).
  - intros st pkg filters Hpkg hidden st'.
    assert (Hget : fst (MemStorage.getPackage id st')
                   = Returned (Some hidden)).
    { subst st'. unfold MemStorage.getPackage, Method.gets in Hpkg |- *.
      cbn [fst] in Hpkg. injection Hpkg as Hpkg.
      rewrite (updatePackage_found _ _ _ _ Hpkg). simpl.
      now rewrite get_set_same. }
    split; [|split; [exact Hget|]].
    + intros listed Hlisted Hin.
      assert (Hact : Package.isActive hidden = Some true).
      { destruct filters as [filters|].
        - destruct (mem_getPackages_exact st' filters) as (l & Hl & Hspec).
          rewrite Hlisted in Hl. injection Hl as <-.
          apply Hspec in Hin. now destruct Hin as (_ & Hact & _).
        - unfold MemStorage.getPackages, Method.gets in Hlisted.
          cbn [fst] in Hlisted. injection Hlisted as <-.
          apply filter_In in Hin. now apply truthy_active. }
      subst hidden. simpl in Hact. subst b. discriminate.
    + intros owned Howned.
      unfold MemStorage.getPackagesByUserId, Method.gets in Howned.
      cbn [fst] in Howned. injection Howned as <-.
      apply filter_In. split; [|simpl; apply Z.eqb_refl].
      unfold MemStorage.getPackage, Method.gets in Hget. cbn [fst] in Hget.
      injection Hget as Hget. apply get_Some_In in Hget.
      unfold JsMap.values. apply in_map_iff. now exists (id, hidden).
Qed.

(** ** Deliveries *)

(** X11.  [createDelivery] checks none of its references: it stores and
    returns the delivery whatever the payload names, lists it under its
    trip, its package, its traveler and its sender, leaves users, trips,
    messages and reviews as they were, and when [packageId] names no
    package it leaves the packages as they were too. *)
Theorem createDelivery_links_without_checks
    (st : MemStorage.t) (deliveryData : Delivery.Insert.t) (now : Date) :
  let st' := snd (MemStorage.createDelivery deliveryData now st) in
  exists delivery,
    fst (MemStorage.createDelivery deliveryData now st) = Returned delivery
    /\ Delivery.tripId delivery = Delivery.Insert.tripId deliveryData
    /\ Delivery.packageId delivery = Delivery.Insert.packageId deliveryData
    /\ Delivery.travelerId delivery = Delivery.Insert.travelerId deliveryData
    /\ Delivery.senderId delivery = Delivery.Insert.senderId deliveryData
    /\ (exists ds,
           fst (MemStorage.getDeliveriesByTripId
                  (Delivery.Insert.tripId deliveryData) st') = Returned ds
           /\ In delivery ds)
    /\ (exists ds,
           fst (MemStorage.getDeliveriesByPackageId
                  (Delivery.Insert.packageId deliveryData) st') = Returned ds
           /\ In delivery ds)
    /\ (exists ds,
           fst (MemStorage.getDeliveriesByUserId
                  (Delivery.Insert.travelerId deliveryData)
                  Delivery.traveler st') = Returned ds
           /\ In delivery ds)
    /\ (exists ds,
           fst (MemStorage.getDeliveriesByUserId
                  (Delivery.Insert.senderId deliveryData)
                  Delivery.sender st') = Returned ds
           /\ In delivery ds)
    /\ MemStorage.users st' = MemStorage.users st
    /\ MemStorage.trips st' = MemStorage.trips st
    /\ MemStorage.messages st' = MemStorage.messages st
    /\ MemStorage.reviews st' = MemStorage.reviews st
    /\ (fst (MemStorage.getPackage (Delivery.Insert.packageId deliveryData) st)
        = Returned None ->
        MemStorage.packages st' = MemStorage.packages st).
Proof.
  intros st'. subst st'.
  assert (Hshape :
    exists st1,
      MemStorage.createDelivery deliveryData now st
      = (Returned
           {| Delivery.id := MemStorage.deliveryId st;
              Delivery.tripId := Delivery.Insert.tripId deliveryData;
              Delivery.packageId := Delivery.Insert.packageId deliveryData;
              Delivery.travelerId := Delivery.Insert.travelerId deliveryData;
              Delivery.senderId := Delivery.Insert.senderId deliveryData;
              Delivery.status := "pending";
              Delivery.paymentStatus := "pending";
              Delivery.createdAt := now;
              Delivery.updatedAt := now |}, st1)
      /\ MemStorage.deliveries st1
         = JsMap.set (MemStorage.deliveryId st)
             {| Delivery.id := MemStorage.deliveryId st;
                Delivery.tripId := Delivery.Insert.tripId deliveryData;
                Delivery.packageId := Delivery.Insert.packageId deliveryData;
                Delivery.travelerId := Delivery.Insert.travelerId deliveryData;
                Delivery.senderId := Delivery.Insert.senderId deliveryData;
                Delivery.status := "pending";
                Delivery.paymentStatus := "pending";
                Delivery.createdAt := now;
                Delivery.updatedAt := now |}
             (MemStorage.deliveries st)
      /\ MemStorage.users st1 = MemStorage.users st
      /\ MemStorage.trips st1 = MemStorage.trips st
      /\ MemStorage.messages st1 = MemStorage.messages st
      /\ MemStorage.reviews st1 = MemStorage.reviews st
      /\ (JsMap.get (Delivery.Insert.packageId deliveryData)
            (MemStorage.packages st) = None ->
          MemStorage.packages st1 = MemStorage.packages st)).
  { unfold MemStorage.createDelivery, MemStorage.getPackage. run_method.
    destruct (JsMap.get (Delivery.Insert.packageId deliveryData)
                (MemStorage.packages st)) as [pkg|] eqn:E; simpl.
    - unfold MemStorage.updatePackage, MemStorage.getPackage. run_method.
      destruct (JsMap.get (Package.id pkg) (MemStorage.packages st)); simpl;
        eexists; (split; [reflexivity|]); repeat split; try reflexivity;
        discriminate.
    - eexists. split; [reflexivity|]. repeat split; reflexivity. }
  destruct Hshape as (st1 & -> & Hd & Hu & Ht & Hm & Hr & Hp).
  cbn [fst snd]. eexists. split; [reflexivity|].
  unfold MemStorage.getDeliveriesByTripId, MemStorage.getDeliveriesByPackageId,
    MemStorage.getDeliveriesByUserId, MemStorage.getPackage, Method.gets.
  cbn [fst snd Delivery.tripId Delivery.packageId Delivery.travelerId
       Delivery.senderId].
  rewrite Hd.
  repeat match goal with |- _ /\ _ => split end; try reflexivity;
    try assumption.
  1-4: eexists; (split; [reflexivity|]); apply filter_In;
       (split; [apply In_values_set | simpl; apply Z.eqb_refl]).
  intros H. injection H as H. now apply Hp.
Qed.

(** X12.  [updatePaymentStatus] on an identifier that names no delivery
    returns [undefined] and changes nothing.  On a delivery it writes the
    payment status and the time of the update and keeps every other field,
    the status among them; [getDelivery] reads the result; and no package,
    trip, user, message or review changes, whatever the payment status
    is. *)
Theorem updatePaymentStatus_touches_one_field
    (st : MemStorage.t) (id : Z) (paymentStatus : string) (now : Date) :
  let st' := snd (MemStorage.updatePaymentStatus id paymentStatus now st) in
  (fst (MemStorage.getDelivery id st) = Returned None ->
   MemStorage.updatePaymentStatus id paymentStatus now st
   = (Returned None, st))
  /\
  (forall delivery,
      fst (MemStorage.getDelivery id st) = Returned (Some delivery) ->
      let updated :=
        {| Delivery.id := Delivery.id delivery;
           Delivery.tripId := Delivery.tripId delivery;
           Delivery.packageId := Delivery.packageId delivery;
           Delivery.travelerId := Delivery.travelerId delivery;
           Delivery.senderId := Delivery.senderId delivery;
           Delivery.status := Delivery.status delivery;
           Delivery.paymentStatus := paymentStatus;
           Delivery.createdAt := Delivery.createdAt delivery;
           Delivery.updatedAt := now |} in
      fst (MemStorage.updatePaymentStatus id paymentStatus now st)
      = Returned (Some updated)
      /\ fst (MemStorage.getDelivery id st') = Returned (Some updated)
      /\ (forall k, k <> id ->
                    fst (MemStorage.getDelivery k st')
                    = fst (MemStorage.getDelivery k st)))
  /\ MemStorage.packages st' = MemStorage.packages st
  /\ MemStorage.trips st' = MemStorage.trips st
  /\ MemStorage.users st' = MemStorage.users st
  /\ MemStorage.messages st' = MemStorage.messages st
  /\ MemStorage.reviews st' = MemStorage.reviews st.
Proof.
  intros st'. subst st'.
  unfold MemStorage.updatePaymentStatus, MemStorage.getDelivery. run_method.
  split; [|split].
  - intros H. injection H as H. now rewrite H.
  - intros delivery H. injection H as H. rewrite H. simpl.
    rewrite get_set_same.
    split; [reflexivity|]. split; [reflexivity|].
    intros k Hk. rewrite get_set_other by congruence. reflexivity.
  - destruct (JsMap.get id (MemStorage.deliveries st)); simpl;
      repeat split; reflexivity.
Qed.

(** ** Messages *)

(** X13.  [markMessageAsRead] on an identifier that names no message
    returns [undefined] and changes nothing.  On a message it sets
    [isRead] and keeps every other field; [getMessage] reads the result;
    every other identifier reads as before; and marking the message once
    more changes nothing. *)
Theorem markMessageAsRead_sets_flag_once (st : MemStorage.t) (id : Z) :
  let st' := snd (MemStorage.markMessageAsRead id st) in
  (fst (MemStorage.getMessage id st) = Returned None ->
   MemStorage.markMessageAsRead id st = (Returned None, st))
  /\
  (forall message,
      fst (MemStorage.getMessage id st) = Returned (Some message) ->
      let read :=
        {| Message.id := Message.id message;
           Message.senderId := Message.senderId message;
           Message.receiverId := Message.receiverId message;
           Message.content := Message.content message;
           Message.isRead := true;
           Message.createdAt := Message.createdAt message |} in
      fst (MemStorage.markMessageAsRead id st) = Returned (Some read)
      /\ fst (MemStorage.getMessage id st') = Returned (Some read)
      /\ (forall k, k <> id ->
                    fst (MemStorage.getMessage k st')
                    = fst (MemStorage.getMessage k st))
      /\ MemStorage.markMessageAsRead id st' = (Returned (Some read), st')).
Proof.
  intros st'. subst st'.
  unfold MemStorage.markMessageAsRead, MemStorage.getMessage. run_method.
  split.
  - intros H. injection H as H. now rewrite H.
  - intros message H. injection H as H. rewrite H. simpl.
    rewrite get_set_same. simpl.
    split; [reflexivity|]. split; [reflexivity|]. split.
    + intros k Hk. rewrite get_set_other by congruence. reflexivity.
    + now rewrite set_set_same.
Qed.

(** ** Users *)

Lemma find_first_iff {A : Type} (f : A -> bool) (l : list A) (x : A) :
  find f l = Some x
  <-> exists before after,
        l = before ++ x :: after
        /\ f x = true
        /\ forall y, In y before -> f y = false.
Proof.
  induction l as [|a l IH]; simpl.
  - split; [discriminate|]. intros (before & after & E & _).
    destruct before; discriminate.
  - destruct (f a) eqn:Fa.
    + split.
      * intros [= ->]. exists [], l. repeat split; [exact Fa | intros y []].
      * intros (before & after & E & Fx & Hb).
        destruct before as [|b before].
        -- now injection E as -> _.
        -- injection E as -> _. specialize (Hb b (or_introl eq_refl)).
           congruence.
    + rewrite IH. split.
      * intros (before & after & -> & Fx & Hb).
        exists (a :: before), after. repeat split; [exact Fx|].
        intros y [<-|Hy]; [exact Fa | now apply Hb].
      * intros (before & after & E & Fx & Hb).
        destruct before as [|b before].
        -- injection E as -> _. congruence.
        -- injection E as -> ->. exists before, after.
           repeat split; [exact Fx|]. intros y Hy. apply Hb. now right.
Qed.

Lemma find_none_iff {A : Type} (f : A -> bool) (l : list A) :
  find f l = None <-> forall y, In y l -> f y = false.
Proof.
  split; [apply find_none|].
  induction l as [|a l IH]; simpl; [reflexivity|].
  intros H. rewrite (H a (or_introl eq_refl)). apply IH.
  intros y Hy. apply H. now right.
Qed.

Lemma find_app_first {A : Type} (f : A -> bool) (l l' : list A) :
  find f (l ++ l')
  = match find f l with
    | Some x => Some x
    | None => find f l'
    end.
Proof.
  induction l as [|a l IH]; simpl; [reflexivity|].
  now destruct (f a).
Qed.

Lemma same_email_test a b :
  String.eqb (JsString.toLowerCase a) (JsString.toLowerCase b) = true
  <-> same_email a b.
Proof. apply String.eqb_eq. Qed.

Lemma same_email_test_false a b :
  String.eqb (JsString.toLowerCase a) (JsString.toLowerCase b) = false
  <-> ~ same_email a b.
Proof. apply String.eqb_neq. Qed.

(** X14.  [getUserByEmail] returns the user registered first among those
    whose email is the given one up to the case of letters, and
    [undefined] exactly when there is none; it returns the same for two
    addresses that differ in case only; and [getUserByUsername] is the
    same lookup. *)
Theorem getUserByEmail_first_registered (st : MemStorage.t) (email : string) :
  (forall u,
      fst (MemStorage.getUserByEmail email st) = Returned (Some u)
      <-> exists before after,
            JsMap.values (MemStorage.users st) = before ++ u :: after
            /\ same_email (User.email u) email
            /\ forall v, In v before -> ~ same_email (User.email v) email)
  /\ (fst (MemStorage.getUserByEmail email st) = Returned None
      <-> forall v, In v (JsMap.values (MemStorage.users st)) ->
                    ~ same_email (User.email v) email)
  /\ (forall email', same_email email email' ->
                     MemStorage.getUserByEmail email' st
                     = MemStorage.getUserByEmail email st)
  /\ MemStorage.getUserByUsername email st
     = MemStorage.getUserByEmail email st.
Proof.
  unfold MemStorage.getUserByEmail, MemStorage.getUserByUsername, Method.gets.
  cbn [fst]. split; [|split; [|split]].
  - intros u. split.
    + intros H. injection H as H. apply find_first_iff in H.
      destruct H as (before & after & E & Hu & Hb).
      exists before, after. split; [exact E|].
      split; [now apply same_email_test|].
      intros v Hv. apply same_email_test_false. now apply Hb.
    + intros (before & after & E & Hu & Hb). f_equal.
      apply find_first_iff. exists before, after. split; [exact E|].
      split; [now apply same_email_test|].
      intros v Hv. apply same_email_test_false. now apply Hb.
  - split.
    + intros H. injection H as H. intros v Hv.
      apply same_email_test_false. revert v Hv. now apply find_none_iff.
    + intros H. f_equal. apply find_none_iff. intros v Hv.
      apply same_email_test_false. now apply H.
  - intros email' Hsame. unfold same_email in Hsame. now rewrite Hsame.
  - reflexivity.
Qed.

(** X15.  In a store built from the empty store, [createUser] accepts any
    email, one already registered included: a lookup that found a user
    before keeps finding that user; a lookup that found none finds the new
    user when the new email is the one looked up, up to case, and none
    otherwise. *)
Theorem createUser_keeps_first_registration (cs : list MemStorage.call)
    (userData : User.Insert.t) (hashedPassword : string) (now : Date)
    (email : string) :
  let st := MemStorage.exec_all cs MemStorage.new in
  let st' := snd (MemStorage.createUser userData hashedPassword now st) in
  (forall u,
      fst (MemStorage.getUserByEmail email st) = Returned (Some u) ->
      fst (MemStorage.getUserByEmail email st') = Returned (Some u))
  /\ (fst (MemStorage.getUserByEmail email st) = Returned None ->
      same_email (User.Insert.email userData) email ->
      exists user,
        fst (MemStorage.createUser userData hashedPassword now st)
        = Returned user
        /\ fst (MemStorage.getUserByEmail email st') = Returned (Some user))
  /\ (fst (MemStorage.getUserByEmail email st) = Returned None ->
      ~ same_email (User.Insert.email userData) email ->
      fst (MemStorage.getUserByEmail email st') = Returned None).
Proof.
  intros st st'.
  destruct (built_store_well_formed cs) as (Hu & _). fold st in Hu.
  subst st'. clearbody st.
  unfold MemStorage.createUser, MemStorage.getUserByEmail. run_method.
  rewrite (values_set_absent _ _ _ (keys_fresh_absent _ _ Hu)).
  split; [|split].
  - intros u H. injection H as H. f_equal.
    rewrite find_app_first, H. reflexivity.
  - intros H Hsame. injection H as H. eexists. split; [reflexivity|].
    rewrite find_app_first, H. simpl.
    apply same_email_test in Hsame. now rewrite Hsame.
  - intros H Hdiff. injection H as H. rewrite find_app_first, H. simpl.
    apply same_email_test_false in Hdiff. now rewrite Hdiff.
Qed.

Lemma spread_key_confirms (old : bool) (new : option bool) :
  new <> Some false ->
  JsObject.spread_key old new
  = (old || match new with Some true => true | _ => false end)%bool.
Proof.
  destruct new as [[]|]; simpl; intros H;
    [now rewrite orb_true_r | congruence | now rewrite orb_false_r].
Qed.

Lemma updateUserVerification_found userId user verificationData st :
  JsMap.get userId (MemStorage.users st) = Some user ->
  exists user',
    MemStorage.updateUserVerification userId verificationData st
    = (Returned user',
       MemStorage.set_users
         (JsMap.set userId user' (MemStorage.users st)) st)
    /\ User.verificationStatus user'
       = User.Verification.spread (User.verificationStatus user)
                                  verificationData
    /\ verified_consistent user'
    /\ User.id user' = User.id user
    /\ User.email user' = User.email user
    /\ User.rating user' = User.rating user
    /\ User.reviewCount user' = User.reviewCount user.
Proof.
  intros H. unfold MemStorage.updateUserVerification, MemStorage.getUser.
  run_method. rewrite H. simpl. eexists. split; [reflexivity|].
  repeat split.
  exact (every_flag_true
           (User.Verification.spread (User.verificationStatus user)
                                     verificationData)).
Qed.

Lemma verification_calls_accumulate userId payloads : forall st user,
  JsMap.get userId (MemStorage.users st) = Some user ->
  Forall confirms payloads ->
  exists user',
    JsMap.get userId
      (MemStorage.users
         (MemStorage.exec_all (verification_calls userId payloads) st))
    = Some user'
    /\ User.Verification.idVerified (User.verificationStatus user')
       = (User.Verification.idVerified (User.verificationStatus user)
          || confirmed_by User.Verification.Partial.idVerified payloads)%bool
    /\ User.Verification.phoneVerified (User.verificationStatus user')
       = (User.Verification.phoneVerified (User.verificationStatus user)
          || confirmed_by User.Verification.Partial.phoneVerified
                          payloads)%bool
    /\ User.Verification.addressVerified (User.verificationStatus user')
       = (User.Verification.addressVerified (User.verificationStatus user)
          || confirmed_by User.Verification.Partial.addressVerified
                          payloads)%bool
    /\ (payloads <> [] \/ verified_consistent user ->
        verified_consistent user')
    /\ User.rating user' = User.rating user
    /\ User.reviewCount user' = User.reviewCount user.
Proof.
  induction payloads as [|d ds IH]; intros st user Huser Hall.
  - exists user. simpl. rewrite !orb_false_r.
    repeat split; try assumption. intros [H|H]; [now contradiction H | exact H].
  - inversion Hall as [|? ? (Hi & Hp & Ha) Hds]; subst.
    destruct (updateUserVerification_found userId user d st Huser)
      as (u1 & Hrun & Hvs & Hcons & _ & _ & Hrat & Hcnt).
    unfold MemStorage.exec_all, verification_calls in *.
    cbn [map fold_left MemStorage.exec]. rewrite Hrun. cbn [snd].
    destruct (IH (MemStorage.set_users
                    (JsMap.set userId u1 (MemStorage.users st)) st) u1)
      as (u' & Hu' & Ei & Ep & Ea & Hc & Hr' & Hc'); [|exact Hds|].
    { simpl. apply get_set_same. }
    exists u'. split; [exact Hu'|].
    rewrite Ei, Ep, Ea, Hvs. unfold User.Verification.spread. simpl.
    rewrite !spread_key_confirms by assumption.
    rewrite !orb_assoc.
    repeat split; try congruence.
    intros _. apply Hc. now right.
Qed.

(** X16.  Payloads of [updateUserVerification] that only confirm
    accumulate, in whatever order they come: after the calls a flag of the
    user is on when it was on before or one of the payloads set it, and,
    once a call was made, [isVerified] is on exactly when the three flags
    are; the rating and the number of reviews are kept. *)
Theorem confirmations_accumulate_in_any_order
    (st : MemStorage.t) (userId : Z) (user : User.t)
    (payloads : list User.Verification.Partial.t) :
  fst (MemStorage.getUser userId st) = Returned (Some user) ->
  Forall confirms payloads ->
  payloads <> [] ->
  exists user',
    fst (MemStorage.getUser userId
           (MemStorage.exec_all (verification_calls userId payloads) st))
    = Returned (Some user')
    /\ User.Verification.idVerified (User.verificationStatus user')
       = (User.Verification.idVerified (User.verificationStatus user)
          || confirmed_by User.Verification.Partial.idVerified payloads)%bool
    /\ User.Verification.phoneVerified (User.verificationStatus user')
       = (User.Verification.phoneVerified (User.verificationStatus user)
          || confirmed_by User.Verification.Partial.phoneVerified
                          payloads)%bool
    /\ User.Verification.addressVerified (User.verificationStatus user')
       = (User.Verification.addressVerified (User.verificationStatus user)
          || confirmed_by User.Verification.Partial.addressVerified
                          payloads)%bool
    /\ User.isVerified user'
       = (User.Verification.idVerified (User.verificationStatus user')
          && User.Verification.phoneVerified (User.verificationStatus user')
          && User.Verification.addressVerified
               (User.verificationStatus user'))%bool
    /\ User.rating user' = User.rating user
    /\ User.reviewCount user' = User.reviewCount user.
Proof.
  intros Huser Hall Hne. rewrite getUser_eq in Huser. simpl in Huser.
  injection Huser as Huser.
  destruct (verification_calls_accumulate userId payloads st user Huser Hall)
    as (u' & Hu' & Ei & Ep & Ea & Hc & Hr & Hn).
  exists u'. rewrite getUser_eq. cbn [fst]. rewrite Hu'.
  repeat split; try assumption. apply Hc. now left.
Qed.

(** ** An identifier written by [updatePackage] *)

(** X17.  [updatePackage] writes an [id] of the payload into the package
    and leaves the package under its key.  When that [id] names no
    package, a [createDelivery] for the key finds the package, follows its
    [id], finds nothing to update and leaves the package of the key as it
    is, its status included. *)
Theorem updatePackage_detaches_id_from_key
    (st : MemStorage.t) (k j : Z) (pkg : Package.t)
    (deliveryData : Delivery.Insert.t) (now : Date) :
  fst (MemStorage.getPackage k st) = Returned (Some pkg) ->
  fst (MemStorage.getPackage j st) = Returned None ->
  Delivery.Insert.packageId deliveryData = k ->
  let renamed := Package.spread pkg (package_id_only j) in
  let st1 := snd (MemStorage.updatePackage k (package_id_only j) st) in
  let st2 := snd (MemStorage.createDelivery deliveryData now st1) in
  Package.id renamed = j
  /\ Package.status renamed = Package.status pkg
  /\ fst (MemStorage.getPackage k st1) = Returned (Some renamed)
  /\ fst (MemStorage.getPackage j st1) = Returned None
  /\ fst (MemStorage.getPackage k st2) = Returned (Some renamed)
  /\ MemStorage.packages st2 = MemStorage.packages st1.
Proof.
  intros Hk Hj Hd renamed st1 st2.
  rewrite getPackage_eq in Hk, Hj. cbn [fst] in Hk, Hj.
  injection Hk as Hk. injection Hj as Hj.
  assert (Hkj : k <> j) by (intros ->; congruence).
  assert (E1 : MemStorage.packages st1
               = JsMap.set k renamed (MemStorage.packages st)).
  { subst st1. now rewrite (updatePackage_found _ _ _ _ Hk). }
  assert (Hk1 : JsMap.get k (MemStorage.packages st1) = Some renamed)
    by (rewrite E1; apply get_set_same).
  assert (Hj1 : JsMap.get j (MemStorage.packages st1) = None)
    by (rewrite E1, get_set_other by exact Hkj; exact Hj).
  assert (E2 : MemStorage.packages st2 = MemStorage.packages st1).
  { subst st2. unfold MemStorage.createDelivery, MemStorage.getPackage.
    run_method. rewrite Hd, Hk1. simpl.
    unfold MemStorage.updatePackage, MemStorage.getPackage. run_method.
    change (JsObject.spread_key (Package.id pkg) (Some j)) with j.
    now rewrite Hj1. }
  split; [reflexivity|]. split; [reflexivity|].
  rewrite !getPackage_eq. cbn [fst]. rewrite E2, Hk1, Hj1.
  repeat split; reflexivity.
Qed.

(** * Properties of the request layer *)

Ltac run_handler :=
  unfold Routes.try_catch, Routes.respond, Routes.refuse;
  unfold Method.bind, Method.ret, Method.gets, Method.modify, Method.throw;
  cbn [fst snd].

(** X18.  [PUT /api/trips/:id] answers 401 without a session, 404 when
    the identifier names no trip and 403 when the trip belongs to another
    user, and in these cases leaves the store as it is; for the owner it
    answers 200 with what [updateTrip] returns and leaves the store that
    [updateTrip] leaves. *)
Theorem put_trip_only_by_owner
    (st : MemStorage.t) (tripId : Z) (body : Trip.Partial.t) :
  Routes.put_trip None tripId body st
  = (Returned (Routes.mkResponse 401 (Routes.Message "Not authenticated")),
     st)
  /\ forall userId,
      (fst (MemStorage.getTrip tripId st) = Returned None ->
       Routes.put_trip (Some userId) tripId body st
       = (Returned (Routes.mkResponse 404 (Routes.Message "Trip not found")),
          st))
      /\ (forall trip,
             fst (MemStorage.getTrip tripId st) = Returned (Some trip) ->
             Trip.userId trip <> userId ->
             Routes.put_trip (Some userId) tripId body st
             = (Returned
                  (Routes.mkResponse 403
                     (Routes.Message "Not authorized to update this trip")),
                st))
      /\ (forall trip,
             fst (MemStorage.getTrip tripId st) = Returned (Some trip) ->
             Trip.userId trip = userId ->
             Routes.put_trip (Some userId) tripId body st
             = (Returned
                  (Routes.mkResponse 200
                     (Routes.Json (Some (Trip.spread trip body)))),
                snd (MemStorage.updateTrip tripId body st))).
Proof.
  split; [reflexivity|]. intros userId.
  unfold Routes.put_trip, MemStorage.getTrip. run_handler.
  split; [|split].
  - intros H. injection H as H. now rewrite H.
  - intros trip H Hne. injection H as H. rewrite H.
    apply Z.eqb_neq in Hne. now rewrite Hne.
  - intros trip H He. injection H as H. rewrite H.
    apply Z.eqb_eq in He. rewrite He. cbn [negb].
    now rewrite (updateTrip_found _ _ _ _ H).
Qed.

(** X19.  [PUT /api/packages/:id] answers 401 without a session, 404
    when the identifier names no package and 403 when the package belongs
    to another user, and in these cases leaves the store as it is; for the
    owner it answers 200 with what [updatePackage] returns and leaves the
    store that [updatePackage] leaves. *)
Theorem put_package_only_by_owner
    (st : MemStorage.t) (packageId : Z) (body : Package.Partial.t) :
  Routes.put_package None packageId body st
  = (Returned (Routes.mkResponse 401 (Routes.Message "Not authenticated")),
     st)
  /\ forall userId,
      (fst (MemStorage.getPackage packageId st) = Returned None ->
       Routes.put_package (Some userId) packageId body st
       = (Returned
            (Routes.mkResponse 404 (Routes.Message "Package not found")),
          st))
      /\ (forall pkg,
             fst (MemStorage.getPackage packageId st) = Returned (Some pkg) ->
             Package.userId pkg <> userId ->
             Routes.put_package (Some userId) packageId body st
             = (Returned
                  (Routes.mkResponse 403
                     (Routes.Message
                        "Not authorized to update this package")),
                st))
      /\ (forall pkg,
             fst (MemStorage.getPackage packageId st) = Returned (Some pkg) ->
             Package.userId pkg = userId ->
             Routes.put_package (Some userId) packageId body st
             = (Returned
                  (Routes.mkResponse 200
                     (Routes.Json (Some (Package.spread pkg body)))),
                snd (MemStorage.updatePackage packageId body st))).
Proof.
  split; [reflexivity|]. intros userId.
  unfold Routes.put_package, MemStorage.getPackage. run_handler.
  split; [|split].
  - intros H. injection H as H. now rewrite H.
  - intros pkg H Hne. injection H as H. rewrite H.
    apply Z.eqb_neq in Hne. now rewrite Hne.
  - intros pkg H He. injection H as H. rewrite H.
    apply Z.eqb_eq in He. rewrite He. cbn [negb].
    now rewrite (updatePackage_found _ _ _ _ H).
Qed.

(** X20.  [POST /api/trips] and [POST /api/packages] answer 401 without a
    session and 400 with the text of the validation error when the body
    does not pass the schema, and in both cases leave the store as it is;
    otherwise they answer 201 with the trip or package that [createTrip]
    or [createPackage] makes for the user of the session. *)
Theorem post_trip_and_package_for_session_user
    (st : MemStorage.t) (zodMessage : string) (now : Date) :
  (forall validatedData,
      Routes.post_trip None validatedData zodMessage now st
      = (Returned (Routes.mkResponse 401
                     (Routes.Message "Not authenticated")), st))
  /\ (forall userId,
         Routes.post_trip (Some userId) Routes.Invalid zodMessage now st
         = (Returned (Routes.mkResponse 400 (Routes.Message zodMessage)), st))
  /\ (forall userId tripData,
         exists trip,
           MemStorage.createTrip tripData userId now st
           = (Returned trip,
              snd (MemStorage.createTrip tripData userId now st))
           /\ Trip.userId trip = userId
           /\ Routes.post_trip (Some userId) (Routes.Valid tripData)
                zodMessage now st
              = (Returned (Routes.mkResponse 201 (Routes.Json trip)),
                 snd (MemStorage.createTrip tripData userId now st)))
  /\ (forall packageData,
         Routes.post_package None packageData zodMessage now st
         = (Returned (Routes.mkResponse 401
                        (Routes.Message "Not authenticated")), st))
  /\ (forall userId,
         Routes.post_package (Some userId) Routes.Invalid zodMessage now st
         = (Returned (Routes.mkResponse 400 (Routes.Message zodMessage)), st))
  /\ (forall userId packageData,
         exists pkg,
           MemStorage.createPackage packageData userId now st
           = (Returned pkg,
              snd (MemStorage.createPackage packageData userId now st))
           /\ Package.userId pkg = userId
           /\ Routes.post_package (Some userId) (Routes.Valid packageData)
                zodMessage now st
              = (Returned (Routes.mkResponse 201 (Routes.Json pkg)),
                 snd (MemStorage.createPackage packageData userId now st))).
Proof.
  repeat match goal with |- _ /\ _ => split end; try reflexivity.
  - intros userId tripData. eexists. repeat split; reflexivity.
  - intros userId packageData. eexists. repeat split; reflexivity.
Qed.

Lemma getTrip_eq id st :
  MemStorage.getTrip id st
  = (Returned (JsMap.get id (MemStorage.trips st)), st).
Proof. reflexivity. Qed.

Lemma getMessage_eq id st :
  MemStorage.getMessage id st
  = (Returned (JsMap.get id (MemStorage.messages st)), st).
Proof. reflexivity. Qed.

Lemma createDelivery_returns deliveryData now st :
  exists delivery,
    MemStorage.createDelivery deliveryData now st
    = (Returned delivery, snd (MemStorage.createDelivery deliveryData now st)).
Proof.
  destruct (mem_createDelivery_deliveries st deliveryData now)
    as (delivery & Hret & _).
  exists delivery.
  destruct (MemStorage.createDelivery deliveryData now st) as [o st'].
  cbn [fst snd] in *. now rewrite Hret.
Qed.

(** X21.  [POST /api/deliveries] answers 401 without a session, 400 when
    one of the four references is missing from the body and 404 when the
    package or the trip does not exist, and in these cases leaves the
    store as it is.  Otherwise, for whatever user holds the session, it
    answers 201 with the delivery that [createDelivery] makes; and when
    the package is stored under its own identifier, [getPackage] then
    reads it with the status "matched". *)
Theorem post_delivery_needs_package_and_trip
    (st : MemStorage.t) (body : Routes.delivery_body) (zodMessage : string)
    (now : Date) :
  Routes.post_delivery None body zodMessage now st
  = (Returned (Routes.mkResponse 401 (Routes.Message "Not authenticated")),
     st)
  /\ forall userId,
      (Routes.parse_delivery body = Routes.Invalid ->
       Routes.post_delivery (Some userId) body zodMessage now st
       = (Returned (Routes.mkResponse 400 (Routes.Message zodMessage)), st))
      /\ (forall deliveryData,
             Routes.parse_delivery body = Routes.Valid deliveryData ->
             fst (MemStorage.getPackage
                    (Delivery.Insert.packageId deliveryData) st)
             = Returned None
             \/ fst (MemStorage.getTrip
                       (Delivery.Insert.tripId deliveryData) st)
                = Returned None ->
             Routes.post_delivery (Some userId) body zodMessage now st
             = (Returned
                  (Routes.mkResponse 404
                     (Routes.Message "Package or trip not found")), st))
      /\ (forall deliveryData pkg trip,
             Routes.parse_delivery body = Routes.Valid deliveryData ->
             fst (MemStorage.getPackage
                    (Delivery.Insert.packageId deliveryData) st)
             = Returned (Some pkg) ->
             fst (MemStorage.getTrip
                    (Delivery.Insert.tripId deliveryData) st)
             = Returned (Some trip) ->
             let st' := snd (MemStorage.createDelivery deliveryData now st) in
             (exists delivery,
                 fst (MemStorage.createDelivery deliveryData now st)
                 = Returned delivery
                 /\ Routes.post_delivery (Some userId) body zodMessage now st
                    = (Returned (Routes.mkResponse 201 (Routes.Json delivery)),
                       st'))
             /\ (Package.id pkg = Delivery.Insert.packageId deliveryData ->
                 fst (MemStorage.getPackage (Package.id pkg) st')
                 = Returned (Some (Package.with_status (Some "matched") pkg)))).
Proof.
  split; [reflexivity|]. intros userId.
  unfold Routes.post_delivery. split; [|split].
  - intros ->. reflexivity.
  - intros deliveryData -> Hmissing.
    rewrite getPackage_eq, getTrip_eq in Hmissing. cbn [fst] in Hmissing.
    unfold MemStorage.getPackage, MemStorage.getTrip. run_handler.
    destruct Hmissing as [H|H]; injection H as H; rewrite H;
      [reflexivity|].
    now destruct (JsMap.get _ (MemStorage.packages st)).
  - intros deliveryData pkg trip -> Hpkg Htrip. split.
    + destruct (createDelivery_returns deliveryData now st)
        as (delivery & Hrun).
      exists delivery. split; [now rewrite Hrun|].
      rewrite getPackage_eq in Hpkg. rewrite getTrip_eq in Htrip.
      cbn [fst] in Hpkg, Htrip.
      injection Hpkg as Hpkg. injection Htrip as Htrip.
      unfold MemStorage.getPackage, MemStorage.getTrip. run_handler.
      rewrite Hpkg, Htrip, Hrun. reflexivity.
    + intros Hid.
      apply mem_createDelivery_matched; [|now rewrite Hid].
      now rewrite Hid.
Qed.

Lemma updateDeliveryStatus_found id status now st delivery :
  JsMap.get id (MemStorage.deliveries st) = Some delivery ->
  MemStorage.updateDeliveryStatus id status now st
  = (Returned
       (Some {| Delivery.id := Delivery.id delivery;
                Delivery.tripId := Delivery.tripId delivery;
                Delivery.packageId := Delivery.packageId delivery;
                Delivery.travelerId := Delivery.travelerId delivery;
                Delivery.senderId := Delivery.senderId delivery;
                Delivery.status := status;
                Delivery.paymentStatus := Delivery.paymentStatus delivery;
                Delivery.createdAt := Delivery.createdAt delivery;
                Delivery.updatedAt := now |}),
     snd (MemStorage.updateDeliveryStatus id status now st)).
Proof.
  intros H.
  unfold MemStorage.updateDeliveryStatus, MemStorage.getDelivery,
    MemStorage.getPackage, MemStorage.updatePackage.
  run_method. rewrite H. cbn [fst snd].
  destruct (String.eqb status "delivered"); [|reflexivity].
  cbn [fst snd MemStorage.packages MemStorage.set_deliveries].
  destruct (JsMap.get (Delivery.packageId delivery) (MemStorage.packages st))
    as [pkg|]; [|reflexivity].
  cbn [fst snd MemStorage.packages MemStorage.set_deliveries].
  destruct (JsMap.get (Package.id pkg) (MemStorage.packages st));
    reflexivity.
Qed.

Lemma updatePaymentStatus_found id paymentStatus now st delivery :
  JsMap.get id (MemStorage.deliveries st) = Some delivery ->
  MemStorage.updatePaymentStatus id paymentStatus now st
  = (Returned
       (Some {| Delivery.id := Delivery.id delivery;
                Delivery.tripId := Delivery.tripId delivery;
                Delivery.packageId := Delivery.packageId delivery;
                Delivery.travelerId := Delivery.travelerId delivery;
                Delivery.senderId := Delivery.senderId delivery;
                Delivery.status := Delivery.status delivery;
                Delivery.paymentStatus := paymentStatus;
                Delivery.createdAt := Delivery.createdAt delivery;
                Delivery.updatedAt := now |}),
     snd (MemStorage.updatePaymentStatus id paymentStatus now st)).
Proof.
  intros H. unfold MemStorage.updatePaymentStatus, MemStorage.getDelivery.
  run_method. rewrite H. reflexivity.
Qed.

(** X22.  [PUT /api/deliveries/:id/status] answers 401 without a session,
    400 when the body carries no status or an empty one, 404 when the
    identifier names no delivery and 403 when the user of the session is
    neither the sender nor the traveler of the delivery, and in these
    cases leaves the store as it is.  For the sender and for the traveler
    alike it answers 200 with the delivery under the status of the body,
    whatever that text is, and leaves the store that
    [updateDeliveryStatus] makes. *)
Theorem put_delivery_status_only_by_parties
    (st : MemStorage.t) (deliveryId : Z) (status : option string)
    (now : Date) :
  Routes.put_delivery_status None deliveryId status now st
  = (Returned (Routes.mkResponse 401 (Routes.Message "Not authenticated")),
     st)
  /\ forall userId,
      (Routes.present status = false ->
       Routes.put_delivery_status (Some userId) deliveryId status now st
       = (Returned
            (Routes.mkResponse 400 (Routes.Message "Status is required")),
          st))
      /\ (forall s,
             status = Some s -> JsString.truthy s = true ->
             (fst (MemStorage.getDelivery deliveryId st) = Returned None ->
              Routes.put_delivery_status (Some userId) deliveryId status
                now st
              = (Returned
                   (Routes.mkResponse 404
                      (Routes.Message "Delivery not found")), st))
             /\ (forall delivery,
                    fst (MemStorage.getDelivery deliveryId st)
                    = Returned (Some delivery) ->
                    Delivery.senderId delivery <> userId ->
                    Delivery.travelerId delivery <> userId ->
                    Routes.put_delivery_status (Some userId) deliveryId
                      status now st
                    = (Returned
                         (Routes.mkResponse 403
                            (Routes.Message
                               "Not authorized to update this delivery")),
                       st))
             /\ (forall delivery,
                    fst (MemStorage.getDelivery deliveryId st)
                    = Returned (Some delivery) ->
                    Delivery.senderId delivery = userId
                    \/ Delivery.travelerId delivery = userId ->
                    Routes.put_delivery_status (Some userId) deliveryId
                      status now st
                    = (Returned
                         (Routes.mkResponse 200
                            (Routes.Json
                               (Some
                                  {| Delivery.id := Delivery.id delivery;
                                     Delivery.tripId :=
                                       Delivery.tripId delivery;
                                     Delivery.packageId :=
                                       Delivery.packageId delivery;
                                     Delivery.travelerId :=
                                       Delivery.travelerId delivery;
                                     Delivery.senderId :=
                                       Delivery.senderId delivery;
                                     Delivery.status := s;
                                     Delivery.paymentStatus :=
                                       Delivery.paymentStatus delivery;
                                     Delivery.createdAt :=
                                       Delivery.createdAt delivery;
                                     Delivery.updatedAt := now |}))),
                       snd (MemStorage.updateDeliveryStatus deliveryId s
                              now st)))).
Proof.
  split; [reflexivity|]. intros userId. split.
  - unfold Routes.put_delivery_status, Routes.present.
    destruct status as [s|]; [|reflexivity]. now intros ->.
  - intros s -> Hs. rewrite getDelivery_eq. cbn [fst].
    unfold Routes.put_delivery_status. rewrite Hs.
    unfold MemStorage.getDelivery. run_handler.
    split; [|split].
    + intros H. injection H as H. now rewrite H.
    + intros delivery H Hsender Htraveler. injection H as H. rewrite H.
      apply Z.eqb_neq in Hsender, Htraveler.
      now rewrite Hsender, Htraveler.
    + intros delivery H Hparty. injection H as H. rewrite H.
      assert (Hcheck : (negb (Delivery.senderId delivery =? userId)
                        && negb (Delivery.travelerId delivery =? userId))%bool
                       = false).
      { destruct Hparty as [He|He]; apply Z.eqb_eq in He; rewrite He;
          cbn [negb andb]; [reflexivity|apply Bool.andb_false_r]. }
      rewrite Hcheck.
      now rewrite (updateDeliveryStatus_found _ s now _ _ H).
Qed.

(** X23.  [PUT /api/deliveries/:id/payment] answers 401 without a session,
    400 when the body carries no payment status or an empty one, 404 when
    the identifier names no delivery and 403 when the user of the session
    is not the sender of the delivery, the traveler included, and in
    these cases leaves the store as it is.  For the sender it answers 200
    with the delivery under the payment status of the body and leaves the
    store that [updatePaymentStatus] makes. *)
Theorem put_delivery_payment_only_by_sender
    (st : MemStorage.t) (deliveryId : Z) (paymentStatus : option string)
    (now : Date) :
  Routes.put_delivery_payment None deliveryId paymentStatus now st
  = (Returned (Routes.mkResponse 401 (Routes.Message "Not authenticated")),
     st)
  /\ forall userId,
      (Routes.present paymentStatus = false ->
       Routes.put_delivery_payment (Some userId) deliveryId paymentStatus
         now st
       = (Returned
            (Routes.mkResponse 400
               (Routes.Message "Payment status is required")), st))
      /\ (forall s,
             paymentStatus = Some s -> JsString.truthy s = true ->
             (fst (MemStorage.getDelivery deliveryId st) = Returned None ->
              Routes.put_delivery_payment (Some userId) deliveryId
                paymentStatus now st
              = (Returned
                   (Routes.mkResponse 404
                      (Routes.Message "Delivery not found")), st))
             /\ (forall delivery,
                    fst (MemStorage.getDelivery deliveryId st)
                    = Returned (Some delivery) ->
                    Delivery.senderId delivery <> userId ->
                    Routes.put_delivery_payment (Some userId) deliveryId
                      paymentStatus now st
                    = (Returned
                         (Routes.mkResponse 403
                            (Routes.Message
                               "Not authorized to update payment status")),
                       st))
             /\ (forall delivery,
                    fst (MemStorage.getDelivery deliveryId st)
                    = Returned (Some delivery) ->
                    Delivery.senderId delivery = userId ->
                    Routes.put_delivery_payment (Some userId) deliveryId
                      paymentStatus now st
                    = (Returned
                         (Routes.mkResponse 200
                            (Routes.Json
                               (Some
                                  {| Delivery.id := Delivery.id delivery;
                                     Delivery.tripId :=
                                       Delivery.tripId delivery;
                                     Delivery.packageId :=
                                       Delivery.packageId delivery;
                                     Delivery.travelerId :=
                                       Delivery.travelerId delivery;
                                     Delivery.senderId :=
                                       Delivery.senderId delivery;
                                     Delivery.status :=
                                       Delivery.status delivery;
                                     Delivery.paymentStatus := s;
                                     Delivery.createdAt :=
                                       Delivery.createdAt delivery;
                                     Delivery.updatedAt := now |}))),
                       snd (MemStorage.updatePaymentStatus deliveryId s
                              now st)))).
Proof.
  split; [reflexivity|]. intros userId. split.
  - unfold Routes.put_delivery_payment, Routes.present.
    destruct paymentStatus as [s|]; [|reflexivity]. now intros ->.
  - intros s -> Hs. rewrite getDelivery_eq. cbn [fst].
    unfold Routes.put_delivery_payment. rewrite Hs.
    unfold MemStorage.getDelivery. run_handler.
    split; [|split].
    + intros H. injection H as H. now rewrite H.
    + intros delivery H Hsender. injection H as H. rewrite H.
      apply Z.eqb_neq in Hsender. now rewrite Hsender.
    + intros delivery H Hsender. injection H as H. rewrite H.
      apply Z.eqb_eq in Hsender. rewrite Hsender. cbn [negb].
      now rewrite (updatePaymentStatus_found _ s now _ _ H).
Qed.

Lemma createMessage_returns messageData now st :
  exists message,
    MemStorage.createMessage messageData now st
    = (Returned message, snd (MemStorage.createMessage messageData now st))
    /\ Message.senderId message = Message.Insert.senderId messageData
    /\ Message.receiverId message = Message.Insert.receiverId messageData
    /\ Message.content message = Message.Insert.content messageData
    /\ Message.isRead message = false.
Proof.
  unfold MemStorage.createMessage, MemStorage.next_messageId. run_method.
  eexists. split; [reflexivity|]. repeat split.
Qed.

(** X24.  [POST /api/messages] answers 401 without a session, 400 when the
    body lacks the receiver or the content and 404 when the receiver is
    not a stored user, and in these cases leaves the store as it is.
    Otherwise it answers 201 with the message that [createMessage] makes,
    whose sender is the user of the session whatever [senderId] the body
    carries, and which is unread. *)
Theorem post_message_sender_is_session_user
    (st : MemStorage.t) (body : Routes.message_body) (zodMessage : string)
    (now : Date) :
  Routes.post_message None body zodMessage now st
  = (Returned (Routes.mkResponse 401 (Routes.Message "Not authenticated")),
     st)
  /\ forall userId,
      (Routes.parse_message body userId = Routes.Invalid ->
       Routes.post_message (Some userId) body zodMessage now st
       = (Returned (Routes.mkResponse 400 (Routes.Message zodMessage)), st))
      /\ (forall messageData,
             Routes.parse_message body userId = Routes.Valid messageData ->
             Message.Insert.senderId messageData = userId
             /\ (fst (MemStorage.getUser
                        (Message.Insert.receiverId messageData) st)
                 = Returned None ->
                 Routes.post_message (Some userId) body zodMessage now st
                 = (Returned
                      (Routes.mkResponse 404
                         (Routes.Message "Receiver not found")), st))
             /\ (forall receiverUser,
                    fst (MemStorage.getUser
                           (Message.Insert.receiverId messageData) st)
                    = Returned (Some receiverUser) ->
                    exists message,
                      fst (MemStorage.createMessage messageData now st)
                      = Returned message
                      /\ Message.senderId message = userId
                      /\ Message.isRead message = false
                      /\ Routes.post_message (Some userId) body zodMessage
                           now st
                         = (Returned
                              (Routes.mkResponse 201 (Routes.Json message)),
                            snd (MemStorage.createMessage messageData
                                   now st)))).
Proof.
  split; [reflexivity|]. intros userId.
  unfold Routes.post_message. split.
  - intros ->. reflexivity.
  - intros messageData Hparse. rewrite Hparse.
    assert (Hsender : Message.Insert.senderId messageData = userId).
    { unfold Routes.parse_message in Hparse.
      destruct (Routes.message_receiverId body);
        destruct (Routes.message_content body); try discriminate.
      injection Hparse as <-. reflexivity. }
    split; [exact Hsender|].
    rewrite getUser_eq. cbn [fst].
    unfold MemStorage.getUser. run_handler. split.
    + intros H. injection H as H. now rewrite H.
    + intros receiverUser H. injection H as H. rewrite H.
      destruct (createMessage_returns messageData now st)
        as (message & Hrun & Hs & _ & _ & Hread).
      exists message. rewrite Hrun. cbn [fst snd].
      repeat split; [congruence|exact Hread].
Qed.

Lemma createReview_returns reviewData now st :
  exists review,
    MemStorage.createReview reviewData now st
    = (Returned review, snd (MemStorage.createReview reviewData now st))
    /\ Review.reviewerId review = Review.Insert.reviewerId reviewData
    /\ Review.revieweeId review = Review.Insert.revieweeId reviewData
    /\ Review.deliveryId review = Review.Insert.deliveryId reviewData
    /\ Review.rating review = Review.Insert.rating reviewData.
Proof.
  unfold MemStorage.createReview, MemStorage.next_reviewId,
    MemStorage.getUser, MemStorage.getReviewsByUserId.
  run_method.
  match goal with
  | |- context [match ?x with Some _ => _ | None => _ end] => destruct x
  end; eexists; (split; [reflexivity|]); repeat split.
Qed.

(** X25.  [POST /api/reviews] answers 401 without a session and 400 when
    the body lacks the reviewee or the rating.  A review that names a
    delivery is checked against it: 404 when the delivery does not exist,
    403 when the user of the session is neither its sender nor its
    traveler, 400 when the reviewee is neither of them; in all these cases
    the store is left as it is.  A review that names no delivery, or the
    delivery 0, is not checked.  A review that passes, which includes one
    whose reviewee is the reviewer, is answered 201 with the review that
    [createReview] makes, whose reviewer is the user of the session
    whatever [reviewerId] the body carries. *)
Theorem post_review_checks_delivery_parties
    (st : MemStorage.t) (body : Routes.review_body) (zodMessage : string)
    (now : Date) :
  Routes.post_review None body zodMessage now st
  = (Returned (Routes.mkResponse 401 (Routes.Message "Not authenticated")),
     st)
  /\ forall userId,
      (Routes.parse_review body userId = Routes.Invalid ->
       Routes.post_review (Some userId) body zodMessage now st
       = (Returned (Routes.mkResponse 400 (Routes.Message zodMessage)), st))
      /\ (forall reviewData,
             Routes.parse_review body userId = Routes.Valid reviewData ->
             let created :=
               exists review,
                 fst (MemStorage.createReview reviewData now st)
                 = Returned review
                 /\ Review.reviewerId review = userId
                 /\ Routes.post_review (Some userId) body zodMessage now st
                    = (Returned
                         (Routes.mkResponse 201 (Routes.Json review)),
                       snd (MemStorage.createReview reviewData now st)) in
             (Routes.truthy_number (Review.Insert.deliveryId reviewData)
              = false -> created)
             /\ (forall deliveryId,
                    Review.Insert.deliveryId reviewData = Some deliveryId ->
                    deliveryId <> 0 ->
                    (fst (MemStorage.getDelivery deliveryId st)
                     = Returned None ->
                     Routes.post_review (Some userId) body zodMessage now st
                     = (Returned
                          (Routes.mkResponse 404
                             (Routes.Message "Delivery not found")), st))
                    /\ (forall delivery,
                           fst (MemStorage.getDelivery deliveryId st)
                           = Returned (Some delivery) ->
                           let party x :=
                             Delivery.senderId delivery = x
                             \/ Delivery.travelerId delivery = x in
                           (~ party userId ->
                            Routes.post_review (Some userId) body zodMessage
                              now st
                            = (Returned
                                 (Routes.mkResponse 403
                                    (Routes.Message
                                    "Not authorized to review this delivery")),
                               st))
                           /\ (party userId ->
                               ~ party (Review.Insert.revieweeId reviewData) ->
                               Routes.post_review (Some userId) body
                                 zodMessage now st
                               = (Returned
                                    (Routes.mkResponse 400
                                       (Routes.Message
                                     "Reviewee must be part of the delivery")),
                                  st))
                           /\ (party userId ->
                               party (Review.Insert.revieweeId reviewData) ->
                               created)))).
Proof.
  split; [reflexivity|]. intros userId.
  unfold Routes.post_review. split.
  - intros ->. reflexivity.
  - intros reviewData Hparse. rewrite Hparse.
    assert (Hreviewer : Review.Insert.reviewerId reviewData = userId).
    { unfold Routes.parse_review in Hparse.
      destruct (Routes.review_revieweeId body);
        destruct (Routes.review_rating body); try discriminate.
      injection Hparse as <-. reflexivity. }
    assert (Hcreate :
              exists review,
                fst (MemStorage.createReview reviewData now st)
                = Returned review
                /\ Review.reviewerId review = userId
                /\ Routes.try_catch
                     (Method.bind (MemStorage.createReview reviewData now)
                                  (fun review => Routes.respond 201 review))
                     (Routes.refuse 500 "Failed to create review") st
                   = (Returned (Routes.mkResponse 201 (Routes.Json review)),
                      snd (MemStorage.createReview reviewData now st))).
    { destruct (createReview_returns reviewData now st)
        as (review & Hrun & Hr & _).
      exists review. run_handler. rewrite Hrun. cbn [fst snd].
      repeat split. congruence. }
    cbv zeta. split.
    + unfold Routes.truthy_number.
      destruct (Review.Insert.deliveryId reviewData) as [d|];
        [|intros _; exact Hcreate].
      intros Hd. rewrite Hd. exact Hcreate.
    + intros deliveryId -> Hnz. apply Z.eqb_neq in Hnz. rewrite Hnz.
      cbn [negb]. rewrite getDelivery_eq. cbn [fst]. split.
      * intros H. injection H as H.
        unfold MemStorage.getDelivery. run_handler. now rewrite H.
      * intros delivery H. injection H as H.
        assert (Hparty : forall x,
                   (negb (Delivery.senderId delivery =? x)
                    && negb (Delivery.travelerId delivery =? x))%bool = false
                   <-> Delivery.senderId delivery = x
                       \/ Delivery.travelerId delivery = x).
        { intros x. rewrite Bool.andb_false_iff, !Bool.negb_false_iff,
            !Z.eqb_eq. reflexivity. }
        assert (Hnot : forall x,
                   ~ (Delivery.senderId delivery = x
                      \/ Delivery.travelerId delivery = x) ->
                   (negb (Delivery.senderId delivery =? x)
                    && negb (Delivery.travelerId delivery =? x))%bool = true).
        { intros x Hx. apply Bool.not_false_is_true. intros Hf.
          apply Hx, Hparty, Hf. }
        split; [|split].
        -- intros Hu. unfold MemStorage.getDelivery. run_handler.
           rewrite H. now rewrite (Hnot _ Hu).
        -- intros Hu Hr. apply Hparty in Hu.
           unfold MemStorage.getDelivery. run_handler.
           rewrite H, Hu.
           rewrite !(Z.eqb_sym (Review.Insert.revieweeId reviewData)).
           now rewrite (Hnot _ Hr).
        -- intros Hu Hr. apply Hparty in Hu, Hr.
           destruct Hcreate as (review & Hret & Hrev & Hrun).
           exists review. split; [exact Hret|]. split; [exact Hrev|].
           rewrite <- Hrun.
           unfold MemStorage.getDelivery. run_handler.
           rewrite H, Hu.
           rewrite !(Z.eqb_sym (Review.Insert.revieweeId reviewData)).
           rewrite Hr. reflexivity.
Qed.

Lemma verification_of_names verificationType :
  Routes.verification_of verificationType <> None
  <-> verificationType = "idVerified"
      \/ verificationType = "phoneVerified"
      \/ verificationType = "addressVerified".
Proof.
  unfold Routes.verification_of. split.
  - destruct (String.eqb_spec verificationType "idVerified");
      [now left|].
    destruct (String.eqb_spec verificationType "phoneVerified");
      [now right; left|].
    destruct (String.eqb_spec verificationType "addressVerified");
      [now right; right|]. congruence.
  - intros [-> | [-> | ->]]; discriminate.
Qed.

Lemma verification_of_flags name old :
  name = "idVerified" \/ name = "phoneVerified" \/ name = "addressVerified" ->
  exists data,
    Routes.verification_of name = Some data
    /\ User.Verification.spread old data
       = {| User.Verification.idVerified :=
              (String.eqb name "idVerified"
               || User.Verification.idVerified old)%bool;
            User.Verification.phoneVerified :=
              (String.eqb name "phoneVerified"
               || User.Verification.phoneVerified old)%bool;
            User.Verification.addressVerified :=
              (String.eqb name "addressVerified"
               || User.Verification.addressVerified old)%bool |}.
Proof.
  destruct old as [i p a].
  intros [-> | [-> | ->]]; eexists; (split; [reflexivity|]); reflexivity.
Qed.

(** X26.  [POST /api/verification] answers 401 without a session and 400
    when the body carries no verification type or one that is not
    "idVerified", "phoneVerified" or "addressVerified"; with one of the
    three it answers 500 when the user of the session is not stored; in
    these cases the store is left as it is.  Otherwise it answers 200 with
    the stored flags, the named one now true and the other two as they
    were, and with [isVerified] true exactly when all three are true, and
    stores the user with these and no other change of the identifier, the
    e-mail address, the rating or the number of reviews. *)
Theorem post_verification_sets_named_flag
    (st : MemStorage.t) (verificationType : option string) :
  Routes.post_verification None verificationType st
  = (Returned (Routes.mkResponse 401 (Routes.Message "Not authenticated")),
     st)
  /\ forall userId,
      ((forall name, verificationType = Some name ->
                     name <> "idVerified" /\ name <> "phoneVerified"
                     /\ name <> "addressVerified") ->
       Routes.post_verification (Some userId) verificationType st
       = (Returned
            (Routes.mkResponse 400
               (Routes.Message "Invalid verification type")), st))
      /\ (forall name,
             verificationType = Some name ->
             name = "idVerified" \/ name = "phoneVerified"
             \/ name = "addressVerified" ->
             (fst (MemStorage.getUser userId st) = Returned None ->
              Routes.post_verification (Some userId) verificationType st
              = (Returned
                   (Routes.mkResponse 500
                      (Routes.Message "Verification failed")), st))
             /\ (forall user,
                    fst (MemStorage.getUser userId st)
                    = Returned (Some user) ->
                    let old := User.verificationStatus user in
                    let new :=
                      {| User.Verification.idVerified :=
                           (String.eqb name "idVerified"
                            || User.Verification.idVerified old)%bool;
                         User.Verification.phoneVerified :=
                           (String.eqb name "phoneVerified"
                            || User.Verification.phoneVerified old)%bool;
                         User.Verification.addressVerified :=
                           (String.eqb name "addressVerified"
                            || User.Verification.addressVerified old)%bool
                      |} in
                    let all :=
                      (User.Verification.idVerified new
                       && User.Verification.phoneVerified new
                       && User.Verification.addressVerified new)%bool in
                    exists updatedUser,
                      Routes.post_verification (Some userId)
                        verificationType st
                      = (Returned
                           (Routes.mkResponse 200 (Routes.Json (new, all))),
                         MemStorage.set_users
                           (JsMap.set userId updatedUser
                                      (MemStorage.users st)) st)
                      /\ User.verificationStatus updatedUser = new
                      /\ User.isVerified updatedUser = all
                      /\ User.id updatedUser = User.id user
                      /\ User.email updatedUser = User.email user
                      /\ User.rating updatedUser = User.rating user
                      /\ User.reviewCount updatedUser
                         = User.reviewCount user)).
Proof.
  split; [reflexivity|]. intros userId. split.
  - intros Hbad. unfold Routes.post_verification.
    destruct verificationType as [name|]; [|reflexivity].
    destruct (Routes.verification_of name) eqn:E; [|reflexivity].
    exfalso.
    assert (Hname : Routes.verification_of name <> None) by congruence.
    apply verification_of_names in Hname.
    destruct (Hbad name eq_refl) as (H1 & H2 & H3).
    destruct Hname as [?|[?|?]]; contradiction.
  - intros name -> Hname. rewrite getUser_eq. cbn [fst].
    unfold Routes.post_verification. split.
    + intros H. injection H as H.
      destruct (verification_of_flags name
                  (User.Verification.mk false false false) Hname)
        as (data & -> & _).
      unfold MemStorage.updateUserVerification, MemStorage.getUser.
      run_handler. rewrite H. reflexivity.
    + intros user H. injection H as H. cbv zeta.
      destruct (verification_of_flags name (User.verificationStatus user)
                  Hname) as (data & -> & Hnew).
      destruct (updateUserVerification_found userId user data st H)
        as (user' & Hrun & Hvs & Hcons & Hid & Hemail & Hrating & Hcount).
      exists user'. rewrite Hnew in Hvs. unfold verified_consistent in Hcons.
      rewrite Hvs in Hcons.
      run_handler. rewrite Hrun, Hvs, Hcons.
      repeat split; assumption.
Qed.

(** ** Reading a conversation *)

Lemma read_read message :
  Routes.read (Routes.read message) = Routes.read message.
Proof. reflexivity. Qed.

Lemma read_already message :
  Message.isRead message = true -> Routes.read message = message.
Proof. destruct message; simpl; now intros ->. Qed.

Lemma read_at_ext p q m :
  (forall k, In k (JsMap.keys m) -> p k = q k) -> read_at p m = read_at q m.
Proof.
  intros H. unfold read_at. apply map_ext_in. intros [k v] Hin. simpl.
  rewrite (H k); [reflexivity|].
  unfold JsMap.keys. apply in_map_iff. now exists (k, v).
Qed.

Lemma set_read_at p m id message :
  NoDup (JsMap.keys m) -> JsMap.get id m = Some message ->
  JsMap.set id (Routes.read message) (read_at p m)
  = read_at (fun k => p k || (k =? id))%bool m.
Proof.
  induction m as [|[k v] m IH]; simpl; [discriminate|].
  intros Hnd Hget. inversion Hnd as [|? ? Hnot Hnd']; subst.
  destruct (Z.eqb_spec id k) as [->|Hk].
  - injection Hget as ->. rewrite Z.eqb_refl, Bool.orb_true_r. f_equal.
    apply read_at_ext. intros k' Hk'.
    destruct (Z.eqb_spec k' k) as [->|_]; [contradiction|].
    now rewrite Bool.orb_false_r.
  - destruct (Z.eqb_spec k id) as [E|_]; [congruence|].
    rewrite Bool.orb_false_r. f_equal. now apply IH.
Qed.

Lemma read_at_absent p m id :
  JsMap.get id m = None ->
  read_at (fun k => p k || (k =? id))%bool m = read_at p m.
Proof.
  intros Hget. apply get_None_iff in Hget. apply read_at_ext.
  intros k Hk. destruct (Z.eqb_spec k id) as [->|_]; [contradiction|].
  apply Bool.orb_false_r.
Qed.

(** The writes of [mark_received_as_read], one call after another. *)
Lemma mark_writes m0 ids : forall p st,
  NoDup (JsMap.keys m0) ->
  MemStorage.messages st = read_at p m0 ->
  fold_left
    (fun st call =>
       match snd call with
       | None => st
       | Some message =>
           MemStorage.set_messages
             (JsMap.set (fst call) (Routes.read message)
                        (MemStorage.messages st)) st
       end)
    (map (fun id => (id, JsMap.get id m0)) ids) st
  = MemStorage.set_messages
      (read_at (fun k => p k || existsb (Z.eqb k) ids)%bool m0) st.
Proof.
  induction ids as [|id ids IH]; intros p st Hnd Hst; simpl.
  - rewrite (read_at_ext _ p) by (intros k _; apply Bool.orb_false_r).
    rewrite <- Hst. now destruct st.
  - destruct (JsMap.get id m0) as [message|] eqn:Hget.
    + rewrite (IH (fun k => p k || (k =? id))%bool).
      * unfold MemStorage.set_messages. simpl. f_equal.
        apply read_at_ext. intros k _. now rewrite Bool.orb_assoc.
      * exact Hnd.
      * simpl. rewrite Hst. now apply set_read_at.
    + rewrite (IH p _ Hnd Hst). f_equal.
      rewrite <- (read_at_absent (fun k => p k || existsb (Z.eqb k) ids)%bool
                    m0 id Hget).
      apply read_at_ext. intros k _.
      now rewrite <- !Bool.orb_assoc, (Bool.orb_comm (k =? id)).
Qed.

Lemma read_at_none m : read_at (fun _ => false) m = m.
Proof.
  unfold read_at. rewrite <- (map_id m) at 2. apply map_ext.
  now intros [k v].
Qed.

Lemma mark_received_as_read_eq userId messages st :
  NoDup (JsMap.keys (MemStorage.messages st)) ->
  Routes.mark_received_as_read userId messages st
  = (Returned tt,
     MemStorage.set_messages
       (read_at
          (fun k =>
             existsb (Z.eqb k)
                     (map Message.id
                          (filter (Routes.unread_by userId) messages)))
          (MemStorage.messages st)) st).
Proof.
  intros Hnd. unfold Routes.mark_received_as_read. run_method.
  f_equal. rewrite <- (map_map Message.id
                         (fun id =>
                            (id, JsMap.get id (MemStorage.messages st)))).
  rewrite (mark_writes _ _ (fun _ => false) st Hnd).
  - reflexivity.
  - symmetry. apply read_at_none.
Qed.

Lemma sent_exchanged sender receiver message :
  sent sender receiver message = true ->
  (((Message.senderId message =? receiver)
    && (Message.receiverId message =? sender))
   || ((Message.senderId message =? sender)
       && (Message.receiverId message =? receiver)))%bool = true.
Proof. unfold sent. intros ->. apply Bool.orb_true_r. Qed.

Lemma unread_exchanged_sent userId otherUserId message :
  Routes.unread_by userId message = true ->
  exchanged userId otherUserId message ->
  sent otherUserId userId message = true.
Proof.
  unfold Routes.unread_by, exchanged, sent.
  rewrite !Bool.andb_true_iff, !Z.eqb_eq. intros [Hr _] [[Hs Hr']|[Hs _]].
  - split; congruence.
  - split; assumption.
Qed.

Lemma read_at_received st userId otherUserId messages :
  well_formed st ->
  fst (MemStorage.getMessagesBetweenUsers userId otherUserId st)
  = Returned messages ->
  read_at
    (fun k =>
       existsb (Z.eqb k)
               (map Message.id (filter (Routes.unread_by userId) messages)))
    (MemStorage.messages st)
  = marked_read otherUserId userId (MemStorage.messages st).
Proof.
  intros Hst Hmessages.
  destruct Hst as (_ & _ & _ & _ & (_ & Hnd & _) & _ & _ & _ & Hids & _).
  unfold MemStorage.getMessagesBetweenUsers, Method.gets in Hmessages.
  cbn [fst] in Hmessages. injection Hmessages as <-.
  unfold read_at, marked_read. apply map_ext_in. intros [k v] Hin.
  cbn [fst snd]. f_equal.
  assert (Hlisted : forall message,
             In message
                (JsArray.sort
                   (fun a b => Message.createdAt a - Message.createdAt b)
                   (filter
                      (fun message =>
                         ((Message.senderId message =? userId)
                          && (Message.receiverId message =? otherUserId))
                         || ((Message.senderId message =? otherUserId)
                             && (Message.receiverId message =? userId)))%bool
                      (JsMap.values (MemStorage.messages st))))
             <-> In message (JsMap.values (MemStorage.messages st))
                 /\ exchanged userId otherUserId message).
  { intros message. rewrite In_sort_iff, filter_In, exchanged_test.
    reflexivity. }
  assert (Hv : In v (JsMap.values (MemStorage.messages st))).
  { unfold JsMap.values. apply in_map_iff. now exists (k, v). }
  destruct (existsb _ _) eqn:E.
  - apply existsb_exists in E. destruct E as (id & Hid & Hk).
    apply Z.eqb_eq in Hk. subst id.
    apply in_map_iff in Hid. destruct Hid as (message & Hk & Hmessage).
    apply filter_In in Hmessage. destruct Hmessage as [Hmessage Hunread].
    apply Hlisted in Hmessage. destruct Hmessage as [Hstored Hexchanged].
    unfold JsMap.values in Hstored. apply in_map_iff in Hstored.
    destruct Hstored as ([k' message'] & E & Hstored). simpl in E. subst.
    rewrite (Hids _ _ Hstored) in Hin.
    pose proof (get_In_NoDup _ _ _ Hnd Hin) as G1.
    pose proof (get_In_NoDup _ _ _ Hnd Hstored) as G2.
    rewrite G1 in G2. injection G2 as ->.
    now rewrite (unread_exchanged_sent _ _ _ Hunread Hexchanged).
  - destruct (sent otherUserId userId v) eqn:S; [|reflexivity].
    destruct (Message.isRead v) eqn:R;
      [symmetry; now apply read_already|].
    exfalso. rewrite <- Bool.not_true_iff_false in E. apply E.
    apply existsb_exists. exists k. split; [|apply Z.eqb_refl].
    apply in_map_iff. exists v. split; [now apply Hids|].
    apply filter_In. split.
    + apply Hlisted. split; [exact Hv|].
      apply exchanged_test. now apply sent_exchanged in S.
    + unfold Routes.unread_by. rewrite R.
      unfold sent in S. apply Bool.andb_true_iff in S.
      now rewrite (proj2 S).
Qed.

(** X27.  [GET /api/messages/:userId] answers 401 without a session.  With
    one, on a store that the methods have built, it leaves a store in
    which every message that the other user sent to the user of the
    session is read and everything else is as before, whether it answers
    404 because the other user is not stored or 200.  The 200 response
    carries the messages that the two exchanged, oldest first, as
    [getMessagesBetweenUsers] returned them before they were marked, with
    the name and the image of the other user. *)
Theorem get_messages_with_marks_received_as_read
    (st : MemStorage.t) (userId otherUserId : Z) :
  Routes.get_messages_with None otherUserId st
  = (Returned (Routes.mkResponse 401 (Routes.Message "Not authenticated")),
     st)
  /\ (well_formed st ->
      let st' :=
        MemStorage.set_messages
          (marked_read otherUserId userId (MemStorage.messages st)) st in
      (fst (MemStorage.getUser otherUserId st) = Returned None ->
       Routes.get_messages_with (Some userId) otherUserId st
       = (Returned
            (Routes.mkResponse 404 (Routes.Message "User not found")), st'))
      /\ (forall otherUser,
             fst (MemStorage.getUser otherUserId st)
             = Returned (Some otherUser) ->
             exists messages,
               fst (MemStorage.getMessagesBetweenUsers userId otherUserId st)
               = Returned messages
               /\ Routes.get_messages_with (Some userId) otherUserId st
                  = (Returned
                       (Routes.mkResponse 200
                          (Routes.Json
                             (messages, Routes.summary otherUser))), st'))).
Proof.
  split; [reflexivity|]. intros Hst st'.
  assert (Hnd : NoDup (JsMap.keys (MemStorage.messages st))).
  { now destruct Hst as (_ & _ & _ & _ & (_ & Hnd & _) & _). }
  destruct (MemStorage.getMessagesBetweenUsers userId otherUserId st)
    as [o st0] eqn:Hlist.
  assert (Hlist' : exists messages, o = Returned messages /\ st0 = st).
  { unfold MemStorage.getMessagesBetweenUsers, Method.gets in Hlist.
    injection Hlist as <- <-. eexists. split; reflexivity. }
  destruct Hlist' as (messages & -> & ->).
  assert (Hrun : forall A (k : list Message.t -> option User.t
                                -> Method.t MemStorage.t A),
             Method.bind
               (MemStorage.getMessagesBetweenUsers userId otherUserId)
               (fun messages =>
                  Method.bind
                    (Routes.mark_received_as_read userId messages)
                    (fun _ =>
                       Method.bind (MemStorage.getUser otherUserId)
                                   (k messages)))
               st
             = k messages (JsMap.get otherUserId (MemStorage.users st)) st').
  { intros A k. unfold Method.bind at 1. rewrite Hlist.
    unfold Method.bind at 1.
    rewrite (mark_received_as_read_eq _ _ _ Hnd).
    rewrite (read_at_received st userId otherUserId messages Hst)
      by now rewrite Hlist.
    unfold Method.bind, MemStorage.getUser, Method.gets. reflexivity. }
  rewrite getUser_eq. cbn [fst]. split.
  - intros H. injection H as H.
    unfold Routes.get_messages_with, Routes.try_catch.
    rewrite Hrun, H. reflexivity.
  - intros otherUser H. injection H as H. exists messages.
    split; [reflexivity|].
    unfold Routes.get_messages_with, Routes.try_catch.
    rewrite Hrun, H. reflexivity.
Qed.

(** ** The list of conversations *)

Lemma filter_snoc {A : Type} (f : A -> bool) l x :
  filter f (l ++ [x]) = filter f l ++ (if f x then [x] else []).
Proof. rewrite filter_app. simpl. now destruct (f x). Qed.

Lemma NoDup_keys_set {V : Type} (m : JsMap.t V) k v :
  NoDup (JsMap.keys m) -> NoDup (JsMap.keys (JsMap.set k v m)).
Proof.
  intros Hnd. destruct (in_dec Z.eq_dec k (JsMap.keys m)) as [Hin|Hout].
  - now rewrite keys_set_present.
  - rewrite set_absent by exact Hout. unfold JsMap.keys in *.
    rewrite map_app. simpl. apply NoDup_app; [exact Hnd| |].
    + repeat constructor. intros [].
    + intros x Hx [<-|[]]. now apply Hout.
Qed.

Lemma group_message_reads userId message conversations st :
  exists conversations',
    Routes.group_message userId message conversations st
    = (Returned conversations', st).
Proof.
  unfold Routes.group_message, MemStorage.getUser. run_method.
  destruct (JsMap.get _ conversations); [eexists; reflexivity|].
  destruct (JsMap.get _ (MemStorage.users st)); eexists; reflexivity.
Qed.

Lemma group_messages_snoc userId message st : forall messages conversations,
  Routes.group_messages userId (messages ++ [message]) conversations st
  = Method.bind (Routes.group_messages userId messages conversations)
                (Routes.group_message userId message) st.
Proof.
  induction messages as [|m messages IH]; intros conversations;
    cbn [app Routes.group_messages].
  - destruct (group_message_reads userId message conversations st)
      as (conversations' & Hrun).
    unfold Method.bind, Method.ret. now rewrite Hrun.
  - destruct (group_message_reads userId m conversations st)
      as (conversations1 & Hrun1).
    unfold Method.bind in *. rewrite Hrun1. apply IH.
Qed.

Lemma latest_snoc first rest message :
  latest first (rest ++ [message])
  = if Message.createdAt (latest first rest) <? Message.createdAt message
    then message else latest first rest.
Proof. unfold latest. now rewrite fold_left_app. Qed.

Lemma unread_count_snoc userId messages message :
  unread_count userId (messages ++ [message])
  = if Routes.unread_by userId message
    then unread_count userId messages + 1
    else unread_count userId messages.
Proof.
  unfold unread_count. rewrite filter_snoc, length_app.
  destruct (Routes.unread_by userId message); simpl; lia.
Qed.

Lemma messages_with_snoc userId otherUserId messages message :
  messages_with userId otherUserId (messages ++ [message])
  = messages_with userId otherUserId messages
    ++ (if Routes.otherUserId userId message =? otherUserId
        then [message] else []).
Proof. unfold messages_with. now rewrite filter_snoc. Qed.

(** One turn of the loop. *)
Lemma group_message_step st userId messages message conversations :
  (forall k, JsMap.get k conversations
             = conversation_with (MemStorage.users st) userId messages k) ->
  exists conversations',
    Routes.group_message userId message conversations st
    = (Returned conversations', st)
    /\ (NoDup (JsMap.keys conversations) ->
        NoDup (JsMap.keys conversations'))
    /\ forall k, JsMap.get k conversations'
                 = conversation_with (MemStorage.users st) userId
                     (messages ++ [message]) k.
Proof.
  intros Hinv.
  pose proof (Hinv (Routes.otherUserId userId message)) as Hother.
  unfold Routes.group_message, MemStorage.getUser. run_method.
  unfold conversation_with in Hother |- *.
  destruct (JsMap.get (Routes.otherUserId userId message) conversations)
    as [conversation|] eqn:Hget.
  - (* the conversation exists *)
    eexists. split; [reflexivity|]. split; [apply NoDup_keys_set|].
    intros k. rewrite messages_with_snoc.
    destruct (Z.eqb_spec (Routes.otherUserId userId message) k) as [<-|Hk].
    + rewrite get_set_same.
      destruct (JsMap.get (Routes.otherUserId userId message)
                          (MemStorage.users st)) as [otherUser|];
        [|discriminate].
      destruct (messages_with userId (Routes.otherUserId userId message)
                              messages) as [|first rest];
        [discriminate|].
      injection Hother as ->. cbn [app Routes.user Routes.lastMessage
                                   Routes.unreadCount].
      rewrite latest_snoc.
      change (first :: rest ++ [message])
        with ((first :: rest) ++ [message]).
      now rewrite unread_count_snoc.
    + rewrite get_set_other by exact Hk. rewrite app_nil_r.
      apply (Hinv k).
  - (* no conversation yet *)
    destruct (JsMap.get (Routes.otherUserId userId message)
                        (MemStorage.users st)) as [otherUser|] eqn:Huser.
    + eexists. split; [reflexivity|]. split; [apply NoDup_keys_set|].
      intros k. rewrite messages_with_snoc.
      destruct (Z.eqb_spec (Routes.otherUserId userId message) k)
        as [<-|Hk].
      * rewrite get_set_same, Huser.
        destruct (messages_with userId (Routes.otherUserId userId message)
                                messages) as [|first rest];
          [|discriminate].
        cbn [app]. unfold latest, unread_count. cbn [fold_left filter].
        now destruct (Routes.unread_by userId message).
      * rewrite get_set_other by exact Hk. rewrite app_nil_r.
        apply (Hinv k).
    + eexists. split; [reflexivity|]. split; [tauto|].
      intros k. rewrite messages_with_snoc.
      destruct (Z.eqb_spec (Routes.otherUserId userId message) k)
        as [<-|Hk].
      * rewrite Hget, Huser. reflexivity.
      * rewrite app_nil_r. apply (Hinv k).
Qed.

(** The loop. *)
Lemma group_messages_run st userId messages :
  exists conversations,
    Routes.group_messages userId messages JsMap.empty st
    = (Returned conversations, st)
    /\ NoDup (JsMap.keys conversations)
    /\ forall k, JsMap.get k conversations
                 = conversation_with (MemStorage.users st) userId messages k.
Proof.
  induction messages as [|message messages IH] using rev_ind.
  - exists JsMap.empty. split; [reflexivity|]. split; [constructor|].
    intros k. unfold conversation_with, messages_with. simpl.
    now destruct (JsMap.get k (MemStorage.users st)).
  - destruct IH as (conversations & Hrun & Hnd & Hinv).
    destruct (group_message_step st userId messages message conversations
                Hinv) as (conversations' & Hstep & Hnd' & Hinv').
    exists conversations'. rewrite group_messages_snoc.
    unfold Method.bind. rewrite Hrun, Hstep. auto.
Qed.

Lemma get_messages_run st userId :
  exists messages conversations,
    MemStorage.getMessagesByUserId userId st = (Returned messages, st)
    /\ StronglySorted newest_first messages
    /\ Routes.get_messages (Some userId) st
       = (Returned
            (Routes.mkResponse 200
               (Routes.Json (JsRecord.values conversations))), st)
    /\ NoDup (JsMap.keys conversations)
    /\ forall k, JsMap.get k conversations
                 = conversation_with (MemStorage.users st) userId messages k.
Proof.
  eexists.
  destruct (group_messages_run st userId
              (JsArray.sort
                 (fun a b => Message.createdAt b - Message.createdAt a)
                 (filter
                    (fun message =>
                       (Message.senderId message =? userId)
                       || (Message.receiverId message =? userId))%bool
                    (JsMap.values (MemStorage.messages st)))))
    as (conversations & Hrun & Hnd & Hinv).
  exists conversations. split; [reflexivity|].
  split; [apply sort_newest_first|]. split; [|split; assumption].
  unfold Routes.get_messages, MemStorage.getMessagesByUserId. run_handler.
  now rewrite Hrun.
Qed.

Lemma In_record_values {V : Type} (o : JsRecord.t V) v :
  NoDup (JsMap.keys o) ->
  In v (JsRecord.values o) <-> exists k, JsMap.get k o = Some v.
Proof.
  intros Hnd. unfold JsRecord.values.
  rewrite in_app_iff, !in_map_iff. split.
  - intros [([k v'] & E & Hin)|([k v'] & E & Hin)]; simpl in E; subst v';
      exists k; apply get_In_NoDup; try exact Hnd.
    + apply In_sort_iff in Hin. now apply filter_In in Hin.
    + now apply filter_In in Hin.
  - intros (k & Hget). apply get_Some_In in Hget.
    destruct (JsRecord.is_index k) eqn:E; [left|right]; exists (k, v);
      (split; [reflexivity|]).
    + apply In_sort_iff. apply filter_In. now split.
    + apply filter_In. split; [exact Hget|]. simpl. now rewrite E.
Qed.

Lemma StronglySorted_filter {A : Type} (R : A -> A -> Prop) f l :
  StronglySorted R l -> StronglySorted R (filter f l).
Proof.
  induction 1 as [|x l Hl IH Hx]; simpl; [constructor|].
  destruct (f x); [|exact IH]. constructor; [exact IH|].
  apply Forall_forall. intros y Hy. apply filter_In in Hy.
  rewrite Forall_forall in Hx. now apply Hx.
Qed.

Lemma latest_first first rest :
  Forall (newest_first first) rest -> latest first rest = first.
Proof.
  unfold latest, newest_first. induction 1 as [|message rest Hm _ IH]; simpl;
    [reflexivity|].
  destruct (Z.ltb_spec (Message.createdAt first) (Message.createdAt message));
    [lia | exact IH].
Qed.

Lemma conversation_with_newest_first users userId messages otherUserId :
  StronglySorted newest_first messages ->
  conversation_with users userId messages otherUserId
  = match JsMap.get otherUserId users with
    | None => None
    | Some otherUser =>
        match messages_with userId otherUserId messages with
        | [] => None
        | first :: rest =>
            Some {| Routes.user := Routes.summary otherUser;
                    Routes.lastMessage := first;
                    Routes.unreadCount :=
                      unread_count userId (first :: rest) |}
        end
    end.
Proof.
  intros Hsorted. unfold conversation_with.
  destruct (JsMap.get otherUserId users) as [otherUser|]; [|reflexivity].
  pose proof (StronglySorted_filter _
                (fun message => Routes.otherUserId userId message
                                =? otherUserId) _ Hsorted) as Hwith.
  fold (messages_with userId otherUserId messages) in Hwith.
  destruct (messages_with userId otherUserId messages) as [|first rest];
    [reflexivity|].
  inversion Hwith; subst. now rewrite latest_first.
Qed.

Lemma filter_split_Permutation {A : Type} (f : A -> bool) l :
  Permutation (filter f l ++ filter (fun x => negb (f x)) l) l.
Proof.
  induction l as [|x l IH]; simpl; [constructor|].
  destruct (f x); simpl; [now constructor|].
  apply Permutation_sym, Permutation_cons_app, Permutation_sym, IH.
Qed.

Lemma record_values_keys {V : Type} (key : V -> Z) (o : JsRecord.t V) :
  (forall k v, In (k, v) o -> key v = k) ->
  Permutation (map key (JsRecord.values o)) (JsMap.keys o).
Proof.
  intros Hkey. unfold JsRecord.values, JsMap.keys.
  rewrite <- map_app, map_map.
  set (listed := _ ++ _).
  assert (Hlisted : Permutation listed o).
  { unfold listed. rewrite sort_Permutation.
    apply filter_split_Permutation. }
  rewrite (map_ext_in (fun p => key (snd p)) fst).
  - now apply Permutation_map.
  - intros [k v] Hin. apply Hkey.
    now apply (Permutation_in _ Hlisted).
Qed.

(** X28.  [GET /api/messages] answers 401 without a session.  With one it
    leaves the store as it is and answers 200 with exactly one entry for
    every stored user with whom the user of the session exchanged a
    message: it carries the name and the image of that user, the newest
    of the messages that the two exchanged (the first of them in the
    order of [getMessagesByUserId]) and the number of those that the user
    of the session received and has not read.  Messages exchanged with a
    user who is not stored make no entry, and no two entries of the
    answer are for the same other user. *)
Theorem get_messages_lists_conversations (st : MemStorage.t) (userId : Z) :
  Routes.get_messages None st
  = (Returned (Routes.mkResponse 401 (Routes.Message "Not authenticated")),
     st)
  /\ exists messages response,
      fst (MemStorage.getMessagesByUserId userId st) = Returned messages
      /\ Routes.get_messages (Some userId) st
         = (Returned (Routes.mkResponse 200 (Routes.Json response)), st)
      /\ (forall c,
          In c response
          <-> exists otherUserId otherUser first rest,
              fst (MemStorage.getUser otherUserId st)
              = Returned (Some otherUser)
              /\ messages_with userId otherUserId messages = first :: rest
              /\ c = {| Routes.user := Routes.summary otherUser;
                        Routes.lastMessage := first;
                        Routes.unreadCount :=
                          unread_count userId (first :: rest) |})
      /\ NoDup (map (fun c => Routes.otherUserId userId
                                (Routes.lastMessage c)) response).
Proof.
  split; [reflexivity|].
  destruct (get_messages_run st userId)
    as (messages & conversations & Hlist & Hsorted & Hrun & Hnd & Hinv).
  exists messages, (JsRecord.values conversations).
  split; [now rewrite Hlist|]. split; [exact Hrun|].
  split.
  - intros c. rewrite (In_record_values _ _ Hnd). split.
    + intros (k & Hget). rewrite Hinv in Hget.
      rewrite (conversation_with_newest_first _ _ _ _ Hsorted) in Hget.
      destruct (JsMap.get k (MemStorage.users st)) as [otherUser|] eqn:Huser;
        [|discriminate].
      destruct (messages_with userId k messages) as [|first rest] eqn:Hwith;
        [discriminate|].
      injection Hget as <-. exists k, otherUser, first, rest.
      rewrite getUser_eq. cbn [fst]. rewrite Huser. auto.
    + intros (k & otherUser & first & rest & Huser & Hwith & ->).
      rewrite getUser_eq in Huser. cbn [fst] in Huser.
      injection Huser as Huser.
      exists k. rewrite Hinv.
      rewrite (conversation_with_newest_first _ _ _ _ Hsorted).
      now rewrite Huser, Hwith.
  - apply (Permutation_NoDup (l := JsMap.keys conversations)); [|exact Hnd].
    apply Permutation_sym, record_values_keys. intros k c Hin.
    apply (get_In_NoDup _ _ _ Hnd) in Hin. rewrite Hinv in Hin.
    rewrite (conversation_with_newest_first _ _ _ _ Hsorted) in Hin.
    destruct (JsMap.get k (MemStorage.users st)); [|discriminate].
    destruct (messages_with userId k messages) as [|first rest] eqn:Hwith;
      [discriminate|].
    injection Hin as <-. cbn [Routes.lastMessage].
    assert (Hfirst : In first (messages_with userId k messages))
      by (rewrite Hwith; now left).
    apply filter_In in Hfirst. now apply Z.eqb_eq.
Qed.

Lemma Sorted_strict_keys {V : Type} (l : list (Z * V)) :
  NoDup (map fst l) ->
  Sorted (may_precede (fun p q : Z * V => fst p - fst q)) l ->
  StronglySorted (fun p q => fst p < fst q) l.
Proof.
  intros Hnd Hsorted.
  assert (Hweak : StronglySorted (fun p q : Z * V => fst p <= fst q) l).
  { apply Sorted_StronglySorted; [intros x y z; lia|].
    eapply Sorted_mono; [|exact Hsorted].
    intros x y. unfold may_precede. lia. }
  clear Hsorted. induction Hweak as [|p l Hl IH Hp]; [constructor|].
  simpl in Hnd. inversion Hnd as [|? ? Hnot Hnd']; subst.
  constructor; [now apply IH|].
  rewrite Forall_forall in *. intros q Hq.
  specialize (Hp q Hq).
  assert (fst p <> fst q).
  { intros E. apply Hnot. rewrite E. now apply in_map. }
  lia.
Qed.

Lemma StronglySorted_map {A B : Type} (R : A -> A -> Prop)
    (S : B -> B -> Prop) (f : A -> B) l :
  (forall x y, In x l -> In y l -> R x y -> S (f x) (f y)) ->
  StronglySorted R l -> StronglySorted S (map f l).
Proof.
  intros HRS Hl. induction Hl as [|x l Hl IH Hx]; simpl; [constructor|].
  constructor.
  - apply IH. intros a b Ha Hb. apply HRS; now right.
  - rewrite Forall_forall in *. intros y Hy. apply in_map_iff in Hy.
    destruct Hy as (a & <- & Ha). apply HRS; [now left|now right|].
    now apply Hx.
Qed.

Lemma filter_none {A : Type} (f : A -> bool) l :
  (forall x, In x l -> f x = false) -> filter f l = [].
Proof.
  induction l as [|x l IH]; intros H; simpl; [reflexivity|].
  rewrite (H x) by now left. apply IH. intros y Hy. apply H. now right.
Qed.

(** X29.  On a store that the methods have built and whose user counter
    has not passed 2^32 - 1, the entries that [GET /api/messages] answers
    are in ascending order of the identifier of the other user, whatever
    the order of the messages: the handler collects them in an object
    keyed by that identifier, whose values JavaScript lists by ascending
    array index. *)
Theorem get_messages_in_order_of_user_id
    (st st' : MemStorage.t) (userId : Z)
    (response : list Routes.conversation) :
  well_formed st ->
  MemStorage.userId st <= 2 ^ 32 - 1 ->
  Routes.get_messages (Some userId) st
  = (Returned (Routes.mkResponse 200 (Routes.Json response)), st') ->
  StronglySorted by_user_id response.
Proof.
  intros Hst Hbound Hresponse.
  destruct (get_messages_run st userId)
    as (messages & conversations & _ & _ & Hrun & Hnd & Hinv).
  rewrite Hrun in Hresponse. injection Hresponse as <- _.
  destruct Hst as ((_ & _ & Hrange) & _ & _ & _ & _ & _ & Hids & _).
  assert (Hentry : forall k c,
             In (k, c) conversations ->
             JsRecord.is_index k = true
             /\ Routes.summary_id (Routes.user c) = k).
  { intros k c Hin. apply (get_In_NoDup _ _ _ Hnd) in Hin.
    rewrite Hinv in Hin. unfold conversation_with in Hin.
    destruct (JsMap.get k (MemStorage.users st)) as [otherUser|] eqn:Huser;
      [|discriminate].
    destruct (messages_with userId k messages); [discriminate|].
    injection Hin as <-. simpl. split.
    - apply get_Some_key in Huser. specialize (Hrange _ Huser).
      unfold JsRecord.is_index. apply Bool.andb_true_iff.
      rewrite Z.leb_le, Z.ltb_lt. lia.
    - apply get_Some_In in Huser. now apply Hids. }
  unfold JsRecord.values.
  assert (Hall : filter (fun p => JsRecord.is_index (fst p)) conversations
                 = conversations).
  { apply forallb_filter_id. apply forallb_forall. intros [k c] Hin.
    exact (proj1 (Hentry k c Hin)). }
  assert (Hnone : filter (fun p => negb (JsRecord.is_index (fst p)))
                         conversations = []).
  { apply filter_none. intros [k c] Hin. cbn [fst].
    now rewrite (proj1 (Hentry k c Hin)). }
  rewrite Hall, Hnone, app_nil_r.
  apply (StronglySorted_map
           (fun p q : Z * Routes.conversation => fst p < fst q)).
  - intros [k c] [k' c'] Hin Hin' Hlt. unfold by_user_id. simpl in *.
    apply In_sort_iff in Hin, Hin'.
    now rewrite (proj2 (Hentry _ _ Hin)), (proj2 (Hentry _ _ Hin')).
  - apply Sorted_strict_keys.
    + eapply Permutation_NoDup; [|exact Hnd].
      apply Permutation_map. apply Permutation_sym, sort_Permutation.
    + apply sort_Sorted. intros x y. lia.
Qed.

(** ** The deliveries of a user *)

Lemma enrich_reads delivery st :
  Routes.enrich delivery st
  = (Returned
       {| Routes.delivery := delivery;
          Routes.trip :=
            JsMap.get (Delivery.tripId delivery) (MemStorage.trips st);
          Routes.package :=
            JsMap.get (Delivery.packageId delivery) (MemStorage.packages st);
          Routes.sender :=
            option_map Routes.party_of
              (JsMap.get (Delivery.senderId delivery) (MemStorage.users st));
          Routes.traveler :=
            option_map Routes.party_of
              (JsMap.get (Delivery.travelerId delivery)
                         (MemStorage.users st)) |},
     st).
Proof. reflexivity. Qed.

Lemma enrich_all_reads st : forall deliveries,
  Routes.enrich_all deliveries st
  = (Returned
       (map (fun delivery =>
               match fst (Routes.enrich delivery st) with
               | Returned enriched => enriched
               | Thrown _ =>
                   Routes.mkEnrichedDelivery delivery None None None None
               end)
            deliveries),
     st).
Proof.
  induction deliveries as [|delivery deliveries IH];
    cbn [Routes.enrich_all map]; [reflexivity|].
  unfold Method.bind. rewrite enrich_reads, IH. reflexivity.
Qed.

Lemma ids_of_values {V : Type} (id : V -> Z) (m : JsMap.t V) :
  ids_are_keys id m -> map id (JsMap.values m) = JsMap.keys m.
Proof.
  intros H. unfold JsMap.values, JsMap.keys. rewrite map_map.
  apply map_ext_in. intros [k v] Hin. now apply H.
Qed.

Lemma filter_by_id {A : Type} (id : A -> Z) (f : A -> bool) l x :
  NoDup (map id l) -> In x l ->
  filter (fun y => id y =? id x) (filter f l) = if f x then [x] else [].
Proof.
  induction l as [|y l IH]; simpl; [tauto|].
  intros Hnd Hin. inversion Hnd as [|? ? Hnot Hnd']; subst.
  assert (Hrest : forall z, In z l -> id z = id y -> False).
  { intros z Hz E. apply Hnot. rewrite <- E. now apply in_map. }
  destruct Hin as [->|Hin].
  - assert (Hnone : filter (fun y => id y =? id x) (filter f l) = []).
    { apply filter_none. intros z Hz. apply filter_In in Hz.
      apply Z.eqb_neq. intros E. exact (Hrest z (proj1 Hz) E). }
    destruct (f x); simpl; [rewrite Z.eqb_refl|]; now rewrite Hnone.
  - destruct (f y); simpl; [|now apply IH].
    destruct (Z.eqb_spec (id y) (id x)) as [E|_]; [|now apply IH].
    exfalso. exact (Hrest x Hin (eq_sym E)).
Qed.

(** X30.  [GET /api/deliveries/user] answers 401 without a session.  With
    one it leaves the store as it is and answers 200 with the deliveries
    in which the user of the session is the traveler, followed by those
    in which the user is the sender, each with its trip, its package and
    its two parties as the store holds them, or nothing where the store
    holds none.  On a store that the methods have built a delivery is so
    listed once for each of the two roles that the user has in it: twice
    when the user is both its traveler and its sender. *)
Theorem get_deliveries_user_lists_both_roles
    (st : MemStorage.t) (userId : Z) :
  Routes.get_deliveries_user None st
  = (Returned (Routes.mkResponse 401 (Routes.Message "Not authenticated")),
     st)
  /\ exists travelerDeliveries senderDeliveries response,
      fst (MemStorage.getDeliveriesByUserId userId Delivery.traveler st)
      = Returned travelerDeliveries
      /\ fst (MemStorage.getDeliveriesByUserId userId Delivery.sender st)
         = Returned senderDeliveries
      /\ Routes.get_deliveries_user (Some userId) st
         = (Returned (Routes.mkResponse 200 (Routes.Json response)), st)
      /\ map Routes.delivery response
         = travelerDeliveries ++ senderDeliveries
      /\ (forall e,
             In e response ->
             fst (MemStorage.getTrip
                    (Delivery.tripId (Routes.delivery e)) st)
             = Returned (Routes.trip e)
             /\ fst (MemStorage.getPackage
                       (Delivery.packageId (Routes.delivery e)) st)
                = Returned (Routes.package e)
             /\ (exists sender,
                    fst (MemStorage.getUser
                           (Delivery.senderId (Routes.delivery e)) st)
                    = Returned sender
                    /\ Routes.sender e = option_map Routes.party_of sender)
             /\ (exists traveler,
                    fst (MemStorage.getUser
                           (Delivery.travelerId (Routes.delivery e)) st)
                    = Returned traveler
                    /\ Routes.traveler e
                       = option_map Routes.party_of traveler))
      /\ (well_formed st ->
          forall d,
            In d (JsMap.values (MemStorage.deliveries st)) ->
            List.length
              (filter (fun e => Delivery.id (Routes.delivery e)
                                =? Delivery.id d) response)
            = ((if (Delivery.travelerId d =? userId)%Z then 1 else 0)
               + (if (Delivery.senderId d =? userId)%Z then 1 else 0))%nat).
Proof.
  split; [reflexivity|].
  do 3 eexists. split; [reflexivity|]. split; [reflexivity|].
  split.
  { unfold Routes.get_deliveries_user, MemStorage.getDeliveriesByUserId.
    run_handler. rewrite enrich_all_reads. reflexivity. }
  split; [|split].
  - rewrite map_map. cbn [fst Routes.enrich]. rewrite <- (map_id (_ ++ _)) at 2.
    apply map_ext. intros d. now rewrite enrich_reads.
  - intros e He. apply in_map_iff in He. destruct He as (d & <- & _).
    rewrite enrich_reads. cbn [fst Routes.delivery Routes.trip
      Routes.package Routes.sender Routes.traveler].
    rewrite getTrip_eq, getPackage_eq, !getUser_eq. cbn [fst].
    repeat split; eexists; split; reflexivity.
  - intros Hst d Hd.
    destruct Hst as (_ & _ & _ & (_ & Hnd & _) & _ & _ & _ & Hids & _).
    rewrite <- (ids_of_values _ _ Hids) in Hnd.
    rewrite <- (length_map Routes.delivery).
    assert (Hmap : forall l,
               map Routes.delivery
                   (filter (fun e => Delivery.id (Routes.delivery e)
                                     =? Delivery.id d)
                      (map (fun delivery =>
                              match fst (Routes.enrich delivery st) with
                              | Returned enriched => enriched
                              | Thrown _ =>
                                  Routes.mkEnrichedDelivery delivery
                                    None None None None
                              end) l))
               = filter (fun x => Delivery.id x =? Delivery.id d) l).
    { induction l as [|x l IH]; [reflexivity|]. cbn [map filter].
      rewrite enrich_reads. cbn [fst Routes.delivery].
      destruct (Delivery.id x =? Delivery.id d); cbn [map];
        now rewrite IH. }
    rewrite Hmap, filter_app, length_app.
    rewrite !(filter_by_id Delivery.id _ _ _ Hnd Hd).
    destruct (Delivery.travelerId d =? userId),
      (Delivery.senderId d =? userId); reflexivity.
Qed.

(** * The properties at work on an example *)

Lemma reachable_get_returns_id_witness :
  User.id Scenario.user = 1 /\ 1 <= 1 < MemStorage.userId Sample.store.
Proof.
  apply (proj1 (reachable_get_returns_id Sample.calls 1) Scenario.user).
  reflexivity.
Defined.

Lemma createUser_registers_witness :
  fst (MemStorage.getUser 1
         (snd (MemStorage.createUser Sample.otherData "hash" 0
                 Scenario.user_store)))
  = fst (MemStorage.getUser 1 Scenario.user_store).
Proof.
  destruct (createUser_registers
              [MemStorage.CreateUser Scenario.userData "hash" 0]
              Sample.otherData "hash" 0)
    as (user & _ & Huser & _ & _ & Hframe & _).
  apply Hframe. subst user. vm_compute. discriminate.
Defined.

Lemma createTrip_lists_trip_witness :
  fst (MemStorage.getTrip 1
         (snd (MemStorage.createTrip Scenario.tripData 2 7 Sample.store)))
  = fst (MemStorage.getTrip 1 Sample.store).
Proof.
  destruct (createTrip_lists_trip Sample.calls Scenario.tripData 2 7)
    as (trip & listed & owned & _ & Hid & _ & _ & _ & _ & _ & _ & _ & _
        & Hframe & _).
  apply Hframe. rewrite Hid. vm_compute. discriminate.
Defined.

Lemma createPackage_lists_package_witness :
  fst (MemStorage.getPackage 1
         (snd (MemStorage.createPackage Scenario.packageData 1 7
                 Sample.store)))
  = fst (MemStorage.getPackage 1 Sample.store).
Proof.
  destruct (createPackage_lists_package Sample.calls Scenario.packageData
              1 7)
    as (pkg & listed & owned & _ & Hid & _ & _ & _ & _ & _ & _ & _ & _
        & Hframe & _).
  apply Hframe. rewrite Hid. vm_compute. discriminate.
Defined.

Lemma createMessage_joins_conversation_witness :
  fst (MemStorage.getMessagesBetweenUsers 1 3
         (snd (MemStorage.createMessage Sample.hello 13 Sample.store)))
  = fst (MemStorage.getMessagesBetweenUsers 1 3 Sample.store).
Proof.
  apply (createMessage_joins_conversation Sample.calls Sample.hello 13).
  vm_compute. intros [[H _]|[H _]]; discriminate.
Defined.


Lemma updateTrip_merges_payload_witness :
  fst (MemStorage.getTrip 1
         (snd (MemStorage.updateTrip 1 (trip_isActive (Some false))
                 Sample.store)))
  = Returned (Some (Trip.spread Scenario.trip (trip_isActive (Some false)))).
Proof.
  apply (proj1 (proj2 (updateTrip_merges_payload Sample.store 1
                         (trip_isActive (Some false)))) Scenario.trip).
  reflexivity.
Defined.

Lemma updatePackage_merges_payload_witness :
  fst (MemStorage.getPackage 1
         (snd (MemStorage.updatePackage 1 (package_isActive (Some false))
                 Sample.store)))
  = Returned
      (Some (Package.spread Scenario.matched_pkg
                            (package_isActive (Some false)))).
Proof.
  apply (proj1 (proj2 (updatePackage_merges_payload Sample.store 1
                         (package_isActive (Some false))))
           Scenario.matched_pkg).
  reflexivity.
Defined.

Lemma deactivated_is_hidden_from_listing_witness :
  let hidden := Trip.spread Scenario.trip (trip_isActive (Some false)) in
  let st' :=
    snd (MemStorage.updateTrip 1 (trip_isActive (Some false))
           Sample.store) in
  (exists listed,
      fst (MemStorage.getTrips None st') = Returned listed
      /\ ~ In hidden listed)
  /\ fst (MemStorage.getTrip 1 st') = Returned (Some hidden)
  /\ exists owned,
      fst (MemStorage.getTripsByUserId 1 st') = Returned owned
      /\ In hidden owned.
Proof.
  intros hidden st'.
  destruct (proj1 (deactivated_is_hidden_from_listing 1 (Some false) eq_refl)
              Sample.store Scenario.trip None eq_refl)
    as (Hlisted & Hget & Howned).
  split; [|split; [exact Hget|]].
  - eexists. split; [reflexivity|]. now apply Hlisted.
  - eexists. split; [reflexivity|]. now apply Howned.
Defined.

Lemma createDelivery_links_without_checks_witness :
  MemStorage.packages
    (snd (MemStorage.createDelivery
            {| Delivery.Insert.tripId := 8;
               Delivery.Insert.packageId := 9;
               Delivery.Insert.travelerId := 1;
               Delivery.Insert.senderId := 2 |} 6 Sample.store))
  = MemStorage.packages Sample.store.
Proof.
  destruct (createDelivery_links_without_checks Sample.store
              {| Delivery.Insert.tripId := 8;
                 Delivery.Insert.packageId := 9;
                 Delivery.Insert.travelerId := 1;
                 Delivery.Insert.senderId := 2 |} 6)
    as (delivery & _ & _ & _ & _ & _ & _ & _ & _ & _ & _ & _ & _ & _
        & Hpackages).
  apply Hpackages. reflexivity.
Defined.

Lemma updatePaymentStatus_touches_one_field_witness :
  fst (MemStorage.getDelivery 1
         (snd (MemStorage.updatePaymentStatus 1 "in_escrow" 6
                 Sample.store)))
  = Returned
      (Some {| Delivery.id := 1;
               Delivery.tripId := 1;
               Delivery.packageId := 1;
               Delivery.travelerId := 1;
               Delivery.senderId := 2;
               Delivery.status := "pending";
               Delivery.paymentStatus := "in_escrow";
               Delivery.createdAt := 5;
               Delivery.updatedAt := 6 |}).
Proof.
  apply (proj1 (proj2 (updatePaymentStatus_touches_one_field Sample.store 1
                         "in_escrow" 6)) Scenario.delivery).
  reflexivity.
Defined.

Lemma markMessageAsRead_sets_flag_once_witness :
  fst (MemStorage.getMessage 1
         (snd (MemStorage.markMessageAsRead 1 Sample.store)))
  = Returned (Some (Sample.message 1 Sample.hello true 10)).
Proof.
  apply (proj2 (markMessageAsRead_sets_flag_once Sample.store 1)
           (Sample.message 1 Sample.hello false 10)).
  reflexivity.
Defined.

Lemma getUserByEmail_first_registered_witness :
  exists before after,
    JsMap.values (MemStorage.users Sample.store)
    = before ++ Sample.other :: after
    /\ same_email (User.email Sample.other) "B@EXAMPLE.ORG"
    /\ forall v, In v before -> ~ same_email (User.email v) "B@EXAMPLE.ORG".
Proof.
  apply (proj1 (proj1 (getUserByEmail_first_registered Sample.store
                         "B@EXAMPLE.ORG") Sample.other)).
  reflexivity.
Defined.

Lemma createUser_keeps_first_registration_witness :
  fst (MemStorage.getUserByEmail "A@example.org"
         (snd (MemStorage.createUser Scenario.userData "other hash" 9
                 Sample.store)))
  = Returned (Some Scenario.user).
Proof.
  apply (proj1 (createUser_keeps_first_registration Sample.calls
                  Scenario.userData "other hash" 9 "A@example.org")
           Scenario.user).
  reflexivity.
Defined.

Lemma confirmations_accumulate_in_any_order_witness :
  exists user',
    fst (MemStorage.getUser 1
           (MemStorage.exec_all
              (verification_calls 1
                 [User.Verification.Partial.mk None (Some true) None;
                  Scenario.id_checked;
                  User.Verification.Partial.mk None None (Some true)])
              Sample.store))
    = Returned (Some user')
    /\ User.verificationStatus user' = User.Verification.mk true true true
    /\ User.isVerified user' = true.
Proof.
  destruct (confirmations_accumulate_in_any_order Sample.store 1
              Scenario.user
              [User.Verification.Partial.mk None (Some true) None;
               Scenario.id_checked;
               User.Verification.Partial.mk None None (Some true)])
    as (user' & Hget & Hi & Hp & Ha & Hv & _).
  - reflexivity.
  - repeat constructor; discriminate.
  - discriminate.
  - exists user'. split; [exact Hget|].
    rewrite Hv, Hi, Hp, Ha. destruct (User.verificationStatus user').
    simpl in *. subst. split; reflexivity.
Defined.

Lemma updatePackage_detaches_id_from_key_witness :
  fst (MemStorage.getPackage 1
         (snd (MemStorage.createDelivery Scenario.deliveryData 5
                 (snd (MemStorage.updatePackage 1 (package_id_only 7)
                         Scenario.store))))) 
  = Returned (Some (Package.spread Scenario.pkg (package_id_only 7)))
  /\ Package.status (Package.spread Scenario.pkg (package_id_only 7))
     = Some "pending".
Proof.
  destruct (updatePackage_detaches_id_from_key Scenario.store 1 7
              Scenario.pkg Scenario.deliveryData 5 eq_refl eq_refl eq_refl)
    as (_ & Hstatus & _ & _ & Hget & _).
  split; [exact Hget | exact Hstatus].
Defined.

Lemma put_trip_only_by_owner_witness :
  Routes.put_trip (Some 2) 1 (trip_isActive (Some false)) Sample.store
  = (Returned
       (Routes.mkResponse 403
          (Routes.Message "Not authorized to update this trip")),
     Sample.store)
  /\ Routes.put_trip (Some 1) 1 (trip_isActive (Some false)) Sample.store
     = (Returned
          (Routes.mkResponse 200
             (Routes.Json
                (Some (Trip.spread Scenario.trip
                                   (trip_isActive (Some false)))))),
        snd (MemStorage.updateTrip 1 (trip_isActive (Some false))
               Sample.store)).
Proof.
  split.
  - apply (proj1 (proj2 (proj2 (put_trip_only_by_owner Sample.store 1
                                  (trip_isActive (Some false))) 2))
             Scenario.trip); [reflexivity|discriminate].
  - apply (proj2 (proj2 (proj2 (put_trip_only_by_owner Sample.store 1
                                  (trip_isActive (Some false))) 1))
             Scenario.trip); reflexivity.
Defined.

Lemma put_package_only_by_owner_witness :
  Routes.put_package (Some 1) 1 (package_isActive (Some false)) Sample.store
  = (Returned
       (Routes.mkResponse 403
          (Routes.Message "Not authorized to update this package")),
     Sample.store)
  /\ Routes.put_package (Some 2) 1 (package_isActive (Some false))
       Sample.store
     = (Returned
          (Routes.mkResponse 200
             (Routes.Json
                (Some (Package.spread Scenario.matched_pkg
                                      (package_isActive (Some false)))))),
        snd (MemStorage.updatePackage 1 (package_isActive (Some false))
               Sample.store)).
Proof.
  split.
  - apply (proj1 (proj2 (proj2 (put_package_only_by_owner Sample.store 1
                                  (package_isActive (Some false))) 1))
             Scenario.matched_pkg); [reflexivity|discriminate].
  - apply (proj2 (proj2 (proj2 (put_package_only_by_owner Sample.store 1
                                  (package_isActive (Some false))) 2))
             Scenario.matched_pkg); reflexivity.
Defined.

Lemma post_delivery_needs_package_and_trip_witness :
  Routes.post_delivery (Some 3)
    (Routes.mkDeliveryBody (Some 1) (Some 9) (Some 1) (Some 2)) "" 5
    Scenario.store
  = (Returned
       (Routes.mkResponse 404 (Routes.Message "Package or trip not found")),
     Scenario.store)
  /\ exists delivery,
      fst (MemStorage.createDelivery Scenario.deliveryData 5 Scenario.store)
      = Returned delivery
      /\ Routes.post_delivery (Some 3)
           (Routes.mkDeliveryBody (Some 1) (Some 1) (Some 1) (Some 2)) "" 5
           Scenario.store
         = (Returned (Routes.mkResponse 201 (Routes.Json delivery)),
            Scenario.matched_store).
Proof.
  split.
  - apply (proj1 (proj2 (proj2 (post_delivery_needs_package_and_trip
                                  Scenario.store
                                  (Routes.mkDeliveryBody (Some 1) (Some 9)
                                     (Some 1) (Some 2)) "" 5) 3))
             (Delivery.Insert.mk 1 9 1 2) eq_refl).
    left. reflexivity.
  - apply (proj2 (proj2 (proj2 (post_delivery_needs_package_and_trip
                                  Scenario.store
                                  (Routes.mkDeliveryBody (Some 1) (Some 1)
                                     (Some 1) (Some 2)) "" 5) 3))
             Scenario.deliveryData Scenario.pkg Scenario.trip
             eq_refl eq_refl eq_refl).
Defined.

Lemma put_delivery_status_only_by_parties_witness :
  Routes.put_delivery_status (Some 3) 1 (Some "delivered") 6 Sample.store
  = (Returned
       (Routes.mkResponse 403
          (Routes.Message "Not authorized to update this delivery")),
     Sample.store)
  /\ Routes.put_delivery_status (Some 1) 1 (Some "delivered") 6 Sample.store
     = (Returned
          (Routes.mkResponse 200
             (Routes.Json
                (Some {| Delivery.id := 1;
                         Delivery.tripId := 1;
                         Delivery.packageId := 1;
                         Delivery.travelerId := 1;
                         Delivery.senderId := 2;
                         Delivery.status := "delivered";
                         Delivery.paymentStatus := "pending";
                         Delivery.createdAt := 5;
                         Delivery.updatedAt := 6 |}))),
        snd (MemStorage.updateDeliveryStatus 1 "delivered" 6 Sample.store)).
Proof.
  split.
  - apply (proj1 (proj2 (proj2 (proj2 (put_delivery_status_only_by_parties
                                         Sample.store 1 (Some "delivered")
                                         6) 3)
                           "delivered" eq_refl eq_refl))
             Scenario.delivery); [reflexivity|discriminate|discriminate].
  - apply (proj2 (proj2 (proj2 (proj2 (put_delivery_status_only_by_parties
                                         Sample.store 1 (Some "delivered")
                                         6) 1)
                           "delivered" eq_refl eq_refl))
             Scenario.delivery); [reflexivity|right; reflexivity].
Defined.

Lemma put_delivery_payment_only_by_sender_witness :
  Routes.put_delivery_payment (Some 1) 1 (Some "released") 6 Sample.store
  = (Returned
       (Routes.mkResponse 403
          (Routes.Message "Not authorized to update payment status")),
     Sample.store)
  /\ Routes.put_delivery_payment (Some 2) 1 (Some "released") 6 Sample.store
     = (Returned
          (Routes.mkResponse 200
             (Routes.Json
                (Some {| Delivery.id := 1;
                         Delivery.tripId := 1;
                         Delivery.packageId := 1;
                         Delivery.travelerId := 1;
                         Delivery.senderId := 2;
                         Delivery.status := "pending";
                         Delivery.paymentStatus := "released";
                         Delivery.createdAt := 5;
                         Delivery.updatedAt := 6 |}))),
        snd (MemStorage.updatePaymentStatus 1 "released" 6 Sample.store)).
Proof.
  split.
  - apply (proj1 (proj2 (proj2 (proj2 (put_delivery_payment_only_by_sender
                                         Sample.store 1 (Some "released")
                                         6) 1)
                           "released" eq_refl eq_refl))
             Scenario.delivery); [reflexivity|discriminate].
  - apply (proj2 (proj2 (proj2 (proj2 (put_delivery_payment_only_by_sender
                                         Sample.store 1 (Some "released")
                                         6) 2)
                           "released" eq_refl eq_refl))
             Scenario.delivery); reflexivity.
Defined.

Lemma post_message_sender_is_session_user_witness :
  exists message,
    fst (MemStorage.createMessage Sample.reply 14 Sample.store)
    = Returned message
    /\ Message.senderId message = 1
    /\ Message.isRead message = false
    /\ Routes.post_message (Some 1)
         (Routes.mkMessageBody (Some 2) (Some 2) (Some "hi")) "" 14
         Sample.store
       = (Returned (Routes.mkResponse 201 (Routes.Json message)),
          snd (MemStorage.createMessage Sample.reply 14 Sample.store)).
Proof.
  apply (proj2 (proj2 (proj2 (proj2 (post_message_sender_is_session_user
                                       Sample.store
                                       (Routes.mkMessageBody (Some 2)
                                          (Some 2) (Some "hi")) "" 14) 1)
                         Sample.reply eq_refl))
           Sample.other).
  reflexivity.
Defined.

Lemma post_review_checks_delivery_parties_witness :
  Routes.post_review (Some 3)
    (Routes.mkReviewBody None (Some 1) (Some 1) (Some 5) None) "" 20
    Sample.store
  = (Returned
       (Routes.mkResponse 403
          (Routes.Message "Not authorized to review this delivery")),
     Sample.store)
  /\ exists review,
      fst (MemStorage.createReview (Review.Insert.mk 1 1 (Some 1) 5 None) 20
             Sample.store)
      = Returned review
      /\ Review.reviewerId review = 1
      /\ Routes.post_review (Some 1)
           (Routes.mkReviewBody (Some 2) (Some 1) (Some 1) (Some 5) None)
           "" 20 Sample.store
         = (Returned (Routes.mkResponse 201 (Routes.Json review)),
            snd (MemStorage.createReview
                   (Review.Insert.mk 1 1 (Some 1) 5 None) 20
                   Sample.store)).
Proof.
  split.
  - destruct (post_review_checks_delivery_parties Sample.store
                (Routes.mkReviewBody None (Some 1) (Some 1) (Some 5) None)
                "" 20) as [_ H].
    destruct (H 3) as [_ H1].
    destruct (H1 (Review.Insert.mk 3 1 (Some 1) 5 None) eq_refl)
      as [_ H2].
    assert (Hnz : 1 <> 0) by discriminate.
    destruct (H2 1 eq_refl Hnz) as [_ H3].
    destruct (H3 Scenario.delivery eq_refl) as (Hrefused & _).
    apply Hrefused. intros [E|E]; discriminate E.
  - destruct (post_review_checks_delivery_parties Sample.store
                (Routes.mkReviewBody (Some 2) (Some 1) (Some 1) (Some 5)
                   None) "" 20) as [_ H].
    destruct (H 1) as [_ H1].
    destruct (H1 (Review.Insert.mk 1 1 (Some 1) 5 None) eq_refl)
      as [_ H2].
    assert (Hnz : 1 <> 0) by discriminate.
    destruct (H2 1 eq_refl Hnz) as [_ H3].
    destruct (H3 Scenario.delivery eq_refl) as (_ & _ & Hcreated).
    apply Hcreated; right; reflexivity.
Defined.

Lemma post_verification_sets_named_flag_witness :
  exists updatedUser,
    Routes.post_verification (Some 1) (Some "phoneVerified") Sample.store
    = (Returned
         (Routes.mkResponse 200
            (Routes.Json (User.Verification.mk false true false, false))),
       MemStorage.set_users
         (JsMap.set 1 updatedUser (MemStorage.users Sample.store))
         Sample.store)
    /\ User.verificationStatus updatedUser
       = User.Verification.mk false true false
    /\ User.isVerified updatedUser = false
    /\ User.id updatedUser = 1.
Proof.
  destruct (proj2 (proj2 (proj2 (post_verification_sets_named_flag
                                   Sample.store (Some "phoneVerified")) 1)
                     "phoneVerified" eq_refl
                     (or_intror (or_introl eq_refl)))
              Scenario.user eq_refl)
    as (updatedUser & Hrun & Hflags & Hverified & Hid & _).
  exists updatedUser. repeat split; assumption.
Defined.

Lemma get_messages_with_marks_received_as_read_witness :
  exists messages,
    fst (MemStorage.getMessagesBetweenUsers 1 2 Sample.store)
    = Returned messages
    /\ Routes.get_messages_with (Some 1) 2 Sample.store
       = (Returned
            (Routes.mkResponse 200
               (Routes.Json (messages, Routes.summary Sample.other))),
          MemStorage.set_messages
            [(1, Sample.message 1 Sample.hello true 10);
             (2, Sample.message 2 Sample.reply false 11);
             (3, Sample.message 3 Sample.question true 12)]
            Sample.store).
Proof.
  apply (proj2 (proj2 (get_messages_with_marks_received_as_read
                         Sample.store 1 2)
                  (built_store_well_formed Sample.calls))
           Sample.other).
  reflexivity.
Defined.

Lemma get_messages_in_order_of_user_id_witness :
  exists response,
    Routes.get_messages (Some 1)
      (MemStorage.exec_all Sample.three_users MemStorage.new)
    = (Returned (Routes.mkResponse 200 (Routes.Json response)),
       MemStorage.exec_all Sample.three_users MemStorage.new)
    /\ map (fun c => Message.content (Routes.lastMessage c)) response
       = ["when?"; "late"]
    /\ StronglySorted by_user_id response.
Proof.
  eexists. split; [vm_compute; reflexivity|]. split; [reflexivity|].
  apply (get_messages_in_order_of_user_id
           (MemStorage.exec_all Sample.three_users MemStorage.new)
           (MemStorage.exec_all Sample.three_users MemStorage.new) 1).
  - apply built_store_well_formed.
  - vm_compute. discriminate.
  - vm_compute. reflexivity.
Defined.

Lemma get_deliveries_user_lists_both_roles_witness :
  exists response,
    Routes.get_deliveries_user (Some 1)
      (MemStorage.exec_all Sample.two_roles MemStorage.new)
    = (Returned (Routes.mkResponse 200 (Routes.Json response)),
       MemStorage.exec_all Sample.two_roles MemStorage.new)
    /\ map (fun e => Delivery.id (Routes.delivery e)) response = [1; 2; 2].
Proof.
  destruct (proj2 (get_deliveries_user_lists_both_roles
                     (MemStorage.exec_all Sample.two_roles MemStorage.new)
                     1))
    as (travelerDeliveries & senderDeliveries & response & Htraveler
        & Hsender & Hrun & Hmap & _).
  exists response. split; [exact Hrun|].
  rewrite <- (map_map Routes.delivery Delivery.id), Hmap.
  vm_compute in Htraveler, Hsender.
  injection Htraveler as <-. injection Hsender as <-. reflexivity.
Defined.
